(** * SmartScan: signal scoring, retrieval cache and fallback resolver

    A shallow embedding of the decision logic of the SmartScan market
    scanner:

    - [Scoring]  : [src/analysis/technical_indicators.py]
                   ([get_signal_strength], [generate_signals]);
    - [Calendar] : the date arithmetic of [datetime], [timedelta] and
                   [pandas.DateOffset] that the two modules below rely on;
    - [Cache]    : [src/data_collection/db_manager.py]
                   ([get_stock_data], [save_stock_data], [is_data_fresh]),
                   at the types of its schema;
    - [Database] : the same three functions on the table as SQLite holds
                   it after a save, with the text of the cells, the parses
                   and the [except] branches;
    - [Fetcher]  : [src/data_collection/nse_data_fetcher.py]
                   ([get_nifty50_symbols], [fetch_stock_data],
                   [fetch_nifty50_data]);
    - [Reading]  : vocabulary for further properties of the scoring;
    - [Pipeline] : [src/data_processing/data_processor.py]
                   ([process_stock_data]) and the minimum-history rule of
                   [calculate_technical_indicators];
    - [Collector]: [src/data_collection/stock_data.py]
                   ([get_stock_data], [get_multiple_stock_data]);
    - [Display]  : the grouping loop of [src/cli/command_line.py] and the
                   counters and categories of
                   [src/output/report_generator.py];
    - [Samples], [MoreSamples] : concrete rows, tables and providers for
                   the examples.

    The definitions come first; the facts about each module follow, in the
    sections [FloatOrder], [ScoringFacts], [CacheFacts], [DatabaseFacts],
    [FetcherFacts],
    [ScoringMore], [PipelineFacts], [DisplayFacts], [CacheMore],
    [CollectorFacts] and [FetcherMore].

    Python floats are IEEE-754 binary64 values and are modelled by Rocq's
    primitive floats, so every sum, product and comparison below is the one
    the interpreter performs, rounding and NaN included. *)

From Stdlib Require Import ZArith List String Ascii Bool Lia Floats.
From Stdlib Require Import Sorting.Sorted.
Import ListNotations.

Set Warnings "-inexact-float".

(** ** Exceptions

    The only exception the scoring code can meet on a numeric frame is the
    [KeyError] of a label lookup. *)

Inductive exn : Type :=
| KeyError (label : string).

Inductive result (A : Type) : Type :=
| Ok (a : A)
| Raise (e : exn).

Arguments Ok {A} a.
Arguments Raise {A} e.

Definition bind {A B : Type} (c : result A) (k : A -> result B) : result B :=
  match c with
  | Ok a => k a
  | Raise e => Raise e
  end.

Notation "x <- c ;; k" := (bind c (fun x => k))
  (at level 61, c at next level, right associativity).

(** * technical_indicators.py *)

Module Scoring.

Open Scope string_scope.

(** A row handed to [get_signal_strength] by [df.apply(..., axis=1)] is a
    labelled sequence of float64 values.  A missing observation is the
    value NaN; a column that was never computed is a label that is not
    there. *)
Definition Row : Type := list (string * float).

(** [row[label]] *)
Fixpoint row_get (row : Row) (label : string) : result float :=
  match row with
  | [] => Raise (KeyError label)
  | (k, v) :: rest => if String.eqb k label then Ok v else row_get rest label
  end.

(** [row[a] > row[b]]: left operand first, then the right one. *)
Definition gt (row : Row) (a b : string) : result bool :=
  x <- row_get row a ;; y <- row_get row b ;; Ok (y <? x)%float.

(** [row[a] < row[b]] *)
Definition lt (row : Row) (a b : string) : result bool :=
  x <- row_get row a ;; y <- row_get row b ;; Ok (x <? y)%float.

(** [row[a] > c] and [row[a] < c] for a literal [c]. *)
Definition gt_lit (row : Row) (a : string) (c : float) : result bool :=
  x <- row_get row a ;; Ok (c <? x)%float.

Definition lt_lit (row : Row) (a : string) (c : float) : result bool :=
  x <- row_get row a ;; Ok (x <? c)%float.

(** Python's [and]: the right operand is evaluated only when the left one
    is true, so a label read only on the right is not looked up otherwise. *)
Definition and_then (c1 c2 : result bool) : result bool :=
  b <- c1 ;; if b then c2 else Ok false.

(** The blocks of [get_signal_strength], in source order.  Each takes the
    running [strength] and returns the updated one. *)

(** Trend strength: lines 90-93. *)
Definition trend_strength (row : Row) (strength : float) : result float :=
  up <- and_then (gt row "Close" "SMA_20") (gt row "SMA_20" "SMA_50") ;;
  if up then Ok (strength + 1.5)%float
  else
    down <- and_then (lt row "Close" "SMA_20") (lt row "SMA_20" "SMA_50") ;;
    if down then Ok (strength - 1.5)%float else Ok strength.

(** ADX trend strength: lines 96-100. *)
Definition adx_trend_strength (row : Row) (strength : float) : result float :=
  strong <- gt_lit row "ADX" 25 ;;
  if strong then
    pos <- gt row "DI_plus" "DI_minus" ;;
    if pos then Ok (strength + 1)%float else Ok (strength - 1)%float
  else Ok strength.

(** RSI signals: lines 103-106. *)
Definition rsi_signals (row : Row) (strength : float) : result float :=
  oversold <- lt_lit row "RSI" 30 ;;
  if oversold then Ok (strength + 1)%float
  else
    overbought <- gt_lit row "RSI" 70 ;;
    if overbought then Ok (strength - 1)%float else Ok strength.

(** MACD signals: lines 109-112. *)
Definition macd_signals (row : Row) (strength : float) : result float :=
  above <- gt row "MACD" "MACD_Signal" ;;
  if above then Ok (strength + 1)%float else Ok (strength - 1)%float.

(** Vortex indicator: lines 115-118. *)
Definition vortex_indicator (row : Row) (strength : float) : result float :=
  pos <- gt row "VI_plus" "VI_minus" ;;
  if pos then Ok (strength + 0.5)%float else Ok (strength - 0.5)%float.

(** Volume and money flow: lines 121-122. *)
Definition volume_money_flow (row : Row) (strength : float) : result float :=
  high <- and_then (gt_lit row "Volume_Ratio" 1.5) (gt_lit row "CMF" 0) ;;
  if high then
    Ok (if (0 <? strength)%float then (strength * 1.2)%float
        else (strength * 0.8)%float)
  else Ok strength.

(** Support/resistance confirmation: lines 125-128. *)
Definition support_resistance (row : Row) (strength : float) : result float :=
  near_support <- lt row "Close" "S1" ;;
  if near_support then Ok (strength + 0.5)%float
  else
    near_resistance <- gt row "Close" "R1" ;;
    if near_resistance then Ok (strength - 0.5)%float else Ok strength.

(** ATR volatility adjustment: lines 131-133.  The quotient of two float64
    values never raises: a zero close gives an infinity or NaN. *)
Definition atr_adjustment (row : Row) (strength : float) : result float :=
  atr <- row_get row "ATR" ;;
  close <- row_get row "Close" ;;
  let atr_ratio := (atr / close)%float in
  if (0.02 <? atr_ratio)%float then Ok (strength * 0.8)%float else Ok strength.

(** The running total after the five additive indicator blocks. *)
Definition indicator_total (row : Row) : result float :=
  s <- trend_strength row 0 ;;
  s <- adx_trend_strength row s ;;
  s <- rsi_signals row s ;;
  s <- macd_signals row s ;;
  vortex_indicator row s.

Definition get_signal_strength (row : Row) : result float :=
  s <- indicator_total row ;;
  s <- volume_money_flow row s ;;
  s <- support_resistance row s ;;
  atr_adjustment row s.

(** The values the running total can have after the five additive
    blocks: the half-integers from -5 to 5. *)
Definition totals : list float :=
  [ -5; -4.5; -4; -3.5; -3; -2.5; -2; -1.5; -1; -0.5; 0;
    0.5; 1; 1.5; 2; 2.5; 3; 3.5; 4; 4.5; 5 ]%float.

(** The labels [get_signal_strength] reads on some path. *)
Definition required_columns : list string :=
  [ "Close"; "SMA_20"; "SMA_50"; "ADX"; "DI_plus"; "DI_minus"; "RSI";
    "MACD"; "MACD_Signal"; "VI_plus"; "VI_minus"; "Volume_Ratio"; "CMF";
    "S1"; "R1"; "ATR" ].

(** The labels it reads on every path. *)
Definition always_read : list string :=
  [ "Close"; "SMA_20"; "ADX"; "RSI"; "MACD"; "MACD_Signal"; "VI_plus";
    "VI_minus"; "Volume_Ratio"; "S1"; "ATR" ].

(** The value of a column of a row, for stating properties of rows. *)
Definition val (row : Row) (label : string) : float :=
  match row_get row label with
  | Ok v => v
  | Raise _ => nan
  end.

Definition present (row : Row) (label : string) : bool :=
  match row_get row label with
  | Ok _ => true
  | Raise _ => false
  end.

(** Every required column is there; its value may be NaN. *)
Definition all_present (row : Row) : bool :=
  forallb (present row) required_columns.

(** Every required column is there and holds a number. *)
Definition fully_populated (row : Row) : bool :=
  forallb (fun c => present row c && negb (is_nan (val row c)))
          required_columns.

(** ** generate_signals *)

Inductive Signal : Type := StrongBuy | Buy | Hold | Sell | StrongSell.

(** The [conditions] dictionary of lines 176-182, in insertion order. *)
Definition conditions (s : float) : list (Signal * bool) :=
  [ (StrongBuy, (2.5 <? s)%float);
    (Buy, (1 <? s)%float && (s <=? 2.5)%float);
    (Hold, (-1 <=? s)%float && (s <=? 1)%float);
    (Sell, (s <? -1)%float && (-2.5 <=? s)%float);
    (StrongSell, (s <? -2.5)%float) ].

(** Lines 185-189 for one row: the column starts as Hold and every
    condition that holds overwrites it, in dictionary order. *)
Definition assign_signal (s : float) : Signal :=
  fold_left (fun (cur : Signal) (sc : Signal * bool) =>
               if snd sc then fst sc else cur)
            (conditions s) Hold.

(** A frame: its column labels and its rows of values.  The frames that
    reach [generate_signals] come from [calculate_technical_indicators],
    which passes on only frames of at least 50 rows. *)
Record DataFrame : Type := {
  columns : list string;
  rows : list (list float)
}.

Definition row_of (df : DataFrame) (values : list float) : Row :=
  combine (columns df) values.

(** [df[label]], of which the callers here use only whether it raises. *)
Definition column (df : DataFrame) (label : string) : result unit :=
  if existsb (String.eqb label) (columns df) then Ok tt
  else Raise (KeyError label).

(** A row of the frame [generate_signals] stores under a symbol. *)
Record ScoredRow : Type := {
  indicators : Row;
  Signal_Strength : float;
  Signal_ : Signal
}.

(** [df.apply(get_signal_strength, axis=1)]: the first row that raises
    ends the whole call. *)
Fixpoint apply_rows (f : Row -> result float) (rs : list Row)
  : result (list float) :=
  match rs with
  | [] => Ok []
  | r :: rest => s <- f r ;; ss <- apply_rows f rest ;; Ok (s :: ss)
  end.

(** The body of the [try] of [generate_signals] for one frame.  The three
    reference columns are read (and rounded) after the signals are set. *)
Definition score_frame (df : DataFrame) : result (list ScoredRow) :=
  let rs := map (row_of df) (rows df) in
  strengths <- apply_rows get_signal_strength rs ;;
  _ <- column df "RSI" ;;
  _ <- column df "MACD" ;;
  _ <- column df "BB_Width" ;;
  Ok (map (fun rs => {| indicators := fst rs;
                        Signal_Strength := snd rs;
                        Signal_ := assign_signal (snd rs) |})
          (combine rs strengths)).

(** [generate_signals]: a frame whose scoring raises is logged and left
    out of the result; the loop goes on with the next symbol. *)
Fixpoint generate_signals (data : list (string * DataFrame))
  : list (string * list ScoredRow) :=
  match data with
  | [] => []
  | (symbol, df) :: rest =>
      match score_frame df with
      | Ok scored => (symbol, scored) :: generate_signals rest
      | Raise _ => generate_signals rest
      end
  end.

(** Score and category of a single row, as [generate_signals] pairs them. *)
Definition score_row (row : Row) : result (float * Signal) :=
  s <- get_signal_strength row ;; Ok (s, assign_signal s).

End Scoring.

(** * Dates and times

    The calendar arithmetic of Python's [datetime] and of
    [pandas.DateOffset], as far as the cache and the resolver use it.  A
    date is its proleptic Gregorian ordinal ([date.toordinal()]); a naive
    [datetime] is a date and the microseconds elapsed since midnight.  The
    range limits of the Python types (years 1 to 9999) are not modelled. *)

Module Calendar.

Open Scope Z_scope.

Definition date : Type := Z.

Record datetime : Type := {
  day : date;
  usec : Z
}.

Definition usec_per_day : Z := 86400000000.

(** The time of day [h:m:00.000000] in microseconds. *)
Definition time_of_day (h m : Z) : Z := (h * 3600 + m * 60) * 1000000.

Definition well_formed (t : datetime) : Prop := 0 <= usec t < usec_per_day.

(** [t + timedelta(hours=h, minutes=m)] *)
Definition add_hours_minutes (t : datetime) (h m : Z) : datetime :=
  let u := usec t + time_of_day h m in
  {| day := day t + u / usec_per_day; usec := u mod usec_per_day |}.

(** [t - timedelta(days=n)] *)
Definition sub_days (t : datetime) (n : Z) : datetime :=
  {| day := day t - n; usec := usec t |}.

(** [t.replace(hour=h, minute=m, second=0, microsecond=0)] *)
Definition replace_time (t : datetime) (h m : Z) : datetime :=
  {| day := day t; usec := time_of_day h m |}.

(** [a < b] and [a <= b] on naive datetimes. *)
Definition dt_ltb (a b : datetime) : bool :=
  (day a <? day b) || ((day a =? day b) && (usec a <? usec b)).

Definition dt_leb (a b : datetime) : bool :=
  (day a <? day b) || ((day a =? day b) && (usec a <=? usec b)).

Definition dt_max (a b : datetime) : datetime :=
  if dt_ltb a b then b else a.

(** Civil dates, after CPython's [_ymd2ord] and [_ord2ymd]. *)
Definition is_leap (y : Z) : bool :=
  (y mod 4 =? 0) && (negb (y mod 100 =? 0) || (y mod 400 =? 0)).

Definition DAYS_IN_MONTH (m : Z) : Z :=
  nth (Z.to_nat m) [-1; 31; 28; 31; 30; 31; 30; 31; 31; 30; 31; 30; 31] 0.

Definition days_in_month (y m : Z) : Z :=
  if (m =? 2) && is_leap y then 29 else DAYS_IN_MONTH m.

Definition DAYS_BEFORE_MONTH (m : Z) : Z :=
  nth (Z.to_nat m) [0; 0; 31; 59; 90; 120; 151; 181; 212; 243; 273; 304; 334] 0.

Definition days_before_month (y m : Z) : Z :=
  DAYS_BEFORE_MONTH m + (if (2 <? m) && is_leap y then 1 else 0).

Definition days_before_year (y : Z) : Z :=
  let p := y - 1 in p * 365 + p / 4 - p / 100 + p / 400.

Definition ymd2ord (y m d : Z) : date :=
  days_before_year y + days_before_month y m + d.

Definition ord2ymd (ordinal : date) : Z * Z * Z :=
  let n := ordinal - 1 in
  let n400 := n / 146097 in
  let n := n mod 146097 in
  let n100 := n / 36524 in
  let n := n mod 36524 in
  let n4 := n / 1461 in
  let n := n mod 1461 in
  let n1 := n / 365 in
  let n := n mod 365 in
  let year := n400 * 400 + 1 + n100 * 100 + n4 * 4 + n1 in
  if (n1 =? 4) || (n100 =? 4) then (year - 1, 12, 31)
  else
    let leapyear := (n1 =? 3) && (negb (n4 =? 24) || (n100 =? 3)) in
    let month := Z.shiftr (n + 50) 5 in
    let preceding :=
      DAYS_BEFORE_MONTH month + (if (2 <? month) && leapyear then 1 else 0) in
    if n <? preceding then
      let month := month - 1 in
      let preceding :=
        preceding - (DAYS_IN_MONTH month
                     + (if (month =? 2) && leapyear then 1 else 0)) in
      (year, month, n - preceding + 1)
    else (year, month, n - preceding + 1).

(** [t - pandas.DateOffset(months=k)]: the month moves back by [k], the day
    is clipped to the length of the month reached, the time is kept. *)
Definition sub_months (t : datetime) (k : Z) : datetime :=
  let '(y, m, d) := ord2ymd (day t) in
  let months := y * 12 + (m - 1) - k in
  let y' := months / 12 in
  let m' := months mod 12 + 1 in
  let d' := Z.min d (days_in_month y' m') in
  {| day := ymd2ord y' m' d'; usec := usec t |}.

(** Midnight of a civil date, and a time on it, for writing examples. *)
Definition at_time (y m d h mi : Z) : datetime :=
  {| day := ymd2ord y m d; usec := time_of_day h mi |}.

End Calendar.

(** * db_manager.py, at the types of its schema

    The table as [_init_db] declares it: a calendar date in the [date]
    column and a timestamp in [last_updated].  This is the table the
    queries of the class are written for, and the facts proved on it are
    those that do not depend on how a cell is stored: which rows a save
    leaves behind, what a save of nothing does, how an answer of
    [is_data_fresh] changes with the clock.  What SQLite holds once
    [save_stock_data] has written is text in other formats; the parses of
    the readers and their [except] branches are in [Database] below. *)

Module Cache.

Import Calendar.
Open Scope Z_scope.

(** One bar of a price series, as [get_stock_data] selects it. *)
Record Bar : Type := {
  bar_date : date;
  bar_open : float;
  bar_high : float;
  bar_low : float;
  bar_close : float;
  bar_volume : Z
}.

(** A row of the [stock_data] table of [_init_db].  [last_updated] may be
    NULL in the schema; the rows [save_stock_data] writes always carry one.
    The [date] column holds calendar dates, as the schema declares it. *)
Record StoredRow : Type := {
  symbol : string;
  bar : Bar;
  last_updated : option datetime
}.

Definition Table : Type := list StoredRow.

(** [ORDER BY date]: a stable insertion sort on the date. *)
Fixpoint insert_by_date (b : Bar) (l : list Bar) : list Bar :=
  match l with
  | [] => [b]
  | x :: rest =>
      if bar_date b <=? bar_date x then b :: l
      else x :: insert_by_date b rest
  end.

Fixpoint order_by_date (l : list Bar) : list Bar :=
  match l with
  | [] => []
  | b :: rest => insert_by_date b (order_by_date rest)
  end.

(** [WHERE symbol = ?] *)
Definition rows_of (sym : string) (t : Table) : list StoredRow :=
  filter (fun r => String.eqb (symbol r) sym) t.

(** [get_stock_data]: the bars of [sym] dated between [start_date.date()]
    and [end_date.date()], both included, by ascending date; [None] when
    the query selects no row.  The comparison of the stored text and the
    [except] branch are in [Database.get_stock_data]. *)
Definition get_stock_data (sym : string) (start_date end_date : datetime)
                          (t : Table) : option (list Bar) :=
  let selected :=
    filter (fun b => (day start_date <=? bar_date b)
                     && (bar_date b <=? day end_date))
           (map bar (rows_of sym t)) in
  let df := order_by_date selected in
  if (0 <? List.length df)%nat then Some df else None.

(** [save_stock_data] at clock reading [now].  [data] is [None] for the
    Python [None].  [to_sql(..., if_exists='replace')] drops the table and
    creates it again from the frame being saved. *)
Definition save_stock_data (now : datetime) (sym : string)
                           (data : option (list Bar)) (t : Table) : Table :=
  match data with
  | None => t
  | Some [] => t
  | Some bars =>
      map (fun b => {| symbol := sym; bar := b; last_updated := Some now |})
          bars
  end.

(** The aggregates of the query of [is_data_fresh]: [MAX] over the
    selected rows, NULL when there is no value to take it over. *)
Fixpoint max_date (l : list date) : option date :=
  match l with
  | [] => None
  | d :: rest =>
      match max_date rest with
      | None => Some d
      | Some m => Some (Z.max d m)
      end
  end.

Fixpoint max_datetime (l : list (option datetime)) : option datetime :=
  match l with
  | [] => None
  | None :: rest => max_datetime rest
  | Some u :: rest =>
      match max_datetime rest with
      | None => Some u
      | Some m => Some (dt_max u m)
      end
  end.

Definition latest_date (sym : string) (t : Table) : option date :=
  max_date (map (fun r => bar_date (bar r)) (rows_of sym t)).

Definition latest_update (sym : string) (t : Table) : option datetime :=
  max_datetime (map last_updated (rows_of sym t)).

(** [is_data_fresh] at clock reading [now] ([datetime.now()]).  The
    [lookback_days] argument is not used by the source.  The source reads
    the two aggregates back as text and parses them; here the table holds
    dates and timestamps, and the parse, with its failure, is in
    [Database.is_data_fresh]. *)
Definition is_data_fresh (now : datetime) (sym : string) (t : Table) : bool :=
  match latest_date sym t, latest_update sym t with
  | Some latest, Some _ =>
      let ist_now := add_hours_minutes now 5 30 in
      let cutoff_time := replace_time ist_now 17 30 in
      let latest_required_date :=
        if dt_ltb ist_now cutoff_time then day (sub_days ist_now 2)
        else day (sub_days ist_now 1) in
      latest_required_date <=? latest
  | _, _ => false
  end.

(** ** Vocabulary for the properties of the cache *)

(** The row [save_stock_data] writes for a bar. *)
Definition stamp (now : datetime) (sym : string) (b : Bar) : StoredRow :=
  {| symbol := sym; bar := b; last_updated := Some now |}.

(** The date the freshness rule asks for, in the words of the rule: two
    days before the Indian date before 17:30 Indian time, one day before it
    from 17:30 on. *)
Definition required_date (ist_now : datetime) : date :=
  if usec ist_now <? time_of_day 17 30 then day ist_now - 2
  else day ist_now - 1.

End Cache.

(** * nse_data_fetcher.py *)

Module Fetcher.

Import Calendar.
Open Scope string_scope.

(** ** Strings

    [sub in s] and [s.replace(old, new)] for a non-empty [old]: the
    occurrences are replaced from the left and do not overlap. *)
Fixpoint contains (sub s : string) : bool :=
  String.prefix sub s
  || match s with
     | EmptyString => false
     | String _ rest => contains sub rest
     end.

Fixpoint replace_from (skip : nat) (old new s : string) : string :=
  match s with
  | EmptyString => EmptyString
  | String c rest =>
      match skip with
      | S k => replace_from k old new rest
      | O =>
          if String.prefix old s
          then new ++ replace_from (String.length old - 1) old new rest
          else String c (replace_from 0 old new rest)
      end
  end.

Definition replace (old new s : string) : string := replace_from 0 old new s.

(** ** The market-data provider *)

(** A row of a price history: the timestamp it is indexed by and its
    values.  [index] is the wall-clock reading of the label and [tz] its
    zone: [None] for a naive timestamp, the offset from UTC in minutes for
    a zone-aware one.  The labels of one frame have one zone. *)
Record PriceRow : Type := {
  index : datetime;
  tz : option Z;
  Open : float;
  High : float;
  Low : float;
  Close : float;
  Volume : Z
}.

Definition Frame : Type := list PriceRow.

(** [df.empty] *)
Definition empty (df : Frame) : bool :=
  match df with
  | [] => true
  | _ :: _ => false
  end.

(** What one call of [ticker.history(period=...)] does: it returns a frame
    or raises. *)
Inductive response : Type :=
| Returned (df : Frame)
| Raised.

(** A ticker object, seen through its [history] method, and [yf.Ticker]. *)
Definition Ticker : Type := string -> response.
Definition Provider : Type := string -> Ticker.

(** ** What the resolver does besides returning: the provider calls it
    makes and the records it logs, in order. *)
Inductive level : Type := INFO | WARNING | ERROR.

Inductive message : Type :=
| SuccessfullyFetched (symbol period : string)
| FailedToFetch (symbol period : string)
| NoDataAvailable (symbol : string)
| FetchedData (symbol : string)
| NoDataAllTried (symbol : string)
| NoSymbolsFound
| CsvError.

Inductive event : Type :=
| History (symbol period : string)
| Log (lvl : level) (msg : message).

(** ** fetch_stock_data *)

(** The start of the span a wider window is trimmed to: lines 59-64. *)
Definition trim_start (default_period : string) (end_date : datetime)
  : datetime :=
  if String.eqb default_period "3mo" then sub_months end_date 3
  else if String.eqb default_period "1mo" then sub_months end_date 1
  else sub_days end_date 90.

(** ** [stock_data.loc[start_date:end_date]]

    The slice of a frame indexed by time between two naive timestamps, as
    pandas computes it: the two labels are turned into positions and the
    rows between the positions are returned.

    - On a zone-aware index the naive bounds cannot be compared with the
      labels and the slice raises.
    - On an index in ascending order the positions are the number of labels
      before [start_date] and the number of labels up to [end_date].
    - On an index in descending order they are the number of labels after
      [start_date] and the number of labels down to [end_date].
    - On any other index a bound has a position only when it occurs among
      the labels, in one run; otherwise the slice raises. *)
Definition dt_eqb (a b : datetime) : bool :=
  ((day a =? day b) && (usec a =? usec b))%Z.

Definition zoned (df : Frame) : bool :=
  existsb (fun r => match tz r with Some _ => true | None => false end) df.

(** [index.is_monotonic_increasing] and [index.is_monotonic_decreasing] *)
Fixpoint increasing (labels : list datetime) : bool :=
  match labels with
  | a :: (b :: _) as rest => dt_leb a b && increasing rest
  | _ => true
  end.

Fixpoint decreasing (labels : list datetime) : bool :=
  match labels with
  | a :: (b :: _) as rest => dt_leb b a && decreasing rest
  | _ => true
  end.

Definition count (p : datetime -> bool) (labels : list datetime) : nat :=
  List.length (filter p labels).

(** The length of the run of [label] a list starts with. *)
Fixpoint run_of (label : datetime) (labels : list datetime) : nat :=
  match labels with
  | l :: rest => if dt_eqb l label then S (run_of label rest) else O
  | [] => O
  end.

(** The positions of the one run of [label] among the labels: its first
    position and the position after its last. *)
Fixpoint span (label : datetime) (labels : list datetime)
  : option (nat * nat) :=
  match labels with
  | [] => None
  | l :: rest =>
      if dt_eqb l label then
        let n := run_of label rest in
        if existsb (fun x => dt_eqb x label) (skipn n rest) then None
        else Some (O, S n)
      else match span label rest with
           | Some (i, j) => Some (S i, S j)
           | None => None
           end
  end.

Definition slice_bounds (start_date end_date : datetime)
                        (labels : list datetime) : option (nat * nat) :=
  if increasing labels then
    Some (count (fun l => dt_ltb l start_date) labels,
          count (fun l => dt_leb l end_date) labels)
  else if decreasing labels then
    Some (count (fun l => dt_ltb start_date l) labels,
          count (fun l => dt_leb end_date l) labels)
  else
    match span start_date labels, span end_date labels with
    | Some (i, _), Some (_, j) => Some (i, j)
    | _, _ => None
    end.

(** [None] stands for the exception of a slice that raises. *)
Definition loc (start_date end_date : datetime) (df : Frame)
  : option Frame :=
  if zoned df then None
  else match slice_bounds start_date end_date (map index df) with
       | Some (i, j) => Some (skipn i (firstn j df))
       | None => None
       end.

(** The loop of lines 52-71 over the periods still to try; [now] is the
    reading of [pd.Timestamp.now()].  The trim is inside the [try]: when
    the slice raises, after the success was logged, the [except] logs the
    period as failed and the loop goes on with the next one. *)
Fixpoint try_periods (ticker : Ticker) (symbol default_period : string)
                     (now : datetime) (periods : list string)
  : (Frame * option string) * list event :=
  match periods with
  | [] => (([], None), [])
  | period :: rest =>
      match ticker period with
      | Returned stock_data =>
          if negb (empty stock_data) then
            let fetched :=
              [History symbol period;
               Log INFO (SuccessfullyFetched symbol period)] in
            if negb (String.eqb period default_period) then
              match loc (trim_start default_period now) now stock_data with
              | Some trimmed => ((trimmed, Some period), fetched)
              | None =>
                  let '(r, ev) :=
                    try_periods ticker symbol default_period now rest in
                  (r, (fetched
                       ++ Log WARNING (FailedToFetch symbol period) :: ev)%list)
              end
            else ((stock_data, Some period), fetched)
          else
            let '(r, ev) :=
              try_periods ticker symbol default_period now rest in
            (r, History symbol period :: ev)
      | Raised =>
          let '(r, ev) :=
            try_periods ticker symbol default_period now rest in
          (r, History symbol period
              :: Log WARNING (FailedToFetch symbol period) :: ev)
      end
  end.

Definition periods_of (default_period : string) : list string :=
  [default_period; "ytd"; "1y"; "max"].

Definition fetch_stock_data (ticker : Ticker) (symbol default_period : string)
                            (now : datetime)
  : (Frame * option string) * list event :=
  try_periods ticker symbol default_period now (periods_of default_period).

(** ** get_nifty50_symbols *)

Definition symbol_mapping : list (string * string) :=
  [ ("RELIANCE", "RELIANCE.BO");
    ("M&M", "M&M.BO");
    ("TATAMOTORS", "TATAMOTORS.BO");
    ("MARUTI", "MARUTI.BO");
    ("BAJAJ-AUTO", "BAJAJ-AUTO.BO") ].

Fixpoint mapping_get (m : list (string * string)) (key default : string)
  : string :=
  match m with
  | [] => default
  | (k, v) :: rest => if String.eqb k key then v else mapping_get rest key default
  end.

(** [csv] is the [Symbol] column of the list file, [None] when reading it
    fails. *)
Definition get_nifty50_symbols (csv : option (list string)) : list string :=
  match csv with
  | None => []
  | Some symbols =>
      map (fun symbol => mapping_get symbol_mapping symbol (symbol ++ ".NS"))
          symbols
  end.

(** ** fetch_nifty50_data *)

(** The [data] dictionary: keys in insertion order, a key set again keeps
    its place. *)
Fixpoint dict_set (key : string) (v : Frame) (d : list (string * Frame))
  : list (string * Frame) :=
  match d with
  | [] => [(key, v)]
  | (k, x) :: rest =>
      if String.eqb k key then (k, v) :: rest else (k, x) :: dict_set key v rest
  end.

Fixpoint dict_get (key : string) (d : list (string * Frame)) : option Frame :=
  match d with
  | [] => None
  | (k, x) :: rest => if String.eqb k key then Some x else dict_get key rest
  end.

(** Lines 94-120 for one symbol: the symbol and the frame the body ends
    with. *)
Definition resolve_symbol (yf : Provider) (now : datetime)
                          (period symbol : string)
  : (string * Frame) * list event :=
  let '((stock_data, _), ev0) :=
    fetch_stock_data (yf symbol) symbol period now in
  if empty stock_data then
    let '((symbol1, stock_data1), ev1) :=
      if contains ".NS" symbol then
        let bse_symbol := replace ".NS" ".BO" symbol in
        let '((sd, _), ev) :=
          fetch_stock_data (yf bse_symbol) bse_symbol period now in
        ((if negb (empty sd) then bse_symbol else symbol, sd), ev)
      else if contains ".BO" symbol then
        let nse_symbol := replace ".BO" ".NS" symbol in
        let '((sd, _), ev) :=
          fetch_stock_data (yf nse_symbol) nse_symbol period now in
        ((if negb (empty sd) then nse_symbol else symbol, sd), ev)
      else ((symbol, stock_data), []) in
    let '((symbol2, stock_data2), ev2) :=
      if empty stock_data1 then
        let base_symbol := replace ".BO" "" (replace ".NS" "" symbol1) in
        let '((sd, _), ev) :=
          fetch_stock_data (yf base_symbol) base_symbol period now in
        ((if negb (empty sd) then base_symbol else symbol1, sd), ev)
      else ((symbol1, stock_data1), []) in
    ((symbol2, stock_data2),
     (ev0 ++ [Log WARNING (NoDataAvailable symbol)] ++ ev1 ++ ev2)%list)
  else ((symbol, stock_data), ev0).

(** The loop over the symbols, from the dictionary built so far.  The
    provider errors are caught inside [fetch_stock_data], so the body of the
    per-symbol [try] has nothing left to raise. *)
Fixpoint scan (yf : Provider) (now : datetime) (period : string)
              (symbols : list string) (data : list (string * Frame))
  : list (string * Frame) * list event :=
  match symbols with
  | [] => (data, [])
  | symbol :: rest =>
      let '((symbol', stock_data), ev) := resolve_symbol yf now period symbol in
      let '(data', ev') :=
        if negb (empty stock_data)
        then (dict_set symbol' stock_data data, [Log INFO (FetchedData symbol')])
        else (data, [Log ERROR (NoDataAllTried symbol')]) in
      let '(result, evs) := scan yf now period rest data' in
      (result, (ev ++ ev' ++ evs)%list)
  end.

Definition fetch_nifty50_data (csv : option (list string)) (yf : Provider)
                              (now : datetime) (period : string)
  : list (string * Frame) * list event :=
  match get_nifty50_symbols csv with
  | [] =>
      ([], (match csv with
            | None => [Log ERROR CsvError]
            | Some _ => []
            end ++ [Log ERROR NoSymbolsFound])%list)
  | nifty50_symbols => scan yf now period nifty50_symbols []
  end.

(** ** Vocabulary for the properties of the resolver *)

(** The provider calls among the events, in order. *)
Fixpoint calls (events : list event) : list (string * string) :=
  match events with
  | [] => []
  | History symbol period :: rest => (symbol, period) :: calls rest
  | Log _ _ :: rest => calls rest
  end.

(** The records logged among the events, in order. *)
Fixpoint logged (events : list event) : list (level * message) :=
  match events with
  | [] => []
  | History _ _ :: rest => logged rest
  | Log lvl msg :: rest => (lvl, msg) :: logged rest
  end.

(** An attempt that supplies nothing: it raised, or returned no row. *)
Definition no_data (r : response) : bool :=
  match r with
  | Raised => true
  | Returned df => empty df
  end.

(** A frame the slice takes without surprise: naive labels in ascending
    order (equal labels allowed). *)
Definition plain (df : Frame) : bool :=
  negb (zoned df) && increasing (map index df).

(** The order of two rows by their labels. *)
Definition by_index (a b : PriceRow) : Prop :=
  dt_leb (index a) (index b) = true.

(** The rows dated from [start_date] to [end_date], both included. *)
Definition between (start_date end_date : datetime) (df : Frame) : Frame :=
  filter (fun r => dt_leb start_date (index r) && dt_leb (index r) end_date)
         df.

(** An attempt the chain goes past: it raised, it returned no row, or it
    is for a wider window and the trim of its rows raised. *)
Definition passed_over (default_period : string) (now : datetime)
                       (period : string) (r : response) : bool :=
  match r with
  | Raised => true
  | Returned df =>
      empty df
      || (negb (String.eqb period default_period)
          && match loc (trim_start default_period now) now df with
             | Some _ => false
             | None => true
             end)
  end.

(** A string in which the character [a] does not occur. *)
Fixpoint lacks (a : ascii) (s : string) : bool :=
  match s with
  | EmptyString => true
  | String c rest => negb (Ascii.eqb c a) && lacks a rest
  end.

(** The ticker that returns no row where [ticker] raises. *)
Definition silenced (ticker : Ticker) : Ticker :=
  fun period =>
    match ticker period with
    | Raised => Returned []
    | Returned df => Returned df
    end.

(** What the chain of one listing returns and what it does. *)
Definition chain_data (yf : Provider) (now : datetime)
                      (period listing : string) : Frame :=
  fst (fst (fetch_stock_data (yf listing) listing period now)).

Definition chain_trace (yf : Provider) (now : datetime)
                       (period listing : string) : list event :=
  snd (fetch_stock_data (yf listing) listing period now).

(** The span the specification asks a wider window to be trimmed to: the
    duration of the default window, ending now.  It follows the words of
    the specification, for the period names of the provider that denote a
    duration; it is not what the source computes ([trim_start] is). *)
Definition default_window_start (default_period : string) (now : datetime)
  : option datetime :=
  if String.eqb default_period "1d" then Some (sub_days now 1)
  else if String.eqb default_period "5d" then Some (sub_days now 5)
  else if String.eqb default_period "1mo" then Some (sub_months now 1)
  else if String.eqb default_period "3mo" then Some (sub_months now 3)
  else if String.eqb default_period "6mo" then Some (sub_months now 6)
  else if String.eqb default_period "1y" then Some (sub_months now 12)
  else if String.eqb default_period "2y" then Some (sub_months now 24)
  else if String.eqb default_period "5y" then Some (sub_months now 60)
  else if String.eqb default_period "10y" then Some (sub_months now 120)
  else None.

End Fetcher.

(** * db_manager.py, as SQLite holds the table

    [Cache] above takes the table at the types its schema declares, which
    is what the queries of the class presuppose.  This module takes the
    table as SQLite holds it once [save_stock_data] has written.
    [to_sql('stock_data', conn, if_exists='replace', index=False)] drops
    the table and creates it again from the frame being saved: its first
    column carries the name of the frame's index, and the labels and the
    time of the write are stored as the text [isoformat(" ")] gives.  The
    two readers compare and parse that text, and answer from their
    [except] branch when the query or the parse raises. *)

Module Database.

Import Calendar.
Open Scope string_scope.
Open Scope Z_scope.

(** ** The text of dates and timestamps *)

Definition digit (n : Z) : ascii := ascii_of_nat (48 + Z.to_nat n).

(** [n] in decimal on [width] digits with leading zeros, for a number that
    fits. *)
Fixpoint pad (width : nat) (n : Z) : string :=
  match width with
  | O => ""
  | S w => pad w (n / 10) ++ String (digit (n mod 10)) ""
  end.

(** [d.isoformat()] for a date: what a bound of the range query is sent
    as. *)
Definition date_text (d : date) : string :=
  let '(y, m, dd) := ord2ymd d in
  pad 4 y ++ "-" ++ pad 2 m ++ "-" ++ pad 2 dd.

Definition offset_text (zone : option Z) : string :=
  match zone with
  | None => ""
  | Some minutes =>
      (if minutes <? 0 then "-" else "+")
      ++ pad 2 (Z.abs minutes / 60) ++ ":" ++ pad 2 (Z.abs minutes mod 60)
  end.

(** [t.isoformat(" ")] for a timestamp: the microseconds are written only
    when they are not zero, the offset only for a zone-aware timestamp. *)
Definition isoformat (t : datetime) (zone : option Z) : string :=
  let seconds := usec t / 1000000 in
  let micro := usec t mod 1000000 in
  date_text (day t) ++ " "
  ++ pad 2 (seconds / 3600) ++ ":" ++ pad 2 (seconds / 60 mod 60)
  ++ ":" ++ pad 2 (seconds mod 60)
  ++ (if micro =? 0 then "" else "." ++ pad 6 micro)
  ++ offset_text zone.

(** ** [datetime.strptime]

    The directives as the regular expressions of [_strptime] have them.  A
    directive of one or two characters takes two when they fit; in the two
    formats below what follows a directive is never a digit, so the
    shorter alternative could not succeed where the longer one fits. *)
Definition is_digit (c : ascii) : bool :=
  ((48 <=? nat_of_ascii c) && (nat_of_ascii c <=? 57))%nat.

Definition value (c : ascii) : Z := Z.of_nat (nat_of_ascii c) - 48.

Definition dig (c : ascii) (lo hi : Z) : bool :=
  is_digit c && (lo <=? value c) && (value c <=? hi).

Definition number (two : ascii -> ascii -> bool) (one : ascii -> bool)
                  (s : string) : option (Z * string) :=
  match s with
  | String a (String b rest) =>
      if two a b
      then Some ((if is_digit a then 10 * value a else 0) + value b, rest)
      else if one a then Some (value a, String b rest) else None
  | String a EmptyString => if one a then Some (value a, EmptyString) else None
  | EmptyString => None
  end.

(** [%Y]: four digits. *)
Definition directive_Y (s : string) : option (Z * string) :=
  match s with
  | String a (String b (String c (String d rest))) =>
      if is_digit a && is_digit b && is_digit c && is_digit d
      then Some (1000 * value a + 100 * value b + 10 * value c + value d,
                 rest)
      else None
  | _ => None
  end.

(** [%m]: [1[0-2]|0[1-9]|[1-9]] *)
Definition directive_m : string -> option (Z * string) :=
  number (fun a b => (Ascii.eqb a "1" && dig b 0 2)
                     || (Ascii.eqb a "0" && dig b 1 9))
         (fun a => dig a 1 9).

(** [%d]: [3[0-1]|[1-2]\d|0[1-9]|[1-9]| [1-9]] *)
Definition directive_d : string -> option (Z * string) :=
  number (fun a b => (Ascii.eqb a "3" && dig b 0 1)
                     || (dig a 1 2 && is_digit b)
                     || (Ascii.eqb a "0" && dig b 1 9)
                     || (Ascii.eqb a " " && dig b 1 9))
         (fun a => dig a 1 9).

(** [%H]: [2[0-3]|[0-1]\d|\d] *)
Definition directive_H : string -> option (Z * string) :=
  number (fun a b => (Ascii.eqb a "2" && dig b 0 3)
                     || (dig a 0 1 && is_digit b))
         is_digit.

(** [%M]: [[0-5]\d|\d] *)
Definition directive_M : string -> option (Z * string) :=
  number (fun a b => dig a 0 5 && is_digit b) is_digit.

(** [%S]: [6[0-1]|[0-5]\d|\d] *)
Definition directive_S : string -> option (Z * string) :=
  number (fun a b => (Ascii.eqb a "6" && dig b 0 1)
                     || (dig a 0 5 && is_digit b))
         is_digit.

(** [%f]: one to six digits, read as the leading digits of the
    microseconds. *)
Fixpoint fraction (room : nat) (s : string) : Z * string :=
  match room, s with
  | S k, String a rest =>
      if is_digit a
      then let '(v, rest') := fraction k rest in
           (value a * 10 ^ Z.of_nat k + v, rest')
      else (0, s)
  | _, _ => (0, s)
  end.

Definition directive_f (s : string) : option (Z * string) :=
  match s with
  | String a _ => if is_digit a then Some (fraction 6 s) else None
  | EmptyString => None
  end.

(** A character of the format that stands for itself. *)
Definition literal (c : ascii) (s : string) : option string :=
  match s with
  | String a rest => if Ascii.eqb a c then Some rest else None
  | EmptyString => None
  end.

(** A blank of the format: one or more characters of white space. *)
Definition is_space (c : ascii) : bool :=
  let n := nat_of_ascii c in
  ((n =? 32) || ((9 <=? n) && (n <=? 13)))%nat.

Fixpoint spaces (s : string) : string :=
  match s with
  | String a rest => if is_space a then spaces rest else s
  | EmptyString => s
  end.

Definition blank (s : string) : option string :=
  match s with
  | String a rest => if is_space a then Some (spaces rest) else None
  | EmptyString => None
  end.

(** The date of three fields, when there is such a date. *)
Definition valid_date (y m d : Z) : option date :=
  if (1 <=? y) && (1 <=? d) && (d <=? days_in_month y m)
  then Some (ymd2ord y m d) else None.

(** The fields of ["%Y-%m-%d"] at the head of a string. *)
Definition date_fields (s : string) : option (Z * Z * Z * string) :=
  match directive_Y s with
  | Some (y, s1) =>
      match literal "-" s1 with
      | Some s2 =>
          match directive_m s2 with
          | Some (m, s3) =>
              match literal "-" s3 with
              | Some s4 =>
                  match directive_d s4 with
                  | Some (d, s5) => Some (y, m, d, s5)
                  | None => None
                  end
              | None => None
              end
          | None => None
          end
      | None => None
      end
  | None => None
  end.

(** [datetime.strptime(s, '%Y-%m-%d').date()]; [None] when it raises:
    the text does not match, data is left over, or there is no such
    date. *)
Definition strptime_date (s : string) : option date :=
  match date_fields s with
  | Some (y, m, d, EmptyString) => valid_date y m d
  | _ => None
  end.

(** The fields of ["%H:%M:%S.%f"] at the head of a string. *)
Definition time_fields (s : string) : option (Z * Z * Z * Z * string) :=
  match directive_H s with
  | Some (h, s1) =>
      match literal ":" s1 with
      | Some s2 =>
          match directive_M s2 with
          | Some (mi, s3) =>
              match literal ":" s3 with
              | Some s4 =>
                  match directive_S s4 with
                  | Some (sec, s5) =>
                      match literal "." s5 with
                      | Some s6 =>
                          match directive_f s6 with
                          | Some (f, s7) => Some (h, mi, sec, f, s7)
                          | None => None
                          end
                      | None => None
                      end
                  | None => None
                  end
              | None => None
              end
          | None => None
          end
      | None => None
      end
  | None => None
  end.

(** [datetime.strptime(s, '%Y-%m-%d %H:%M:%S.%f')]; [None] when it
    raises. *)
Definition strptime_stamp (s : string) : option datetime :=
  match date_fields s with
  | Some (y, m, d, s1) =>
      match blank s1 with
      | Some s2 =>
          match time_fields s2 with
          | Some (h, mi, sec, f, EmptyString) =>
              match valid_date y m d with
              | Some on =>
                  if sec <=? 59
                  then Some {| day := on;
                               usec := (h * 3600 + mi * 60 + sec) * 1000000
                                       + f |}
                  else None
              | None => None
              end
          | _ => None
          end
      | None => None
      end
  | None => None
  end.

(** ** The table *)

(** A stored row: the symbol, the text of the first column, the prices,
    the text of [last_updated]. *)
Record Row : Type := {
  symbol : string;
  date_cell : string;
  open_cell : float;
  high_cell : float;
  low_cell : float;
  close_cell : float;
  volume_cell : Z;
  last_updated : string
}.

(** The table: the name its first column was created with, and its rows.
    The other columns the queries name ([symbol], [open], [high], [low],
    [close], [volume], [last_updated]) are there under every frame the
    provider delivers, up to the case of the letters, which SQLite does not
    tell apart. *)
Record Table : Type := {
  date_column : string;
  table_rows : list Row
}.

(** The table [_init_db] creates. *)
Definition initial : Table := {| date_column := "date"; table_rows := [] |}.

(** A frame as [save_stock_data] receives it: the name of its index and
    its rows. *)
Record Frame : Type := {
  index_name : option string;
  bars : list Fetcher.PriceRow
}.

Definition lower_char (c : ascii) : ascii :=
  let n := nat_of_ascii c in
  if ((65 <=? n) && (n <=? 90))%nat then ascii_of_nat (n + 32) else c.

Fixpoint lower (s : string) : string :=
  match s with
  | EmptyString => EmptyString
  | String c rest => String (lower_char c) (lower rest)
  end.

(** The column [date] of the queries is the first column of the table when
    that is named so, whatever the case of the letters; otherwise the
    query raises. *)
Definition has_date_column (t : Table) : bool :=
  String.eqb (lower (date_column t)) "date".

(** ** save_stock_data *)

(** The row written for a row of the frame, at clock reading [now]. *)
Definition written (now : datetime) (sym : string) (b : Fetcher.PriceRow)
  : Row :=
  {| symbol := sym;
     date_cell := isoformat (Fetcher.index b) (Fetcher.tz b);
     open_cell := Fetcher.Open b; high_cell := Fetcher.High b;
     low_cell := Fetcher.Low b; close_cell := Fetcher.Close b;
     volume_cell := Fetcher.Volume b;
     last_updated := isoformat now None |}.

(** [reset_index()] names the column of an index without a name
    [index]. *)
Definition column_of_index (f : Frame) : string :=
  match index_name f with
  | Some name => name
  | None => "index"
  end.

Definition save_stock_data (now : datetime) (sym : string)
                           (data : option Frame) (t : Table) : Table :=
  match data with
  | None => t
  | Some f =>
      match bars f with
      | [] => t
      | _ :: _ =>
          {| date_column := column_of_index f;
             table_rows := map (written now sym) (bars f) |}
      end
  end.

(** ** get_stock_data *)

(** [ORDER BY date], on text. *)
Fixpoint insert_by_text (r : Row) (l : list Row) : list Row :=
  match l with
  | [] => [r]
  | x :: rest =>
      if String.leb (date_cell r) (date_cell x) then r :: l
      else x :: insert_by_text r rest
  end.

Fixpoint order_by_text (l : list Row) : list Row :=
  match l with
  | [] => []
  | r :: rest => insert_by_text r (order_by_text rest)
  end.

(** The rows the query of [get_stock_data] selects: those of the symbol
    whose first column lies, as text, between the texts of the two
    dates. *)
Definition selected (sym : string) (start_date end_date : datetime)
                    (t : Table) : list Row :=
  order_by_text
    (filter (fun r => String.eqb (symbol r) sym
                      && String.leb (date_text (day start_date)) (date_cell r)
                      && String.leb (date_cell r) (date_text (day end_date)))
            (table_rows t)).

(** [get_stock_data]: [None] when the query raises (no column [date]),
    when it selects no row, and when [set_index('date')] raises because
    the column came back under another spelling of its name. *)
Definition get_stock_data (sym : string) (start_date end_date : datetime)
                          (t : Table) : option (list Row) :=
  if has_date_column t then
    let df := selected sym start_date end_date t in
    if (0 <? List.length df)%nat then
      if String.eqb (date_column t) "date" then Some df else None
    else None
  else None.

(** ** is_data_fresh *)

(** [MAX] of a column of text over rows that are not empty. *)
Definition max_text (first : string) (others : list string) : string :=
  fold_left (fun best s => if String.ltb best s then s else best)
            others first.

Definition is_data_fresh (now : datetime) (sym : string) (t : Table) : bool :=
  if has_date_column t then
    match filter (fun r => String.eqb (symbol r) sym) (table_rows t) with
    | [] => false
    | r :: others =>
        let latest_text := max_text (date_cell r) (map date_cell others) in
        let updated_text :=
          max_text (last_updated r) (map last_updated others) in
        let ist_now := add_hours_minutes now 5 30 in
        match strptime_stamp updated_text with
        | None => false
        | Some _ =>
            match strptime_date latest_text with
            | None => false
            | Some latest =>
                let cutoff_time := replace_time ist_now 17 30 in
                let latest_required_date :=
                  if dt_ltb ist_now cutoff_time then day (sub_days ist_now 2)
                  else day (sub_days ist_now 1) in
                latest_required_date <=? latest
            end
        end
    end
  else false.

End Database.

(** * Vocabulary for the further properties of the scoring engine *)

Module Reading.

Import Scoring.
Open Scope string_scope.

(** The categories from the most bearish to the most bullish. *)
Definition rank (g : Signal) : Z :=
  match g with
  | StrongSell => -2
  | Sell => -1
  | Hold => 0
  | Buy => 1
  | StrongBuy => 2
  end%Z.

(** The score before the volatility adjustment: [get_signal_strength]
    without its last block. *)
Definition before_volatility (row : Row) : result float :=
  s <- indicator_total row ;;
  s <- volume_money_flow row s ;;
  support_resistance row s.

(** Two rows hold the same under each of the labels. *)
Definition agree_on (labels : list string) (r1 r2 : Row) : Prop :=
  forall c, In c labels -> row_get r1 c = row_get r2 c.

(** The category [g'] lies between Hold and [g]: on the same side as [g]
    and not further out. *)
Definition between_hold_and (g g' : Signal) : bool :=
  ((0 <=? rank g') && (rank g' <=? rank g))%Z
  || ((rank g <=? rank g') && (rank g' <=? 0))%Z.

(** [l1] is [l2] with some elements left out, the order kept. *)
Inductive subseq {A : Type} : list A -> list A -> Prop :=
| subseq_nil : subseq [] []
| subseq_skip (x : A) (l1 l2 : list A) : subseq l1 l2 -> subseq l1 (x :: l2)
| subseq_keep (x : A) (l1 l2 : list A) :
    subseq l1 l2 -> subseq (x :: l1) (x :: l2).

End Reading.

(** * data_processor.py and the minimum-history rule *)

Module Pipeline.

Import Scoring.
Open Scope string_scope.

(** ** Frame operations *)

(** The position of a label among the columns. *)
Fixpoint position (label : string) (labels : list string) : option nat :=
  match labels with
  | [] => None
  | l :: rest =>
      if String.eqb l label then Some O
      else match position label rest with
           | Some i => Some (S i)
           | None => None
           end
  end.

(** [df[label]]: the values of a column, top to bottom. *)
Definition series (df : DataFrame) (label : string) : result (list float) :=
  match position label (columns df) with
  | Some i => Ok (map (fun r => nth i r nan) (rows df))
  | None => Raise (KeyError label)
  end.

(** [df.dropna()]: the rows in which no value is missing. *)
Definition complete (values : list float) : bool :=
  forallb (fun v => negb (is_nan v)) values.

Definition dropna (df : DataFrame) : DataFrame :=
  {| columns := columns df; rows := filter complete (rows df) |}.

(** [series.pct_change()]: the quotient by the value before, minus one; the
    first row has no value before it. *)
Fixpoint pct_change_from (previous : float) (values : list float)
  : list float :=
  match values with
  | [] => []
  | v :: rest => (v / previous - 1)%float :: pct_change_from v rest
  end.

Definition pct_change (values : list float) : list float :=
  match values with
  | [] => []
  | v :: rest => nan :: pct_change_from v rest
  end.

Fixpoint set_nth (i : nat) (v : float) (values : list float) : list float :=
  match i, values with
  | _, [] => []
  | O, _ :: rest => v :: rest
  | S k, x :: rest => x :: set_nth k v rest
  end.

(** [df[label] = values]: the column is overwritten when the frame has it
    and added as the last one otherwise. *)
Definition assign (df : DataFrame) (label : string) (values : list float)
  : DataFrame :=
  match position label (columns df) with
  | Some i =>
      {| columns := columns df;
         rows := map (fun rv => set_nth i (snd rv) (fst rv))
                     (combine (rows df) values) |}
  | None =>
      {| columns := (columns df ++ [label])%list;
         rows := map (fun rv => (fst rv ++ [snd rv])%list)
                     (combine (rows df) values) |}
  end.

(** [len(df)] *)
Definition len (df : DataFrame) : nat := List.length (rows df).

(** ** process_stock_data

    The loop has no [try]: a frame without a Close column ends the call
    with the [KeyError] of the lookup. *)
Fixpoint process_stock_data (data : list (string * DataFrame))
  : result (list (string * DataFrame)) :=
  match data with
  | [] => Ok []
  | (symbol, df) :: rest =>
      let df := dropna df in
      close <- series df "Close" ;;
      let df := assign df "Returns" (pct_change close) in
      processed <- process_stock_data rest ;;
      Ok ((symbol, df) :: processed)
  end.

(** ** calculate_technical_indicators

    [calculate_custom_indicators] computes the indicator columns with the
    [ta] library and returns the frame, also when a computation fails; it
    is taken as a parameter. *)
Fixpoint calculate_technical_indicators
           (calculate_custom_indicators : DataFrame -> DataFrame)
           (data : list (string * DataFrame))
  : list (string * DataFrame) :=
  match data with
  | [] => []
  | (symbol, df) :: rest =>
      if (len df <? 50)%nat
      then calculate_technical_indicators calculate_custom_indicators rest
      else (symbol, calculate_custom_indicators df)
             :: calculate_technical_indicators calculate_custom_indicators
                  rest
  end.

End Pipeline.

(** * stock_data.py

    The collector in front of the cache.  The table is the one of [Cache];
    as there, a failure of the database itself is not modelled, so the only
    exception the [try] of [get_stock_data] can meet is the one of the
    provider. *)

Module Collector.

Import Calendar Scoring.
Open Scope string_scope.

(** [df.empty]: no row, or no column. *)
Definition is_empty (df : DataFrame) : bool :=
  (List.length (rows df) =? 0)%nat || (List.length (columns df) =? 0)%nat.

(** [pd.DataFrame()] *)
Definition empty_frame : DataFrame := {| columns := []; rows := [] |}.

(** One call of [yf.Ticker(symbol).history(period=period)]. *)
Inductive history : Type :=
| Delivers (df : DataFrame)
| Fails.

Definition Yahoo : Type := string -> string -> history.

(** How frames go to the table and come back: what [to_sql] writes for a
    frame and what [read_sql_query] builds from the selected rows.  Both
    belong to pandas and are parameters here. *)
Record Store : Type := {
  to_bars : DataFrame -> list Cache.Bar;
  of_bars : list Cache.Bar -> DataFrame
}.

(** The three readings of [datetime.now()] in one call: the one of the
    collector, the one of [is_data_fresh], the one of [save_stock_data]. *)
Record Clock : Type := {
  at_call : datetime;
  at_check : datetime;
  at_save : datetime
}.

(** Lines 25-30: the days the requested range reaches back. *)
Definition lookback (period : string) : Z :=
  if String.eqb period "3mo" then 90
  else if String.eqb period "1y" then 365
  else 90.

(** [StockDataCollector.get_stock_data]: the frame returned, the table
    after the call, and the provider calls made. *)
Definition get_stock_data (store : Store) (yf : Yahoo) (clock : Clock)
                          (symbol period : string) (t : Cache.Table)
  : DataFrame * Cache.Table * list (string * string) :=
  let end_date := at_call clock in
  let start_date := sub_days end_date (lookback period) in
  let cached :=
    if Cache.is_data_fresh (at_check clock) symbol t then
      match Cache.get_stock_data symbol start_date end_date t with
      | Some bars =>
          let df := of_bars store bars in
          if negb (is_empty df) then Some df else None
      | None => None
      end
    else None in
  match cached with
  | Some df => (df, t, [])
  | None =>
      match yf symbol period with
      | Delivers df =>
          let t' :=
            if negb (is_empty df)
            then Cache.save_stock_data (at_save clock) symbol
                                       (Some (to_bars store df)) t
            else t in
          (df, t', [(symbol, period)])
      | Fails => (empty_frame, t, [(symbol, period)])
      end
  end.

(** ** The collector over any database

    [get_stock_data] reaches the database through three methods of
    [self.db] and nothing else.  [Db] is that interface over a state of
    the database, the clock readings standing for the [datetime.now()] of
    the methods; [get_stock_data_over] is the function of lines 13-53 over
    it. *)
Record Db (S : Type) : Type := {
  db_is_data_fresh : datetime -> string -> S -> bool;
  db_get_stock_data : string -> datetime -> datetime -> S -> option DataFrame;
  db_save_stock_data : datetime -> string -> DataFrame -> S -> S
}.

Arguments db_is_data_fresh {S}.
Arguments db_get_stock_data {S}.
Arguments db_save_stock_data {S}.

Definition get_stock_data_over {S : Type} (db : Db S) (yf : Yahoo)
                               (clock : Clock) (symbol period : string)
                               (s : S)
  : DataFrame * S * list (string * string) :=
  let end_date := at_call clock in
  let start_date :=
    if String.eqb period "3mo" then sub_days end_date 90
    else if String.eqb period "1y" then sub_days end_date 365
    else sub_days end_date 90 in
  let cached :=
    if db_is_data_fresh db (at_check clock) symbol s then
      match db_get_stock_data db symbol start_date end_date s with
      | Some df => if negb (is_empty df) then Some df else None
      | None => None
      end
    else None in
  match cached with
  | Some df => (df, s, [])
  | None =>
      match yf symbol period with
      | Delivers df =>
          let s' :=
            if negb (is_empty df)
            then db_save_stock_data db (at_save clock) symbol df s
            else s in
          (df, s', [(symbol, period)])
      | Fails => (empty_frame, s, [(symbol, period)])
      end
  end.

(** The database of [Cache] behind a store. *)
Definition typed_db (store : Store) : Db Cache.Table :=
  {| db_is_data_fresh := Cache.is_data_fresh;
     db_get_stock_data :=
       fun symbol start_date end_date t =>
         option_map (of_bars store)
                    (Cache.get_stock_data symbol start_date end_date t);
     db_save_stock_data :=
       fun now symbol df t =>
         Cache.save_stock_data now symbol (Some (to_bars store df)) t |}.

(** [data[symbol] = df] *)
Fixpoint dict_set (key : string) (v : DataFrame)
                  (d : list (string * DataFrame))
  : list (string * DataFrame) :=
  match d with
  | [] => [(key, v)]
  | (k, x) :: rest =>
      if String.eqb k key then (k, v) :: rest
      else (k, x) :: dict_set key v rest
  end.

(** The loop of [get_multiple_stock_data] from the [i]-th symbol on;
    [clock i] gives the readings during the call for that symbol. *)
Fixpoint collect (store : Store) (yf : Yahoo) (clock : nat -> Clock)
                 (period : string) (i : nat) (symbols : list string)
                 (data : list (string * DataFrame)) (t : Cache.Table)
  : list (string * DataFrame) * Cache.Table * list (string * string) :=
  match symbols with
  | [] => (data, t, [])
  | symbol :: rest =>
      let '(df, t', made) :=
        get_stock_data store yf (clock i) symbol period t in
      let '(result, t'', made') :=
        collect store yf clock period (S i) rest (dict_set symbol df data) t' in
      (result, t'', (made ++ made')%list)
  end.

Definition get_multiple_stock_data (store : Store) (yf : Yahoo)
                                   (clock : nat -> Clock)
                                   (symbols : list string) (period : string)
                                   (t : Cache.Table)
  : list (string * DataFrame) * Cache.Table * list (string * string) :=
  collect store yf clock period 0 symbols [] t.

(** ** Vocabulary for the properties of the collector *)

(** The frame a call hands back when the table cannot serve it. *)
Definition frame_of (h : history) : DataFrame :=
  match h with
  | Delivers df => df
  | Fails => empty_frame
  end.

(** The table holds no row of any of the symbols. *)
Definition unknown_to (t : Cache.Table) (symbols : list string) : Prop :=
  forall s, In s symbols -> Cache.rows_of s t = [].

End Collector.

(** * command_line.py and report_generator.py: which symbols are shown *)

Module Display.

Import Scoring.
Open Scope string_scope.

(** [df.iloc[-1]] on a frame with rows. *)
Definition last_row (scored : list ScoredRow) : option ScoredRow :=
  List.last (map Some scored) None.

Definition same_signal (a b : Signal) : bool :=
  match a, b with
  | StrongBuy, StrongBuy | Buy, Buy | Hold, Hold | Sell, Sell
  | StrongSell, StrongSell => true
  | _, _ => false
  end.

(** ** run_cli, lines 120-126

    The group a symbol is appended to, if any: the signal of its last row,
    when that is not Hold and the absolute strength reaches
    [min_strength]. *)
Definition group_of (min_strength : float) (scored : list ScoredRow)
  : option Signal :=
  match last_row scored with
  | None => None
  | Some r =>
      let signal := Signal_ r in
      let strength := abs (Signal_Strength r) in
      if negb (same_signal signal Hold) && (min_strength <=? strength)%float
      then Some signal
      else None
  end.

(** [signal_groups[g]] after the loop: the symbols appended to group [g],
    in the order of [signals]. *)
Fixpoint signal_group (min_strength : float) (g : Signal)
                      (signals : list (string * list ScoredRow))
  : list string :=
  match signals with
  | [] => []
  | (symbol, scored) :: rest =>
      match group_of min_strength scored with
      | Some g' =>
          if same_signal g' g
          then symbol :: signal_group min_strength g rest
          else signal_group min_strength g rest
      | None => signal_group min_strength g rest
      end
  end.

(** The default of [--min-strength]. *)
Definition default_min_strength : float := 1%float.

(** ** generate_analysis_report *)

(** The symbols the two loops look at: a frame with rows, other than the
    index. *)
Definition reported (symbol : string) (scored : list ScoredRow)
  : option Signal :=
  if String.eqb symbol "^NSEI" then None
  else match last_row scored with
       | None => None
       | Some r => Some (Signal_ r)
       end.

(** Lines 28-40: the three counters of the summary. *)
Fixpoint count_signals (signals : list (string * list ScoredRow))
  : nat * nat * nat :=
  match signals with
  | [] => (0, 0, 0)%nat
  | (symbol, scored) :: rest =>
      let '(buy_signals, sell_signals, strong_sell_signals) :=
        count_signals rest in
      match reported symbol scored with
      | Some StrongBuy | Some Buy =>
          (S buy_signals, sell_signals, strong_sell_signals)
      | Some Sell => (buy_signals, S sell_signals, strong_sell_signals)
      | Some StrongSell => (buy_signals, sell_signals, S strong_sell_signals)
      | Some Hold | None => (buy_signals, sell_signals, strong_sell_signals)
      end
  end.

(** Lines 83-87: the headings of the detailed table and their signals. *)
Definition categories : list (string * list Signal) :=
  [ ("Buy Signals", [StrongBuy; Buy]);
    ("Sell Signals", [Sell]);
    ("Strong Sell Signals", [StrongSell]) ].

(** Lines 92-95: the symbols the loop builds a table row for under a
    heading, in the order of [signals].  Building the row (the chart, the
    price change) is not modelled. *)
Fixpoint listed_under (signal_types : list Signal)
                      (signals : list (string * list ScoredRow))
  : list string :=
  match signals with
  | [] => []
  | (symbol, scored) :: rest =>
      match reported symbol scored with
      | Some signal =>
          if existsb (same_signal signal) signal_types
          then symbol :: listed_under signal_types rest
          else listed_under signal_types rest
      | None => listed_under signal_types rest
      end
  end.

End Display.

(** * Sample inputs *)

Module Samples.

Import Scoring.
Open Scope string_scope.

Definition indicator_columns : list string :=
  (required_columns ++ ["BB_Width"])%list.

(** A quiet uptrend: close above both averages, weak ADX, neutral RSI, MACD
    under its signal line, VI+ under VI-, ordinary volume, close between S1
    and R1, low relative volatility. *)
Definition quiet_values : list float :=
  [ 105; 100; 95; 20; 10; 20; 50; 0.5; 1; 0.9; 1.1; 1; 0.1; 100; 110; 1.5;
    0.08 ]%float.

Definition quiet_row : Row := combine indicator_columns quiet_values.

(** A strong uptrend on high volume with positive money flow. *)
Definition surge_values : list float :=
  [ 105; 100; 95; 30; 25; 15; 50; 1; 0.5; 1.1; 0.9; 2; 0.2; 100; 110; 1.5;
    0.08 ]%float.

Definition surge_row : Row := combine indicator_columns surge_values.

(** A downtrend on high volume with positive money flow. *)
Definition slump_values : list float :=
  [ 90; 95; 100; 30; 15; 25; 50; 0.5; 1; 0.9; 1.1; 2; 0.2; 85; 99; 1.5;
    0.08 ]%float.

Definition slump_row : Row := combine indicator_columns slump_values.

(** A row from the first 49 observations of a frame: the 50-period average
    has no value yet. *)
Definition warmup_values : list float :=
  [ 105; 100; nan; 20; 10; 20; 50; 0.5; 1; 0.9; 1.1; 1; 0.1; 100; 110; 1.5;
    0.08 ]%float.

Definition warmup_row : Row := combine indicator_columns warmup_values.

Definition warmup_frame : DataFrame :=
  {| columns := indicator_columns; rows := [warmup_values] |}.

(** A frame in which the 50-period average was never computed, with the
    close sitting on the 20-period average. *)
Definition no_sma50_frame : DataFrame :=
  {| columns := [ "Close"; "SMA_20"; "ADX"; "RSI"; "MACD"; "MACD_Signal";
                  "VI_plus"; "VI_minus"; "Volume_Ratio"; "S1"; "R1"; "ATR";
                  "BB_Width" ];
     rows := [ [ 100; 100; 20; 50; 0.5; 1; 0.9; 1.1; 1; 95; 110; 1.5;
                 0.08 ]%float ] |}.

(** A frame without the ADX column, next to a complete one. *)
Definition no_adx_frame : DataFrame :=
  {| columns := [ "Close"; "SMA_20"; "SMA_50"; "RSI"; "MACD"; "MACD_Signal";
                  "VI_plus"; "VI_minus"; "Volume_Ratio"; "CMF"; "S1"; "R1";
                  "ATR"; "BB_Width" ];
     rows := [ [ 105; 100; 95; 50; 0.5; 1; 0.9; 1.1; 1; 0.1; 100; 110; 1.5;
                 0.08 ]%float ] |}.

Definition quiet_frame : DataFrame :=
  {| columns := indicator_columns; rows := [quiet_values; surge_values] |}.

(** ** Cache contents *)

Definition bar_on (y m d : Z) (close : float) : Cache.Bar :=
  {| Cache.bar_date := Calendar.ymd2ord y m d;
     Cache.bar_open := close; Cache.bar_high := close;
     Cache.bar_low := close; Cache.bar_close := close;
     Cache.bar_volume := 1000 |}.

Definition stored (sym : string) (b : Cache.Bar) (y m d h mi : Z)
  : Cache.StoredRow :=
  {| Cache.symbol := sym; Cache.bar := b;
     Cache.last_updated := Some (Calendar.at_time y m d h mi) |}.

(** Two bars of TCS, the later one dated 12 June 2024, saved on the 13th. *)
Definition tcs_table : Cache.Table :=
  [ stored "TCS.NS" (bar_on 2024 6 11 3850) 2024 6 13 4 0;
    stored "TCS.NS" (bar_on 2024 6 12 3861) 2024 6 13 4 0 ].

(** The clock reads 10:30 and 12:30 on 14 June 2024, which is 16:00 and
    18:00 in India. *)
Definition clock_1030 : Calendar.datetime := Calendar.at_time 2024 6 14 10 30.
Definition clock_1230 : Calendar.datetime := Calendar.at_time 2024 6 14 12 30.

Definition infy_series : list Cache.Bar :=
  [ bar_on 2024 6 13 1490; bar_on 2024 6 12 1485 ].

(** ** Provider responses *)

Definition price_on (y m d : Z) (close : float) : Fetcher.PriceRow :=
  {| Fetcher.index := Calendar.at_time y m d 0 0; Fetcher.tz := None;
     Fetcher.Open := close; Fetcher.High := close; Fetcher.Low := close;
     Fetcher.Close := close; Fetcher.Volume := 1000 |}.

(** Noon on 14 June 2024. *)
Definition noon : Calendar.datetime := Calendar.at_time 2024 6 14 12 0.

(** A long history: bars 200 days, 100 days, 80 days and 10 days old. *)
Definition long_history : Fetcher.Frame :=
  [ price_on 2023 11 27 3500; price_on 2024 3 6 3700;
    price_on 2024 3 26 3750; price_on 2024 6 4 3850 ].

(** A ticker that answers only the widest window. *)
Definition only_max : Fetcher.Ticker :=
  fun period =>
    if String.eqb period "max" then Fetcher.Returned long_history
    else Fetcher.Returned [].

(** A listing suspended since February, asked about in December: nothing
    in the last three months, two bars since the start of the year.  The
    alternate listing answers the same, the bare symbol is unknown. *)
Definition december : Calendar.datetime := Calendar.at_time 2024 12 16 12 0.

Definition february_bars : Fetcher.Frame :=
  [ price_on 2024 2 8 410; price_on 2024 2 9 405 ].

Definition suspended : Fetcher.Provider :=
  fun symbol period =>
    if (String.eqb symbol "SUSP.NS" || String.eqb symbol "SUSP.BO")
       && negb (String.eqb period "3mo")
    then Fetcher.Returned february_bars
    else Fetcher.Returned [].

(** A provider that knows only the Bombay listing of one stock and fails
    on its default window. *)
Definition bombay_only : Fetcher.Provider :=
  fun symbol period =>
    if String.eqb symbol "TCS.BO" then
      if String.eqb period "3mo" then Fetcher.Raised
      else Fetcher.Returned long_history
    else if String.eqb symbol "INFY.NS" then
      Fetcher.Returned [price_on 2024 6 4 1490]
    else Fetcher.Returned [].

End Samples.

(** * Further sample inputs *)

Module MoreSamples.

Import Scoring.
Open Scope string_scope.

(** The most bullish row: every block adds, the amplifier applies, the
    close is under the first support, volatility is low. *)
Definition best_values : list float :=
  [ 105; 100; 95; 30; 25; 15; 25; 1; 0.5; 1.1; 0.9; 2; 0.2; 106; 110; 1.5;
    0.08 ]%float.

Definition best_row : Row := combine Samples.indicator_columns best_values.

(** The surge of [Samples], with volume back to normal. *)
Definition calm_surge_values : list float :=
  [ 105; 100; 95; 30; 25; 15; 50; 1; 0.5; 1.1; 0.9; 1; 0.2; 100; 110; 1.5;
    0.08 ]%float.

Definition calm_surge_row : Row :=
  combine Samples.indicator_columns calm_surge_values.

(** The surge of [Samples] in a volatile market. *)
Definition wild_surge_values : list float :=
  [ 105; 100; 95; 30; 25; 15; 50; 1; 0.5; 1.1; 0.9; 2; 0.2; 100; 110; 4;
    0.08 ]%float.

Definition wild_surge_row : Row :=
  combine Samples.indicator_columns wild_surge_values.

(** The quiet row of [Samples] with two columns the scorer never asks
    for. *)
Definition quiet_row_with_extras : Row :=
  (("Returns", 0.01%float) :: Samples.quiet_row ++ [("VWAP", 101%float)])%list.

(** ** Provider answers with zone-aware labels *)

(** The long history as the provider delivers it for a stock of the
    National Stock Exchange: labels in Indian time, 330 minutes ahead of
    UTC. *)
Definition in_kolkata (r : Fetcher.PriceRow) : Fetcher.PriceRow :=
  {| Fetcher.index := Fetcher.index r; Fetcher.tz := Some 330%Z;
     Fetcher.Open := Fetcher.Open r; Fetcher.High := Fetcher.High r;
     Fetcher.Low := Fetcher.Low r; Fetcher.Close := Fetcher.Close r;
     Fetcher.Volume := Fetcher.Volume r |}.

Definition zoned_only_max : Fetcher.Ticker :=
  fun period =>
    if String.eqb period "max"
    then Fetcher.Returned (map in_kolkata Samples.long_history)
    else Fetcher.Returned [].

(** ** Frames and tables for the database *)

(** Two bars of TCS as the provider delivers them: the index is named
    [Date] and its labels are midnights in Indian time. *)
Definition provider_frame : Database.Frame :=
  {| Database.index_name := Some "Date";
     Database.bars :=
       map in_kolkata [ Samples.price_on 2024 6 11 3850;
                        Samples.price_on 2024 6 12 3861 ] |}.

(** The same bars under an index named [date], with naive labels. *)
Definition lowercase_frame : Database.Frame :=
  {| Database.index_name := Some "date";
     Database.bars := [ Samples.price_on 2024 6 11 3850;
                        Samples.price_on 2024 6 12 3861 ] |}.

(** A quarter of a second past 04:00 on 13 June 2024. *)
Definition saved_at : Calendar.datetime :=
  {| Calendar.day := Calendar.ymd2ord 2024 6 13;
     Calendar.usec := (Calendar.time_of_day 4 0 + 250000)%Z |}.

(** The same bars in a table of the kind the readers are written for: a
    column [date] holding dates, and a time of writing with its
    microseconds. *)
Definition dated (sym day : string) (close : float) : Database.Row :=
  {| Database.symbol := sym; Database.date_cell := day;
     Database.open_cell := close; Database.high_cell := close;
     Database.low_cell := close; Database.close_cell := close;
     Database.volume_cell := 1000;
     Database.last_updated := "2024-06-13 04:00:00.250000" |}.

Definition date_format_table : Database.Table :=
  {| Database.date_column := "date";
     Database.table_rows := [ dated "TCS.NS" "2024-06-11" 3850;
                              dated "TCS.NS" "2024-06-12" 3861 ] |}.

(** ** Frames for the pipeline *)

(** Sixty trading days of the quiet row, and a frame that is too short. *)
Definition sixty_days : DataFrame :=
  {| columns := Samples.indicator_columns;
     rows := List.repeat Samples.quiet_values 60 |}.

Definition ten_days : DataFrame :=
  {| columns := Samples.indicator_columns;
     rows := List.repeat Samples.surge_values 10 |}.

(** Price frames as the provider delivers them: three bars, the second
    with a missing close; and a frame without a Close column. *)
Definition three_bars : DataFrame :=
  {| columns := ["Open"; "High"; "Low"; "Close"; "Volume"];
     rows := [ [100; 102; 99; 101; 5000];
               [101; 103; 100; nan; 5200];
               [102; 104; 101; 103; 4800] ]%float |}.

Definition no_close : DataFrame :=
  {| columns := ["Open"; "High"; "Low"; "Volume"];
     rows := [ [100; 102; 99; 5000] ]%float |}.

(** ** A provider and a store for the collector *)

(** The provider delivers three bars for TCS, raises for INFY and
    delivers a frame without rows for anything else. *)
Definition patchy : Collector.Yahoo :=
  fun symbol period =>
    if String.eqb symbol "TCS.NS" then Collector.Delivers three_bars
    else if String.eqb symbol "INFY.NS" then Collector.Fails
    else Collector.Delivers
           {| columns := ["Open"; "High"; "Low"; "Close"; "Volume"];
              rows := [] |}.

(** A store that writes one bar per row, dated from 10 June 2024 on, and
    reads the close back. *)
Fixpoint bars_from (d : Z) (rows : list (list float)) : list Cache.Bar :=
  match rows with
  | [] => []
  | r :: rest =>
      {| Cache.bar_date := d;
         Cache.bar_open := nth 0 r nan; Cache.bar_high := nth 1 r nan;
         Cache.bar_low := nth 2 r nan; Cache.bar_close := nth 3 r nan;
         Cache.bar_volume := 0 |} :: bars_from (d + 1) rest
  end.

Definition plain_store : Collector.Store :=
  {| Collector.to_bars :=
       fun df => bars_from (Calendar.ymd2ord 2024 6 10) (rows df);
     Collector.of_bars :=
       fun bars =>
         {| columns := ["open"; "high"; "low"; "close"; "volume"];
            rows := map (fun b => [Cache.bar_open b; Cache.bar_high b;
                                   Cache.bar_low b; Cache.bar_close b;
                                   0%float]) bars |} |}.

Definition steady_clock : nat -> Collector.Clock :=
  fun _ => {| Collector.at_call := Samples.clock_1030;
              Collector.at_check := Samples.clock_1030;
              Collector.at_save := Samples.clock_1030 |}.

End MoreSamples.

(** * The order of binary64 values

    The comparisons of primitive floats are specified through
    [SFcompare]; the facts below are the ones the scoring proofs need:
    it is antisymmetric, transitive, and total away from NaN. *)

Section FloatOrder.

Lemma SFcompare_antisym (x y : spec_float) :
  SFcompare y x = option_map CompOpp (SFcompare x y).
Proof.
  destruct x as [sx|sx| |sx mx ex], y as [sy|sy| |sy my ey]; simpl;
    try reflexivity;
    try (destruct sx; reflexivity); try (destruct sy; reflexivity);
    try (destruct sx, sy; reflexivity).
  change (Pos.compare_cont Eq my mx) with (Pos.compare my mx).
  change (Pos.compare_cont Eq mx my) with (Pos.compare mx my).
  rewrite (Z.compare_antisym ex ey), (Pos.compare_antisym mx my).
  destruct sx, sy; simpl; try reflexivity;
    destruct (ex ?= ey)%Z; simpl; try reflexivity;
    destruct (mx ?= my)%positive; reflexivity.
Qed.

Ltac cmp_cases :=
  repeat match goal with
  | H : context [(?a ?= ?b)%Z] |- _ =>
      destruct (Z.compare_spec a b); try discriminate
  | H : context [(?a ?= ?b)%positive] |- _ =>
      destruct (Pos.compare_spec a b); simpl in H; try discriminate
  | |- context [(?a ?= ?b)%Z] => destruct (Z.compare_spec a b)
  | |- context [(?a ?= ?b)%positive] =>
      destruct (Pos.compare_spec a b); simpl
  end; subst; try reflexivity; try discriminate; try lia.

Lemma SFcompare_lt_trans (x y z : spec_float) :
  SFcompare x y = Some Lt -> SFcompare y z = Some Lt ->
  SFcompare x z = Some Lt.
Proof.
  destruct x as [sx|sx| |sx mx ex], y as [sy|sy| |sy my ey],
           z as [sz|sz| |sz mz ez]; simpl; try discriminate;
    try (destruct sx; simpl; try discriminate);
    try (destruct sy; simpl; try discriminate);
    try (destruct sz; simpl; try discriminate);
    try reflexivity; try discriminate.
  all: change (Pos.compare_cont Eq) with Pos.compare.
  all: intros H1 H2; injection H1 as H1; injection H2 as H2; f_equal.
  all: cmp_cases.
Qed.

Lemma SFcompare_refl (x : spec_float) :
  x <> S754_nan -> SFcompare x x = Some Eq.
Proof.
  destruct x as [s|s| |s m e]; simpl; intros H;
    try congruence; try (destruct s; reflexivity).
  change (Pos.compare_cont Eq m m) with (Pos.compare m m).
  rewrite Z.compare_refl, Pos.compare_refl. destruct s; reflexivity.
Qed.

Lemma SFcompare_total (x y : spec_float) :
  x <> S754_nan -> y <> S754_nan -> SFcompare x y <> None.
Proof.
  destruct x, y; simpl; congruence.
Qed.

Lemma is_nan_spec (x : float) : is_nan x = false -> Prim2SF x <> S754_nan.
Proof.
  unfold is_nan. rewrite eqb_spec. unfold SFeqb. intros H E.
  rewrite E in H. discriminate.
Qed.

Lemma is_nan_refl (x : float) : is_nan x = false -> (x <=? x)%float = true.
Proof.
  intros H. rewrite leb_spec. unfold SFleb.
  rewrite SFcompare_refl by (apply is_nan_spec; exact H). reflexivity.
Qed.

Lemma ltb_trans (x y z : float) :
  (x <? y)%float = true -> (y <? z)%float = true -> (x <? z)%float = true.
Proof.
  rewrite !ltb_spec. unfold SFltb. intros H1 H2.
  rewrite (SFcompare_lt_trans (Prim2SF x) (Prim2SF y) (Prim2SF z)).
  - reflexivity.
  - destruct (SFcompare (Prim2SF x) (Prim2SF y)) as [[]|]; congruence.
  - destruct (SFcompare (Prim2SF y) (Prim2SF z)) as [[]|]; congruence.
Qed.

Lemma ltb_asym (x y : float) :
  (x <? y)%float = true -> (y <? x)%float = false.
Proof.
  rewrite !ltb_spec. unfold SFltb.
  rewrite (SFcompare_antisym (Prim2SF x) (Prim2SF y)).
  destruct (SFcompare (Prim2SF x) (Prim2SF y)) as [[]|]; simpl; congruence.
Qed.

(** [x <= y] rules out [x > y]. *)
Lemma leb_not_gt (x y : float) :
  (x <=? y)%float = true -> (y <? x)%float = false.
Proof.
  rewrite leb_spec, ltb_spec. unfold SFleb, SFltb.
  rewrite (SFcompare_antisym (Prim2SF x) (Prim2SF y)).
  destruct (SFcompare (Prim2SF x) (Prim2SF y)) as [[]|]; simpl; congruence.
Qed.

(** Away from NaN, [x <= y] is the negation of [y < x]. *)
Lemma leb_negb_ltb (x y : float) :
  is_nan x = false -> is_nan y = false ->
  (x <=? y)%float = negb (y <? x)%float.
Proof.
  intros Hx Hy. rewrite leb_spec, ltb_spec. unfold SFleb, SFltb.
  rewrite (SFcompare_antisym (Prim2SF x) (Prim2SF y)).
  pose proof (SFcompare_total _ _ (is_nan_spec x Hx) (is_nan_spec y Hy)) as T.
  destruct (SFcompare (Prim2SF x) (Prim2SF y)) as [[]|]; simpl; congruence.
Qed.

Lemma not_nan_is_nan (x : float) : Prim2SF x <> S754_nan -> is_nan x = false.
Proof.
  intros H. unfold is_nan. rewrite eqb_spec. unfold SFeqb.
  rewrite SFcompare_refl by exact H. reflexivity.
Qed.

(** A comparison that holds has two numbers as operands. *)
Lemma leb_is_num (x y : float) :
  (x <=? y)%float = true -> is_nan x = false /\ is_nan y = false.
Proof.
  rewrite leb_spec. unfold SFleb. intros H.
  split; apply not_nan_is_nan; intros E; rewrite E in H;
    destruct (Prim2SF x), (Prim2SF y); discriminate.
Qed.

Lemma ltb_is_num (x y : float) :
  (x <? y)%float = true -> is_nan x = false /\ is_nan y = false.
Proof.
  rewrite ltb_spec. unfold SFltb. intros H.
  split; apply not_nan_is_nan; intros E; rewrite E in H;
    destruct (Prim2SF x), (Prim2SF y); discriminate.
Qed.

End FloatOrder.

(** * Facts about the scoring engine *)

Section ScoringFacts.

Import Scoring.
Open Scope string_scope.

Lemma present_get (row : Row) (c : string) :
  present row c = true -> row_get row c = Ok (val row c).
Proof.
  unfold present, val. destruct (row_get row c); [reflexivity | discriminate].
Qed.

Lemma all_present_get (row : Row) (c : string) :
  all_present row = true -> In c required_columns ->
  row_get row c = Ok (val row c).
Proof.
  unfold all_present. rewrite forallb_forall. intros H Hc.
  apply present_get, H, Hc.
Qed.

Lemma populated_all_present (row : Row) :
  fully_populated row = true -> all_present row = true.
Proof.
  unfold fully_populated, all_present. rewrite !forallb_forall.
  intros H c Hc. specialize (H c Hc). now apply andb_true_iff in H.
Qed.

Lemma populated_get (row : Row) (c : string) :
  fully_populated row = true -> In c required_columns ->
  row_get row c = Ok (val row c).
Proof.
  intros H. apply all_present_get, populated_all_present, H.
Qed.

Lemma populated_is_num (row : Row) (c : string) :
  fully_populated row = true -> In c required_columns ->
  is_nan (val row c) = false.
Proof.
  unfold fully_populated. rewrite forallb_forall. intros H Hc.
  specialize (H c Hc). apply andb_true_iff in H.
  now apply negb_true_iff.
Qed.

Ltac unfold_scoring :=
  unfold score_row, get_signal_strength, indicator_total, trend_strength,
    adx_trend_strength, rsi_signals, macd_signals, vortex_indicator,
    volume_money_flow, support_resistance, atr_adjustment, and_then,
    gt, lt, gt_lit, lt_lit.

(** C1: a fully populated row with close > SMA20 > SMA50, ADX <= 25, RSI in
    [30, 70], MACD <= its signal line, VI+ <= VI-, volume ratio <= 1.5 or
    money flow <= 0, S1 <= close <= R1 and ATR / close <= 0.02 scores
    exactly 0.0 (1.5 - 1 - 0.5) and is categorised Hold. *)
Theorem quiet_uptrend_scores_zero (row : Row) :
  fully_populated row = true ->
  (val row "SMA_20" <? val row "Close")%float = true ->
  (val row "SMA_50" <? val row "SMA_20")%float = true ->
  (val row "ADX" <=? 25)%float = true ->
  (30 <=? val row "RSI")%float = true ->
  (val row "RSI" <=? 70)%float = true ->
  (val row "MACD" <=? val row "MACD_Signal")%float = true ->
  (val row "VI_plus" <=? val row "VI_minus")%float = true ->
  ((val row "Volume_Ratio" <=? 1.5)%float = true
   \/ (val row "CMF" <=? 0)%float = true) ->
  (val row "S1" <=? val row "Close")%float = true ->
  (val row "Close" <=? val row "R1")%float = true ->
  (val row "ATR" / val row "Close" <=? 0.02)%float = true ->
  get_signal_strength row = Ok 0%float /\ score_row row = Ok (0%float, Hold).
Proof.
  intros P Hc20 H2050 Hadx Hrsi30 Hrsi70 Hmacd Hvi Hvol Hs1 Hr1 Hatr.
  assert (E : get_signal_strength row = Ok 0%float).
  { unfold_scoring. rewrite !(populated_get _ _ P) by (simpl; tauto).
    cbn [bind].
    rewrite Hc20, H2050, (leb_not_gt _ _ Hadx), (leb_not_gt _ _ Hrsi30),
      (leb_not_gt _ _ Hrsi70), (leb_not_gt _ _ Hmacd), (leb_not_gt _ _ Hvi),
      (leb_not_gt _ _ Hs1), (leb_not_gt _ _ Hr1), (leb_not_gt _ _ Hatr).
    destruct Hvol as [Hv | Hv]; rewrite (leb_not_gt _ _ Hv);
      [| destruct (1.5 <? val row "Volume_Ratio")%float]; reflexivity. }
  split; [exact E |]. unfold score_row. rewrite E. reflexivity.
Qed.


Lemma threshold_facts (s : float) :
  is_nan s = false ->
  (s <=? 2.5)%float = negb (2.5 <? s)%float
  /\ (s <=? 1)%float = negb (1 <? s)%float
  /\ (-1 <=? s)%float = negb (s <? -1)%float
  /\ (-2.5 <=? s)%float = negb (s <? -2.5)%float
  /\ ((2.5 <? s)%float = true -> (1 <? s)%float = true)
  /\ ((1 <? s)%float = true -> (s <? -1)%float = false)
  /\ ((s <? -2.5)%float = true -> (s <? -1)%float = true).
Proof.
  intros N.
  repeat split; try (apply leb_negb_ltb; [exact N || reflexivity .. ]).
  - intros H. apply (ltb_trans 1 2.5 s); [reflexivity | exact H].
  - intros H. destruct (s <? -1)%float eqn:E; [| reflexivity].
    pose proof (ltb_trans s (-1) 1 E eq_refl) as L.
    now rewrite (ltb_asym _ _ H) in L.
  - intros H. apply (ltb_trans s (-2.5) (-1)); [exact H | reflexivity].
Qed.

Lemma assign_signal_intervals (s : float) :
  is_nan s = false ->
  (assign_signal s = StrongBuy <-> (2.5 <? s)%float = true)
  /\ (assign_signal s = Buy <->
        (1 <? s)%float = true /\ (s <=? 2.5)%float = true)
  /\ (assign_signal s = Hold <->
        (-1 <=? s)%float = true /\ (s <=? 1)%float = true)
  /\ (assign_signal s = Sell <->
        (-2.5 <=? s)%float = true /\ (s <? -1)%float = true)
  /\ (assign_signal s = StrongSell <-> (s <? -2.5)%float = true).
Proof.
  intros N.
  destruct (threshold_facts s N) as (E1 & E2 & E3 & E4 & T1 & T2 & T3).
  unfold assign_signal, conditions. cbn [fold_left fst snd].
  rewrite E1, E2, E3, E4.
  destruct (2.5 <? s)%float, (1 <? s)%float, (s <? -2.5)%float,
           (s <? -1)%float;
    try (specialize (T1 eq_refl); discriminate);
    try (specialize (T2 eq_refl); discriminate);
    try (specialize (T3 eq_refl); discriminate);
    cbn; repeat split; intros; try discriminate;
    try match goal with H : _ /\ _ |- _ => destruct H end;
    try discriminate; try reflexivity.
Qed.


(** ** What each block can do to the running total *)

Ltac present_cases P :=
  rewrite ?(all_present_get _ _ P) by (simpl; tauto);
  repeat (cbn [bind];
          match goal with
          | |- context [if ?b then _ else _] => destruct b
          end);
  cbn [bind]; eexists; (split; [reflexivity | tauto]).

Lemma trend_strength_cases (row : Row) (s : float) :
  all_present row = true ->
  exists s', trend_strength row s = Ok s'
             /\ (s' = (s + 1.5)%float \/ s' = (s - 1.5)%float \/ s' = s).
Proof. intros P. unfold trend_strength, and_then, gt, lt. present_cases P. Qed.

Lemma adx_trend_strength_cases (row : Row) (s : float) :
  all_present row = true ->
  exists s', adx_trend_strength row s = Ok s'
             /\ (s' = (s + 1)%float \/ s' = (s - 1)%float \/ s' = s).
Proof. intros P. unfold adx_trend_strength, gt, gt_lit. present_cases P. Qed.

Lemma rsi_signals_cases (row : Row) (s : float) :
  all_present row = true ->
  exists s', rsi_signals row s = Ok s'
             /\ (s' = (s + 1)%float \/ s' = (s - 1)%float \/ s' = s).
Proof. intros P. unfold rsi_signals, gt_lit, lt_lit. present_cases P. Qed.

Lemma macd_signals_cases (row : Row) (s : float) :
  all_present row = true ->
  exists s', macd_signals row s = Ok s'
             /\ (s' = (s + 1)%float \/ s' = (s - 1)%float).
Proof. intros P. unfold macd_signals, gt. present_cases P. Qed.

Lemma vortex_indicator_cases (row : Row) (s : float) :
  all_present row = true ->
  exists s', vortex_indicator row s = Ok s'
             /\ (s' = (s + 0.5)%float \/ s' = (s - 0.5)%float).
Proof. intros P. unfold vortex_indicator, gt. present_cases P. Qed.

Lemma support_resistance_cases (row : Row) (s : float) :
  all_present row = true ->
  exists s', support_resistance row s = Ok s'
             /\ (s' = (s + 0.5)%float \/ s' = (s - 0.5)%float \/ s' = s).
Proof. intros P. unfold support_resistance, gt, lt. present_cases P. Qed.

Lemma atr_adjustment_cases (row : Row) (s : float) :
  all_present row = true ->
  exists s', atr_adjustment row s = Ok s'
             /\ (s' = (s * 0.8)%float \/ s' = s).
Proof. intros P. unfold atr_adjustment. present_cases P. Qed.

Lemma indicator_total_cases (row : Row) :
  all_present row = true ->
  exists S, indicator_total row = Ok S /\ In S totals.
Proof.
  intros P. unfold indicator_total.
  destruct (trend_strength_cases row 0 P) as (s1 & E1 & C1). rewrite E1.
  cbn [bind].
  destruct (adx_trend_strength_cases row s1 P) as (s2 & E2 & C2). rewrite E2.
  cbn [bind].
  destruct (rsi_signals_cases row s2 P) as (s3 & E3 & C3). rewrite E3.
  cbn [bind].
  destruct (macd_signals_cases row s3 P) as (s4 & E4 & C4). rewrite E4.
  cbn [bind].
  destruct (vortex_indicator_cases row s4 P) as (s5 & E5 & C5).
  exists s5. split; [exact E5 |].
  destruct C1 as [-> | [-> | ->]]; destruct C2 as [-> | [-> | ->]];
    destruct C3 as [-> | [-> | ->]]; destruct C4 as [-> | ->];
    destruct C5 as [-> | ->]; vm_compute; tauto.
Qed.

Lemma volume_money_flow_on (row : Row) (S : float) :
  all_present row = true ->
  (1.5 <? val row "Volume_Ratio")%float = true ->
  (0 <? val row "CMF")%float = true ->
  volume_money_flow row S
  = Ok (if (0 <? S)%float then (S * 1.2)%float else (S * 0.8)%float).
Proof.
  intros P Hv Hc. unfold volume_money_flow, and_then, gt_lit.
  rewrite !(all_present_get _ _ P) by (simpl; tauto). cbn [bind].
  rewrite Hv, Hc. reflexivity.
Qed.

Lemma volume_money_flow_off (row : Row) (S : float) :
  all_present row = true ->
  (1.5 <? val row "Volume_Ratio")%float = false
  \/ (0 <? val row "CMF")%float = false ->
  volume_money_flow row S = Ok S.
Proof.
  intros P H. unfold volume_money_flow, and_then, gt_lit.
  rewrite !(all_present_get _ _ P) by (simpl; tauto). cbn [bind].
  destruct H as [H | H]; rewrite H;
    [| destruct (1.5 <? val row "Volume_Ratio")%float]; reflexivity.
Qed.

(** On the totals the five blocks can produce, the amplifier follows the
    sign of the total and never lowers it. *)
Lemma amplified_total (S : float) :
  In S totals ->
  let A := if (0 <? S)%float then (S * 1.2)%float else (S * 0.8)%float in
  ((0 <? S)%float = true -> A = (S * 1.2)%float)
  /\ ((S <=? 0)%float = true -> A = (S * 0.8)%float)
  /\ (S <=? A)%float = true.
Proof.
  intros H. unfold totals in H. cbn [In] in H.
  repeat (destruct H as [<- | H]; [vm_compute; repeat split; congruence |]).
  contradiction.
Qed.

(** C4: on a fully populated row with volume ratio above 1.5 and positive
    money flow, the amplifier turns the total [S] of the five additive
    blocks into [S * 1.2] when [S > 0] and into [S * 0.8] when [S <= 0],
    and the amplified value is never below [S]; on a row that does not meet
    both conditions the step leaves [S] as it is. *)
Theorem amplifier_never_lowers_the_total (row : Row) :
  fully_populated row = true ->
  exists S : float,
    indicator_total row = Ok S
    /\ ((1.5 <? val row "Volume_Ratio")%float = true ->
        (0 <? val row "CMF")%float = true ->
        exists A : float,
          volume_money_flow row S = Ok A
          /\ ((0 <? S)%float = true -> A = (S * 1.2)%float)
          /\ ((S <=? 0)%float = true -> A = (S * 0.8)%float)
          /\ (S <=? A)%float = true)
    /\ ((val row "Volume_Ratio" <=? 1.5)%float = true
        \/ (val row "CMF" <=? 0)%float = true ->
        volume_money_flow row S = Ok S).
Proof.
  intros F. pose proof (populated_all_present row F) as P.
  destruct (indicator_total_cases row P) as (S & E & HS).
  exists S. split; [exact E |]. split.
  - intros Hv Hc. eexists. split.
    + apply volume_money_flow_on; assumption.
    + apply amplified_total, HS.
  - intros H. apply volume_money_flow_off; [exact P |].
    destruct H as [H | H]; [left | right]; apply leb_not_gt, H.
Qed.

(** ** Rows with missing values, frames with missing columns *)

Lemma volume_money_flow_cases (row : Row) (s : float) :
  all_present row = true ->
  exists s', volume_money_flow row s = Ok s'
             /\ (s' = (if (0 <? s)%float then (s * 1.2)%float
                       else (s * 0.8)%float)
                 \/ s' = s).
Proof.
  intros P. unfold volume_money_flow, and_then, gt_lit.
  rewrite ?(all_present_get _ _ P) by (simpl; tauto). cbn [bind].
  destruct (1.5 <? val row "Volume_Ratio")%float; cbn [bind];
    [destruct (0 <? val row "CMF")%float |];
    eexists; (split; [reflexivity | tauto]).
Qed.

(** Whatever the comparisons give, the score is a number. *)
Lemma score_is_a_number (row : Row) :
  all_present row = true ->
  exists s, get_signal_strength row = Ok s /\ is_nan s = false.
Proof.
  intros P. unfold get_signal_strength.
  destruct (indicator_total_cases row P) as (S & E & HS). rewrite E.
  cbn [bind].
  destruct (volume_money_flow_cases row S P) as (s1 & E1 & C1). rewrite E1.
  cbn [bind].
  destruct (support_resistance_cases row s1 P) as (s2 & E2 & C2). rewrite E2.
  cbn [bind].
  destruct (atr_adjustment_cases row s2 P) as (s3 & E3 & C3).
  exists s3. split; [exact E3 |].
  unfold totals in HS. cbn [In] in HS.
  repeat (destruct HS as [<- | HS];
          [destruct C1 as [-> | ->]; destruct C2 as [-> | [-> | ->]];
           destruct C3 as [-> | ->]; vm_compute; reflexivity |]).
  contradiction.
Qed.

Lemma bind_ok {A B : Type} (c : result A) (k : A -> result B) (b : B) :
  bind c k = Ok b -> exists a, c = Ok a /\ k a = Ok b.
Proof.
  destruct c as [a | e]; cbn; [eauto | discriminate].
Qed.

Lemma row_get_present (row : Row) (c : string) (v : float) :
  row_get row c = Ok v -> present row c = true.
Proof. unfold present. now intros ->. Qed.

Ltac reads :=
  repeat match goal with
         | H : bind _ _ = Ok _ |- _ =>
             apply bind_ok in H; destruct H as (? & ? & H)
         | H : row_get _ _ = Ok _ |- _ => apply row_get_present in H
         end.

Lemma gt_reads (row : Row) (a b : string) (r : bool) :
  gt row a b = Ok r -> present row a = true /\ present row b = true.
Proof. unfold gt. intros H. reads. tauto. Qed.

Lemma lt_reads (row : Row) (a b : string) (r : bool) :
  lt row a b = Ok r -> present row a = true /\ present row b = true.
Proof. unfold lt. intros H. reads. tauto. Qed.

Lemma gt_lit_reads (row : Row) (a : string) (c : float) (r : bool) :
  gt_lit row a c = Ok r -> present row a = true.
Proof. unfold gt_lit. intros H. reads. tauto. Qed.

Lemma lt_lit_reads (row : Row) (a : string) (c : float) (r : bool) :
  lt_lit row a c = Ok r -> present row a = true.
Proof. unfold lt_lit. intros H. reads. tauto. Qed.

Lemma and_then_reads (c1 c2 : result bool) (r : bool) :
  and_then c1 c2 = Ok r -> exists b, c1 = Ok b.
Proof. unfold and_then. intros H. reads. eauto. Qed.

(** A score is returned only if every label read on all paths is there. *)
Lemma scored_row_has_columns (row : Row) (s : float) :
  get_signal_strength row = Ok s ->
  forall c, In c always_read -> present row c = true.
Proof.
  unfold get_signal_strength, indicator_total. intros H.
  apply bind_ok in H. destruct H as (t5 & H15 & H).
  apply bind_ok in H. destruct H as (t6 & H6 & H).
  apply bind_ok in H. destruct H as (t7 & H7 & H8).
  apply bind_ok in H15. destruct H15 as (t1 & H1 & H15).
  apply bind_ok in H15. destruct H15 as (t2 & H2 & H15).
  apply bind_ok in H15. destruct H15 as (t3 & H3 & H15).
  apply bind_ok in H15. destruct H15 as (t4 & H4 & H5).
  unfold trend_strength in H1. apply bind_ok in H1.
  destruct H1 as (up & H1 & _). apply and_then_reads in H1.
  destruct H1 as (b1 & H1). apply gt_reads in H1.
  unfold adx_trend_strength in H2. apply bind_ok in H2.
  destruct H2 as (strong & H2 & _). apply gt_lit_reads in H2.
  unfold rsi_signals in H3. apply bind_ok in H3.
  destruct H3 as (oversold & H3 & _). apply lt_lit_reads in H3.
  unfold macd_signals in H4. apply bind_ok in H4.
  destruct H4 as (above & H4 & _). apply gt_reads in H4.
  unfold vortex_indicator in H5. apply bind_ok in H5.
  destruct H5 as (pos & H5 & _). apply gt_reads in H5.
  unfold volume_money_flow in H6. apply bind_ok in H6.
  destruct H6 as (high & H6 & _). apply and_then_reads in H6.
  destruct H6 as (b6 & H6). apply gt_lit_reads in H6.
  unfold support_resistance in H7. apply bind_ok in H7.
  destruct H7 as (near & H7 & _). apply lt_reads in H7.
  unfold atr_adjustment in H8. apply bind_ok in H8.
  destruct H8 as (atr & H8 & _). apply row_get_present in H8.
  intros c Hc. unfold always_read in Hc. cbn [In] in Hc.
  repeat (destruct Hc as [<- | Hc]; [tauto |]). contradiction.
Qed.

Lemma absent_column_raises (row : Row) (c : string) :
  In c always_read -> present row c = false ->
  exists label, get_signal_strength row = Raise (KeyError label).
Proof.
  intros Hc Hp. destruct (get_signal_strength row) as [s | [label]] eqn:E.
  - rewrite (scored_row_has_columns row s E c Hc) in Hp. discriminate.
  - eauto.
Qed.

Lemma apply_rows_raises (f : Row -> result float) (rs : list Row) (r : Row)
                        (e : exn) :
  In r rs -> f r = Raise e -> exists e', apply_rows f rs = Raise e'.
Proof.
  induction rs as [| x rest IH]; intros Hin Hr; [contradiction |].
  cbn [apply_rows]. destruct (f x) as [s | e0] eqn:Ex; cbn [bind]; [| eauto].
  destruct Hin as [-> | Hin]; [congruence |].
  destruct (IH Hin Hr) as (e' & ->). cbn [bind]. eauto.
Qed.

Lemma apply_rows_ok (f : Row -> result float) (rs : list Row) :
  (forall r, In r rs -> exists s, f r = Ok s) ->
  exists ss, apply_rows f rs = Ok ss
             /\ List.length ss = List.length rs
             /\ forall r s, In (r, s) (combine rs ss) -> f r = Ok s.
Proof.
  induction rs as [| x rest IH]; intros H.
  - exists []. repeat split. intros r s [].
  - destruct (H x (or_introl eq_refl)) as (s & Ex).
    destruct IH as (ss & E & L & C).
    { intros r Hr. apply H. now right. }
    exists (s :: ss). cbn [apply_rows]. rewrite Ex, E. cbn [bind].
    repeat split; [cbn; now rewrite L |].
    intros r s' [Heq | Hin]; [congruence | now apply C].
Qed.

(** A frame with a row that cannot be scored is left out as a whole. *)
Lemma unscorable_frame_is_dropped (symbol : string) (df : DataFrame)
                                  (rest : list (string * DataFrame))
                                  (values : list float) (e : exn) :
  In values (rows df) ->
  get_signal_strength (row_of df values) = Raise e ->
  generate_signals ((symbol, df) :: rest) = generate_signals rest.
Proof.
  intros Hin Hr. cbn [generate_signals]. unfold score_frame.
  destruct (apply_rows_raises get_signal_strength
              (map (row_of df) (rows df)) (row_of df values) e)
    as (e' & ->); [now apply in_map | exact Hr |].
  reflexivity.
Qed.

Lemma map_fst_combine {A B : Type} (l : list A) (l' : list B) :
  List.length l' = List.length l -> map fst (combine l l') = l.
Proof.
  revert l'. induction l as [| x l IH]; intros [| y l'] H;
    try reflexivity; try discriminate.
  cbn. f_equal. apply IH. now injection H.
Qed.

(** A frame whose rows all have the required columns, and that has the
    three reference columns, is kept, every row with a score and the
    category of that score. *)
Lemma scorable_frame_is_kept (symbol : string) (df : DataFrame)
                             (rest : list (string * DataFrame)) :
  (forall values, In values (rows df) ->
                  all_present (row_of df values) = true) ->
  column df "RSI" = Ok tt -> column df "MACD" = Ok tt ->
  column df "BB_Width" = Ok tt ->
  exists scored,
    generate_signals ((symbol, df) :: rest)
    = (symbol, scored) :: generate_signals rest
    /\ map indicators scored = map (row_of df) (rows df)
    /\ Forall (fun r => get_signal_strength (indicators r)
                        = Ok (Signal_Strength r)
                        /\ is_nan (Signal_Strength r) = false
                        /\ Signal_ r = assign_signal (Signal_Strength r)
                        /\ (Signal_ r = Hold ->
                            (-1 <=? Signal_Strength r)%float = true
                            /\ (Signal_Strength r <=? 1)%float = true))
              scored.
Proof.
  intros P C1 C2 C3. cbn [generate_signals]. unfold score_frame.
  destruct (apply_rows_ok get_signal_strength (map (row_of df) (rows df)))
    as (ss & E & L & C).
  { intros r Hr. apply in_map_iff in Hr. destruct Hr as (v & <- & Hv).
    destruct (score_is_a_number _ (P v Hv)) as (s & Es & _). eauto. }
  rewrite E, C1, C2, C3. cbn [bind]. eexists. split; [reflexivity |]. split.
  - rewrite map_map. cbn [indicators]. apply map_fst_combine, L.
  - apply Forall_forall. intros r Hr. apply in_map_iff in Hr.
    destruct Hr as ((x, s) & <- & Hx). cbn.
    pose proof (C x s Hx) as Ex. split; [exact Ex |].
    assert (N : is_nan s = false).
    { assert (Hin : In x (map (row_of df) (rows df))).
      { now apply in_combine_l in Hx. }
      apply in_map_iff in Hin. destruct Hin as (v & <- & Hv).
      destruct (score_is_a_number _ (P v Hv)) as (s' & Es & N). congruence. }
    split; [exact N |]. split; [reflexivity |].
    apply (assign_signal_intervals s N).
Qed.

(** C1, at the sample row. *)
Lemma quiet_uptrend_scores_zero_witness :
  get_signal_strength Samples.quiet_row = Ok 0%float
  /\ score_row Samples.quiet_row = Ok (0%float, Hold).
Proof.
  apply (quiet_uptrend_scores_zero Samples.quiet_row); try reflexivity.
  left. reflexivity.
Defined.

(** C2: every score that is a number falls in exactly one category: each
    category is assigned exactly on its interval, > 2.5 StrongBuy, (1, 2.5]
    Buy, [-1, 1] Hold, [-2.5, -1) Sell, < -2.5 StrongSell; the scores 1.0
    and -1.0 are Hold and -2.5 is Sell. *)
Theorem categories_partition_the_scores (s : float) :
  is_nan s = false ->
  (assign_signal s = StrongBuy <-> (2.5 <? s)%float = true)
  /\ (assign_signal s = Buy <->
        (1 <? s)%float = true /\ (s <=? 2.5)%float = true)
  /\ (assign_signal s = Hold <->
        (-1 <=? s)%float = true /\ (s <=? 1)%float = true)
  /\ (assign_signal s = Sell <->
        (-2.5 <=? s)%float = true /\ (s <? -1)%float = true)
  /\ (assign_signal s = StrongSell <-> (s <? -2.5)%float = true)
  /\ assign_signal 1 = Hold
  /\ assign_signal (-1) = Hold
  /\ assign_signal (-2.5) = Sell.
Proof.
  intros N.
  destruct (assign_signal_intervals s N) as (I1 & I2 & I3 & I4 & I5).
  repeat (split; [assumption |]). repeat split.
Qed.

(** C2, at the score 2.5, the upper end of Buy. *)
Lemma categories_partition_the_scores_witness :
  (assign_signal 2.5 = StrongBuy <-> (2.5 <? 2.5)%float = true)
  /\ (assign_signal 2.5 = Buy <->
        (1 <? 2.5)%float = true /\ (2.5 <=? 2.5)%float = true)
  /\ (assign_signal 2.5 = Hold <->
        (-1 <=? 2.5)%float = true /\ (2.5 <=? 1)%float = true)
  /\ (assign_signal 2.5 = Sell <->
        (-2.5 <=? 2.5)%float = true /\ (2.5 <? -1)%float = true)
  /\ (assign_signal 2.5 = StrongSell <-> (2.5 <? -2.5)%float = true)
  /\ assign_signal 1 = Hold
  /\ assign_signal (-1) = Hold
  /\ assign_signal (-2.5) = Sell.
Proof.
  apply (categories_partition_the_scores 2.5). reflexivity.
Defined.

(** C4, at a row where both conditions of the amplifier hold. *)
Lemma amplifier_never_lowers_the_total_witness :
  exists S : float,
    indicator_total Samples.surge_row = Ok S
    /\ ((1.5 <? val Samples.surge_row "Volume_Ratio")%float = true ->
        (0 <? val Samples.surge_row "CMF")%float = true ->
        exists A : float,
          volume_money_flow Samples.surge_row S = Ok A
          /\ ((0 <? S)%float = true -> A = (S * 1.2)%float)
          /\ ((S <=? 0)%float = true -> A = (S * 0.8)%float)
          /\ (S <=? A)%float = true)
    /\ ((val Samples.surge_row "Volume_Ratio" <=? 1.5)%float = true
        \/ (val Samples.surge_row "CMF" <=? 0)%float = true ->
        volume_money_flow Samples.surge_row S = Ok S).
Proof.
  apply (amplifier_never_lowers_the_total Samples.surge_row). reflexivity.
Defined.

(** The amplifier on a bullish and on a bearish total. *)
Example amplifier_on_surge :
  indicator_total Samples.surge_row = Ok 4%float
  /\ volume_money_flow Samples.surge_row 4 = Ok (4 * 1.2)%float
  /\ (4 <? 4 * 1.2)%float = true.
Proof. repeat split. Qed.

Example amplifier_on_slump :
  indicator_total Samples.slump_row = Ok (-4)%float
  /\ volume_money_flow Samples.slump_row (-4) = Ok (-4 * 0.8)%float
  /\ (-4 <? -4 * 0.8)%float = true.
Proof. repeat split. Qed.

(** C3, as the claim has it, fails on a row whose 50-period average is
    missing: the row is scored -1.5 and categorised Sell, and
    [generate_signals] keeps it. *)
Lemma missing_value_is_scored :
  is_nan (val Samples.warmup_row "SMA_50") = true
  /\ fully_populated Samples.warmup_row = false
  /\ get_signal_strength Samples.warmup_row = Ok (-1.5)%float
  /\ generate_signals [("TCS.NS", Samples.warmup_frame)]
     = [("TCS.NS", [ {| indicators := Samples.warmup_row;
                        Signal_Strength := (-1.5)%float;
                        Signal_ := Sell |} ])].
Proof. repeat split. Qed.

(** A column read only on some paths may be absent without any failure:
    with the close on the 20-period average, the 50-period one is never
    looked up. *)
Example absent_sma50_is_not_read :
  column Samples.no_sma50_frame "SMA_50" = Raise (KeyError "SMA_50")
  /\ exists scored,
       generate_signals [("TCS.NS", Samples.no_sma50_frame)]
       = [("TCS.NS", scored)]
       /\ map Signal_ scored = [Sell].
Proof. split; [reflexivity |]. eexists. split; reflexivity. Qed.

(** C3, amended: the scorer has no condition of its own for missing data.
    (1) A row that has every required column is scored also when some of
    its values are NaN: each comparison on a NaN is false, the score is a
    number and the category is the one of that score.  (2) When a column
    read on every path is absent, the lookup raises [KeyError].  (3)
    [generate_signals] catches the exception per symbol: a frame with a row
    that raises is left out of the result as a whole, so none of its rows
    gets a score or a category.  (4) A frame whose rows all have the
    required columns (and that has the reference columns) is kept with
    every row scored; Hold is given only to scores in [-1, 1], never as a
    default. *)
Theorem missing_data_policy :
  (forall row : Row,
      all_present row = true ->
      exists s, score_row row = Ok (s, assign_signal s) /\ is_nan s = false)
  /\ (forall (row : Row) (c : string),
        In c always_read -> present row c = false ->
        exists label, get_signal_strength row = Raise (KeyError label))
  /\ (forall symbol df rest values e,
        In values (rows df) ->
        get_signal_strength (row_of df values) = Raise e ->
        generate_signals ((symbol, df) :: rest) = generate_signals rest)
  /\ (forall symbol df rest,
        (forall values, In values (rows df) ->
                        all_present (row_of df values) = true) ->
        column df "RSI" = Ok tt -> column df "MACD" = Ok tt ->
        column df "BB_Width" = Ok tt ->
        exists scored,
          generate_signals ((symbol, df) :: rest)
          = (symbol, scored) :: generate_signals rest
          /\ map indicators scored = map (row_of df) (rows df)
          /\ Forall (fun r => get_signal_strength (indicators r)
                              = Ok (Signal_Strength r)
                              /\ is_nan (Signal_Strength r) = false
                              /\ Signal_ r = assign_signal (Signal_Strength r)
                              /\ (Signal_ r = Hold ->
                                  (-1 <=? Signal_Strength r)%float = true
                                  /\ (Signal_Strength r <=? 1)%float = true))
                    scored).
Proof.
  split; [| split; [| split]].
  - intros row P. destruct (score_is_a_number row P) as (s & E & N).
    exists s. unfold score_row. rewrite E. split; [reflexivity | exact N].
  - apply absent_column_raises.
  - apply unscorable_frame_is_dropped.
  - apply scorable_frame_is_kept.
Qed.

(** C3 amended, at the sample frames: the row with the missing average is
    scored, the frame without ADX is dropped. *)
Lemma missing_data_policy_witness :
  (exists s, score_row Samples.warmup_row = Ok (s, assign_signal s)
             /\ is_nan s = false)
  /\ generate_signals [("INFY.NS", Samples.no_adx_frame);
                       ("TCS.NS", Samples.warmup_frame)]
     = generate_signals [("TCS.NS", Samples.warmup_frame)].
Proof.
  destruct missing_data_policy as (P1 & _ & P3 & _). split.
  - apply P1. reflexivity.
  - apply (P3 "INFY.NS" Samples.no_adx_frame _
              [ 105; 100; 95; 50; 0.5; 1; 0.9; 1.1; 1; 0.1; 100; 110; 1.5;
                0.08 ]%float (KeyError "ADX")).
    + left. reflexivity.
    + reflexivity.
Defined.

End ScoringFacts.

(** * Facts about the retrieval cache *)

Section CacheFacts.

Import Calendar Cache.
Open Scope string_scope.
Open Scope Z_scope.

(** ** [save_stock_data] *)

Lemma save_nonempty (now : datetime) (sym : string) (series : list Bar)
                    (t : Table) :
  series <> [] ->
  save_stock_data now sym (Some series) t = map (stamp now sym) series.
Proof. destruct series; [congruence | reflexivity]. Qed.

Lemma rows_of_other (now : datetime) (sym other : string)
                    (series : list Bar) :
  other <> sym -> rows_of other (map (stamp now sym) series) = [].
Proof.
  intros N. unfold rows_of. induction series as [| b l IH]; cbn;
    [reflexivity |].
  destruct (String.eqb_spec sym other) as [E | _]; [congruence | exact IH].
Qed.

(** ** The aggregates of [is_data_fresh] *)

Lemma is_data_fresh_unfold (now : datetime) (sym : string) (t : Table) :
  is_data_fresh now sym t
  = match latest_date sym t, latest_update sym t with
    | Some latest, Some _ =>
        required_date (add_hours_minutes now 5 30) <=? latest
    | _, _ => false
    end.
Proof.
  unfold is_data_fresh, required_date, dt_ltb, replace_time, sub_days.
  cbn [day usec]. rewrite Z.ltb_irrefl, Z.eqb_refl. cbn [orb andb].
  reflexivity.
Qed.

(** The typed table of the samples, whose latest bar is dated two days
    before the clock reading. *)
Example fresh_at_1600_stale_at_1800 :
  add_hours_minutes Samples.clock_1030 5 30 = at_time 2024 6 14 16 0
  /\ add_hours_minutes Samples.clock_1230 5 30 = at_time 2024 6 14 18 0
  /\ latest_date "TCS.NS" Samples.tcs_table = Some (ymd2ord 2024 6 12)
  /\ is_data_fresh Samples.clock_1030 "TCS.NS" Samples.tcs_table = true
  /\ is_data_fresh Samples.clock_1230 "TCS.NS" Samples.tcs_table = false
  /\ is_data_fresh Samples.clock_1030 "INFY.NS" Samples.tcs_table = false.
Proof. repeat split. Qed.

(** C6 at a failing input: the table holds two bars of TCS; saving a series
    for INFY leaves no row of TCS behind, so the TCS data that was readable
    and fresh is gone. *)
Theorem save_wipes_other_symbols :
  let t := Samples.tcs_table in
  let t' := save_stock_data Samples.clock_1030 "INFY.NS"
                            (Some Samples.infy_series) t in
  let june_1 := at_time 2024 6 1 0 0 in
  let june_30 := at_time 2024 6 30 0 0 in
  List.length (rows_of "TCS.NS" t) = 2%nat
  /\ rows_of "TCS.NS" t' = []
  /\ get_stock_data "TCS.NS" june_1 june_30 t
     = Some [Samples.bar_on 2024 6 11 3850; Samples.bar_on 2024 6 12 3861]
  /\ get_stock_data "TCS.NS" june_1 june_30 t' = None
  /\ is_data_fresh Samples.clock_1030 "TCS.NS" t = true
  /\ is_data_fresh Samples.clock_1030 "TCS.NS" t' = false.
Proof. repeat split. Qed.

(** C10: a save of no series, or of an empty one, returns without touching
    the table: no row is deleted or inserted and no [last_updated] value is
    written, so every later freshness check and read sees what it saw
    before. *)
Theorem empty_save_changes_nothing (now : datetime) (sym : string)
                                   (data : option (list Bar)) (t : Table) :
  data = None \/ data = Some [] ->
  save_stock_data now sym data t = t
  /\ (forall (now' : datetime) (s : string),
        is_data_fresh now' s (save_stock_data now sym data t)
        = is_data_fresh now' s t)
  /\ (forall (s : string) (a b : datetime),
        get_stock_data s a b (save_stock_data now sym data t)
        = get_stock_data s a b t).
Proof.
  intros [-> | ->]; cbn [save_stock_data]; repeat split.
Qed.

(** C10, at the sample table. *)
Lemma empty_save_changes_nothing_witness :
  save_stock_data Samples.clock_1230 "TCS.NS" (Some []) Samples.tcs_table
  = Samples.tcs_table
  /\ (forall (now' : datetime) (s : string),
        is_data_fresh now' s
          (save_stock_data Samples.clock_1230 "TCS.NS" (Some [])
                           Samples.tcs_table)
        = is_data_fresh now' s Samples.tcs_table)
  /\ (forall (s : string) (a b : datetime),
        get_stock_data s a b
          (save_stock_data Samples.clock_1230 "TCS.NS" (Some [])
                           Samples.tcs_table)
        = get_stock_data s a b Samples.tcs_table).
Proof.
  apply (empty_save_changes_nothing Samples.clock_1230 "TCS.NS" (Some [])
           Samples.tcs_table).
  right. reflexivity.
Defined.

End CacheFacts.

(** * Facts about the table as SQLite holds it *)

Section DatabaseFacts.

Import Calendar Database.
Open Scope string_scope.
Open Scope Z_scope.

(** ** The length of the texts *)

Lemma length_append (a b : string) :
  String.length (a ++ b) = (String.length a + String.length b)%nat.
Proof. induction a as [| c a IH]; cbn; [reflexivity | now rewrite IH]. Qed.

Lemma pad_length (width : nat) (n : Z) : String.length (pad width n) = width.
Proof.
  revert n. induction width as [| w IH]; intros n; cbn [pad];
    [reflexivity |].
  rewrite length_append, IH. cbn. lia.
Qed.

Lemma date_text_length (d : date) : String.length (date_text d) = 10%nat.
Proof.
  unfold date_text. destruct (ord2ymd d) as [[y m] dd].
  rewrite !length_append, !pad_length. reflexivity.
Qed.

(** The text of a timestamp starts with the text of its date and goes on
    with a blank. *)
Lemma isoformat_head (t : datetime) (zone : option Z) :
  exists tail, isoformat t zone = date_text (day t) ++ String " " tail.
Proof. unfold isoformat. eexists. reflexivity. Qed.

Lemma isoformat_length (t : datetime) (zone : option Z) :
  (10 < String.length (isoformat t zone))%nat.
Proof.
  destruct (isoformat_head t zone) as (tail & ->).
  rewrite length_append, date_text_length. cbn. lia.
Qed.

(** ** What the parser of dates reads *)

Lemma number_consumes (two : ascii -> ascii -> bool) (one : ascii -> bool)
                      (s rest : string) (v : Z) :
  number two one s = Some (v, rest) ->
  (String.length s <= 2 + String.length rest)%nat.
Proof.
  destruct s as [| a [| b s]]; cbn; [discriminate | |].
  - destruct (one a); [| discriminate]. intros H. injection H as _ <-.
    cbn. lia.
  - destruct (two a b).
    + intros H. injection H as _ <-. lia.
    + destruct (one a); [| discriminate]. intros H. injection H as _ <-.
      cbn. lia.
Qed.

Lemma directive_Y_consumes (s rest : string) (v : Z) :
  directive_Y s = Some (v, rest) ->
  String.length s = (4 + String.length rest)%nat.
Proof.
  destruct s as [| a [| b [| c [| d s]]]]; cbn; try discriminate.
  destruct (is_digit a && is_digit b && is_digit c && is_digit d);
    [| discriminate].
  intros H. injection H as _ <-. reflexivity.
Qed.

Lemma literal_consumes (c : ascii) (s rest : string) :
  literal c s = Some rest -> String.length s = S (String.length rest).
Proof.
  destruct s as [| a s]; cbn; [discriminate |].
  destruct (Ascii.eqb a c); [| discriminate]. intros H. now injection H as <-.
Qed.

Lemma date_fields_consumes (s rest : string) (y m d : Z) :
  date_fields s = Some (y, m, d, rest) ->
  (String.length s <= 10 + String.length rest)%nat.
Proof.
  unfold date_fields.
  destruct (directive_Y s) as [[y0 s1] |] eqn:EY; [| discriminate].
  destruct (literal "-" s1) as [s2 |] eqn:E1; [| discriminate].
  destruct (directive_m s2) as [[m0 s3] |] eqn:Em; [| discriminate].
  destruct (literal "-" s3) as [s4 |] eqn:E2; [| discriminate].
  destruct (directive_d s4) as [[d0 s5] |] eqn:Ed; [| discriminate].
  intros H. injection H as _ _ _ <-.
  apply directive_Y_consumes in EY. apply literal_consumes in E1, E2.
  apply number_consumes in Em, Ed. lia.
Qed.

(** A text that parses as a date has at most ten characters. *)
Lemma strptime_date_short (s : string) (d : date) :
  strptime_date s = Some d -> (String.length s <= 10)%nat.
Proof.
  unfold strptime_date.
  destruct (date_fields s) as [[[[y m] dd] rest] |] eqn:E; [| discriminate].
  destruct rest; [| discriminate]. intros _.
  apply date_fields_consumes in E. cbn in E. lia.
Qed.

(** So the text of a timestamp never does. *)
Lemma strptime_date_isoformat (t : datetime) (zone : option Z) :
  strptime_date (isoformat t zone) = None.
Proof.
  destruct (strptime_date (isoformat t zone)) as [d |] eqn:E; [| reflexivity].
  apply strptime_date_short in E. pose proof (isoformat_length t zone). lia.
Qed.

(** ** The order of the texts *)

Lemma ascii_compare_refl (a : ascii) : Ascii.compare a a = Eq.
Proof. unfold Ascii.compare. apply N.compare_refl. Qed.

(** A text that goes on is after the text it starts with. *)
Lemma leb_longer (s tail : string) (c : ascii) :
  String.leb (s ++ String c tail) s = false.
Proof.
  unfold String.leb. induction s as [| a s IH]; cbn; [reflexivity |].
  rewrite ascii_compare_refl. exact IH.
Qed.

(** The text of a timestamp is after the text of its own date. *)
Lemma stamp_after_its_date (t : datetime) (zone : option Z) :
  String.leb (isoformat t zone) (date_text (day t)) = false.
Proof.
  destruct (isoformat_head t zone) as (tail & ->). apply leb_longer.
Qed.

Lemma max_text_in (first : string) (others : list string) :
  In (max_text first others) (first :: others).
Proof.
  unfold max_text. revert first.
  induction others as [| s others IH]; intros first; cbn [fold_left];
    [now left |].
  destruct (String.ltb first s).
  - right. exact (IH s).
  - destruct (IH first) as [H | H]; [left | right; right]; assumption.
Qed.

Lemma insert_by_text_in (r x : Row) (l : list Row) :
  In x (insert_by_text r l) <-> x = r \/ In x l.
Proof.
  induction l as [| y l IH]; cbn; [intuition |].
  destruct (String.leb (date_cell r) (date_cell y)); cbn; [intuition |].
  rewrite IH. intuition.
Qed.

Lemma order_by_text_in (x : Row) (l : list Row) :
  In x (order_by_text l) <-> In x l.
Proof.
  induction l as [| r l IH]; cbn; [tauto |].
  rewrite insert_by_text_in, IH. intuition.
Qed.

(** ** After a save *)

Lemma save_writes (now : datetime) (sym : string) (f : Frame) (t : Table) :
  bars f <> [] ->
  save_stock_data now sym (Some f) t
  = {| date_column := column_of_index f;
       table_rows := map (written now sym) (bars f) |}.
Proof.
  intros H. unfold save_stock_data. destruct (bars f); [congruence |].
  reflexivity.
Qed.

(** X11: whatever frame of the provider [save_stock_data] has just
    written, [is_data_fresh] answers false, for every symbol and at every
    clock reading: the first column of the table holds the text of
    timestamps, which the parse of the latest date refuses, so that the
    answer comes from the [except] branch.  What is saved is never found
    fresh. *)
Theorem saved_data_is_never_fresh (now check : datetime) (sym s : string)
                                  (f : Frame) (t : Table) :
  bars f <> [] ->
  is_data_fresh check s (save_stock_data now sym (Some f) t) = false.
Proof.
  intros H. rewrite (save_writes now sym f t H). unfold is_data_fresh.
  destruct (has_date_column _); [| reflexivity]. cbn [table_rows].
  destruct (filter (fun r => String.eqb (symbol r) s)
                   (map (written now sym) (bars f))) as [| r others] eqn:E;
    [reflexivity |].
  cbv zeta. destruct (strptime_stamp _); [| reflexivity].
  assert (P : exists b zone,
             max_text (date_cell r) (map date_cell others)
             = isoformat b zone).
  { assert (I : forall x, In x (r :: others) ->
                          exists b zone, date_cell x = isoformat b zone).
    { intros x Hx. rewrite <- E in Hx. apply filter_In in Hx.
      destruct Hx as (Hx & _). apply in_map_iff in Hx.
      destruct Hx as (b & <- & _). cbn. eauto. }
    destruct (max_text_in (date_cell r) (map date_cell others)) as [M | M].
    - rewrite <- M. apply I. now left.
    - apply in_map_iff in M. destruct M as (x & <- & Hx). apply I.
      now right. }
  destruct P as (b & zone & ->). now rewrite strptime_date_isoformat.
Qed.

(** X11, with the frame of the provider saved into the table of
    [_init_db] and asked about at 16:00 Indian time on the next day. *)
Lemma saved_data_is_never_fresh_witness :
  is_data_fresh Samples.clock_1030 "TCS.NS"
    (save_stock_data MoreSamples.saved_at "TCS.NS"
                     (Some MoreSamples.provider_frame) initial) = false.
Proof.
  apply (saved_data_is_never_fresh MoreSamples.saved_at Samples.clock_1030
           "TCS.NS" "TCS.NS" MoreSamples.provider_frame initial).
  discriminate.
Defined.

(** X13: what is saved cannot be read back.  After [save_stock_data] has
    written a frame, every read, of any symbol over any range, returns
    [None] unless the index of the frame is named [date] letter for
    letter: with any other name the query raises or [set_index('date')]
    does.  And under the name [date] no read returns a bar labelled on the
    last day of its range, since the text of a timestamp sorts after the
    text of its date. *)
Theorem saved_data_reads_as_not_found (now : datetime) (sym : string)
                                      (f : Frame) (t : Table) :
  bars f <> [] ->
  (index_name f <> Some "date" ->
   forall s a b, get_stock_data s a b (save_stock_data now sym (Some f) t)
                 = None)
  /\ (forall s a b df bar,
        get_stock_data s a b (save_stock_data now sym (Some f) t) = Some df ->
        In bar (bars f) -> day (Fetcher.index bar) = day b ->
        ~ In (written now sym bar) df).
Proof.
  intros H. rewrite (save_writes now sym f t H). split.
  - intros N s a b. unfold get_stock_data.
    destruct (has_date_column _); [| reflexivity].
    destruct (0 <? List.length _)%nat; [| reflexivity].
    cbn [date_column].
    destruct (String.eqb_spec (column_of_index f) "date") as [E | _];
      [| reflexivity].
    unfold column_of_index in E. destruct (index_name f); [| discriminate].
    congruence.
  - intros s a b df bar G Hbar D Hin. unfold get_stock_data in G.
    destruct (has_date_column _); [| discriminate].
    destruct (0 <? List.length _)%nat; [| discriminate].
    destruct (String.eqb _ "date"); [| discriminate].
    injection G as <-. unfold selected in Hin.
    apply order_by_text_in, filter_In in Hin. destruct Hin as (_ & C).
    apply andb_true_iff in C. destruct C as (_ & C). cbn [date_cell written] in C.
    rewrite <- D, stamp_after_its_date in C. discriminate.
Qed.

(** X13, with the frame of the provider saved into the table of
    [_init_db]. *)
Lemma saved_data_reads_as_not_found_witness :
  (Database.index_name MoreSamples.provider_frame <> Some "date" ->
   forall s a b,
     get_stock_data s a b
       (save_stock_data MoreSamples.saved_at "TCS.NS"
                        (Some MoreSamples.provider_frame) initial) = None)
  /\ (forall s a b df bar,
        get_stock_data s a b
          (save_stock_data MoreSamples.saved_at "TCS.NS"
                           (Some MoreSamples.provider_frame) initial)
        = Some df ->
        In bar (Database.bars MoreSamples.provider_frame) ->
        day (Fetcher.index bar) = day b ->
        ~ In (written MoreSamples.saved_at "TCS.NS" bar) df).
Proof.
  apply (saved_data_reads_as_not_found MoreSamples.saved_at "TCS.NS"
           MoreSamples.provider_frame initial).
  discriminate.
Defined.

(** ** The claims on freshness and on reading back *)

(** C5 at a failing input.  The frame of the provider, whose latest bar is
    dated 12 June 2024, is saved into the table of [_init_db]; the clock
    then reads 10:30 on 14 June, which is 16:00 in India, so that the
    required date is 12 June, today minus two.  The table holds a latest
    date and a time of writing, the latest date is the required one, and
    [is_data_fresh] answers false: the latest date comes back as the text
    of a timestamp, [strptime] with ['%Y-%m-%d'] raises on it and the answer
    is the one of the [except] branch.  On a table that holds the same bars
    under the text of dates the same function follows the rule of the
    claim: true at 16:00, false at 18:00. *)
Theorem fresh_bars_are_reported_stale :
  let t := save_stock_data MoreSamples.saved_at "TCS.NS"
                           (Some MoreSamples.provider_frame) initial in
  map date_cell (table_rows t)
  = ["2024-06-11 00:00:00+05:30"; "2024-06-12 00:00:00+05:30"]
  /\ map last_updated (table_rows t)
     = ["2024-06-13 04:00:00.250000"; "2024-06-13 04:00:00.250000"]
  /\ add_hours_minutes Samples.clock_1030 5 30 = at_time 2024 6 14 16 0
  /\ strptime_stamp "2024-06-13 04:00:00.250000" = Some MoreSamples.saved_at
  /\ strptime_date "2024-06-12 00:00:00+05:30" = None
  /\ strptime_date "2024-06-12" = Some (ymd2ord 2024 6 14 - 2)
  /\ is_data_fresh Samples.clock_1030 "TCS.NS" t = false
  /\ is_data_fresh Samples.clock_1030 "TCS.NS" MoreSamples.date_format_table
     = true
  /\ is_data_fresh Samples.clock_1230 "TCS.NS" MoreSamples.date_format_table
     = false.
Proof. cbv zeta. repeat split; vm_compute; reflexivity. Qed.

(** The time of writing is parsed with its microseconds: a table written
    on a full second is not fresh either, whatever its dates. *)
Example written_on_a_full_second :
  strptime_stamp (isoformat (at_time 2024 6 13 4 0) None) = None
  /\ is_data_fresh Samples.clock_1030 "TCS.NS"
       {| date_column := "date";
          table_rows :=
            [ {| symbol := "TCS.NS"; date_cell := "2024-06-12";
                 open_cell := 3861; high_cell := 3861; low_cell := 3861;
                 close_cell := 3861; volume_cell := 1000;
                 last_updated := isoformat (at_time 2024 6 13 4 0) None |} ]
       |} = false.
Proof. split; vm_compute; reflexivity. Qed.

(** C7 at a failing input.  The frame of the provider is saved into the
    table of [_init_db] and read back at once over June 2024, which covers
    its two bars.  The table now has a first column named [Date]; the query
    selects the two rows, and the read returns [None]: the column comes
    back as [Date] and [set_index('date')] raises.  With the same bars
    under an index named [date] the read does return rows, but not the bar
    of the last day of the range.  On a table that holds the bars under the
    text of dates the same read returns both. *)
Theorem saved_bars_cannot_be_read_back :
  let t := save_stock_data MoreSamples.saved_at "TCS.NS"
                           (Some MoreSamples.provider_frame) initial in
  let t' := save_stock_data MoreSamples.saved_at "TCS.NS"
                            (Some MoreSamples.lowercase_frame) initial in
  let june_1 := at_time 2024 6 1 0 0 in
  let june_12 := at_time 2024 6 12 0 0 in
  let june_30 := at_time 2024 6 30 0 0 in
  date_column t = "Date"
  /\ map date_cell (selected "TCS.NS" june_1 june_30 t)
     = ["2024-06-11 00:00:00+05:30"; "2024-06-12 00:00:00+05:30"]
  /\ get_stock_data "TCS.NS" june_1 june_30 t = None
  /\ map date_cell (table_rows t')
     = ["2024-06-11 00:00:00"; "2024-06-12 00:00:00"]
  /\ option_map (map date_cell) (get_stock_data "TCS.NS" june_1 june_12 t')
     = Some ["2024-06-11 00:00:00"]
  /\ option_map (map date_cell)
       (get_stock_data "TCS.NS" june_1 june_30 MoreSamples.date_format_table)
     = Some ["2024-06-11"; "2024-06-12"].
Proof. cbv zeta. repeat split; vm_compute; reflexivity. Qed.

End DatabaseFacts.

(** * Facts about the fallback resolver *)

Section FetcherFacts.

Import Calendar Fetcher.
Open Scope string_scope.

(** ** The order of the labels *)

Lemma dt_leb_spec (a b : datetime) :
  dt_leb a b = true <->
  (day a < day b \/ (day a = day b /\ usec a <= usec b))%Z.
Proof.
  unfold dt_leb. rewrite orb_true_iff, andb_true_iff, Z.ltb_lt, Z.eqb_eq,
    Z.leb_le. reflexivity.
Qed.

Lemma dt_ltb_spec (a b : datetime) :
  dt_ltb a b = true <->
  (day a < day b \/ (day a = day b /\ usec a < usec b))%Z.
Proof.
  unfold dt_ltb. rewrite orb_true_iff, andb_true_iff, !Z.ltb_lt, Z.eqb_eq.
  reflexivity.
Qed.

Lemma dt_leb_trans (a b c : datetime) :
  dt_leb a b = true -> dt_leb b c = true -> dt_leb a c = true.
Proof. rewrite !dt_leb_spec. lia. Qed.

Lemma dt_ltb_negb_leb (a b : datetime) : dt_ltb a b = negb (dt_leb b a).
Proof.
  destruct (dt_leb b a) eqn:L; cbn [negb].
  - destruct (dt_ltb a b) eqn:T; [| reflexivity].
    apply dt_leb_spec in L. apply dt_ltb_spec in T. lia.
  - apply dt_ltb_spec.
    assert (N : ~ (day b < day a \/ (day b = day a /\ usec b <= usec a))%Z).
    { intros H. apply dt_leb_spec in H. congruence. }
    lia.
Qed.

(** ** The slice *)

Lemma increasing_sorted (df : Frame) :
  increasing (map index df) = true -> StronglySorted by_index df.
Proof.
  induction df as [| r df IH]; [constructor |].
  intros H. assert (T : increasing (map index df) = true).
  { destruct df as [| x df]; [reflexivity |]. cbn in H.
    apply andb_true_iff in H. tauto. }
  specialize (IH T). constructor; [exact IH |].
  destruct df as [| x df]; [constructor |].
  cbn in H. apply andb_true_iff in H. destruct H as (L & _).
  inversion IH as [| ? ? _ F]; subst. constructor; [exact L |].
  eapply Forall_impl; [| exact F]. intros y Hy. unfold by_index in *.
  now apply (dt_leb_trans _ (index x)).
Qed.

Lemma filter_none {A : Type} (p : A -> bool) (l : list A) :
  Forall (fun x => p x = false) l -> filter p l = [].
Proof.
  induction 1 as [| x l Hx _ IH]; cbn; [reflexivity |]. now rewrite Hx.
Qed.

Lemma filter_same {A : Type} (p q : A -> bool) (l : list A) :
  Forall (fun x => p x = q x) l -> filter p l = filter q l.
Proof.
  induction 1 as [| x l Hx _ IH]; cbn; [reflexivity |].
  now rewrite Hx, IH.
Qed.

Lemma count_index (p : datetime -> bool) (df : Frame) :
  count p (map index df) = List.length (filter (fun r => p (index r)) df).
Proof.
  unfold count. induction df as [| r df IH]; cbn; [reflexivity |].
  destruct (p (index r)); cbn; now rewrite IH.
Qed.

(** In ascending order the rows up to a date are the first ones. *)
Lemma firstn_up_to (e : datetime) (df : Frame) :
  StronglySorted by_index df ->
  firstn (count (fun l => dt_leb l e) (map index df)) df
  = filter (fun r => dt_leb (index r) e) df.
Proof.
  rewrite count_index.
  induction 1 as [| r df S IH F]; [reflexivity |]. cbn [filter].
  destruct (dt_leb (index r) e) eqn:L.
  - cbn. now rewrite IH.
  - rewrite filter_none; [reflexivity |].
    eapply Forall_impl; [| exact F]. intros y Hy. unfold by_index in Hy.
    destruct (dt_leb (index y) e) eqn:Y; [| reflexivity].
    now rewrite (dt_leb_trans _ _ _ Hy Y) in L.
Qed.

(** And the rows from a date on are the last ones. *)
Lemma skipn_from (s : datetime) (df : Frame) :
  StronglySorted by_index df ->
  skipn (count (fun l => dt_ltb l s) (map index df)) df
  = filter (fun r => dt_leb s (index r)) df.
Proof.
  rewrite count_index.
  induction 1 as [| r df S IH F]; [reflexivity |]. cbn [filter].
  rewrite (dt_ltb_negb_leb (index r) s).
  destruct (dt_leb s (index r)) eqn:L; cbn [negb].
  - rewrite filter_none.
    + cbn. f_equal. symmetry. clear IH.
      induction F as [| y df Hy _ IH]; [reflexivity |]. cbn.
      inversion S; subst.
      rewrite (dt_leb_trans _ _ _ L Hy). f_equal. now apply IH.
    + eapply Forall_impl; [| exact F]. intros y Hy. unfold by_index in Hy.
      rewrite dt_ltb_negb_leb, (dt_leb_trans _ _ _ L Hy). reflexivity.
  - cbn. exact IH.
Qed.

Lemma sorted_filter (p : PriceRow -> bool) (df : Frame) :
  StronglySorted by_index df -> StronglySorted by_index (filter p df).
Proof.
  induction 1 as [| r df S IH F]; [constructor |]. cbn.
  destruct (p r); [| exact IH]. constructor; [exact IH |].
  apply Forall_forall. intros y Hy. apply filter_In in Hy.
  rewrite Forall_forall in F. apply F. tauto.
Qed.

Lemma filter_length_le {A : Type} (p : A -> bool) (l : list A) :
  (List.length (filter p l) <= List.length l)%nat.
Proof.
  induction l as [| x l IH]; cbn; [lia |]. destruct (p x); cbn; lia.
Qed.

Lemma filter_and {A : Type} (p q : A -> bool) (l : list A) :
  filter p (filter q l) = filter (fun x => p x && q x) l.
Proof.
  induction l as [| x l IH]; [reflexivity |]. cbn [filter].
  destruct (q x); cbn [filter]; rewrite ?andb_true_r, ?andb_false_r;
    destruct (p x); now rewrite IH.
Qed.

Lemma not_leb_ltb (a b : datetime) :
  dt_leb a b = false -> dt_ltb b a = true.
Proof. intros H. now rewrite dt_ltb_negb_leb, H. Qed.

Lemma ltb_leb_trans (a b c : datetime) :
  dt_ltb a b = true -> dt_leb b c = true -> dt_leb a c = true.
Proof. rewrite dt_ltb_spec, !dt_leb_spec. lia. Qed.

(** With the bounds in order, the labels before the start are all among
    those up to the end. *)
Lemma count_before_start (s e : datetime) (df : Frame) :
  dt_leb s e = true ->
  count (fun l => dt_ltb l s) (map index df)
  = count (fun l => dt_ltb l s)
          (map index (filter (fun r => dt_leb (index r) e) df)).
Proof.
  intros O. rewrite !count_index.
  induction df as [| r df IH]; [reflexivity |]. cbn [filter].
  destruct (dt_ltb (index r) s) eqn:T.
  - rewrite (ltb_leb_trans _ _ _ T O). cbn [filter]. rewrite T. cbn.
    now rewrite IH.
  - destruct (dt_leb (index r) e); cbn [filter]; rewrite ?T; exact IH.
Qed.

(** With the bounds out of order, the labels up to the end are all before
    the start. *)
Lemma count_up_to_end (s e : datetime) (df : Frame) :
  dt_leb s e = false ->
  (List.length (filter (fun r => dt_leb (index r) e) df)
   <= count (fun l => dt_ltb l s) (map index df))%nat.
Proof.
  intros O. rewrite count_index.
  induction df as [| r df IH]; cbn [filter]; [cbn; lia |].
  destruct (dt_leb (index r) e) eqn:B.
  - assert (T : dt_ltb (index r) s = true).
    { apply not_leb_ltb. destruct (dt_leb s (index r)) eqn:A; [| reflexivity].
      now rewrite (dt_leb_trans _ _ _ A B) in O. }
    rewrite T. cbn. lia.
  - destruct (dt_ltb (index r) s); cbn; lia.
Qed.

(** On a plain frame the slice is the rows of the span, in order. *)
Lemma loc_plain (start_date end_date : datetime) (df : Frame) :
  plain df = true ->
  loc start_date end_date df = Some (between start_date end_date df).
Proof.
  unfold plain, loc, slice_bounds, between. intros H.
  apply andb_true_iff in H. destruct H as (Z & I).
  apply negb_true_iff in Z. rewrite Z, I. f_equal.
  pose proof (increasing_sorted df I) as S.
  rewrite (firstn_up_to end_date df S).
  destruct (dt_leb start_date end_date) eqn:O.
  - rewrite (count_before_start start_date end_date df O).
    rewrite (skipn_from start_date _ (sorted_filter _ df S)).
    apply filter_and.
  - rewrite skipn_all2 by now apply count_up_to_end.
    symmetry. apply filter_none. apply Forall_forall. intros r _.
    destruct (dt_leb start_date (index r)) eqn:A; [| reflexivity].
    destruct (dt_leb (index r) end_date) eqn:B; [| reflexivity].
    now rewrite (dt_leb_trans _ _ _ A B) in O.
Qed.

Lemma loc_zoned (start_date end_date : datetime) (df : Frame) :
  zoned df = true -> loc start_date end_date df = None.
Proof. unfold loc. now intros ->. Qed.

(** ** One time-window chain *)

Lemma no_data_passed_over (default_period : string) (now : datetime)
                          (p : string) (r : response) :
  no_data r = true -> passed_over default_period now p r = true.
Proof.
  destruct r as [df |]; cbn; [| reflexivity]. now intros ->.
Qed.

(** The chain goes past an attempt that is passed over. *)
Lemma try_periods_passed_over (ticker : Ticker)
                              (symbol default_period : string)
                              (now : datetime) (p : string)
                              (rest : list string) :
  passed_over default_period now p (ticker p) = true ->
  fst (try_periods ticker symbol default_period now (p :: rest))
  = fst (try_periods ticker symbol default_period now rest)
  /\ calls (snd (try_periods ticker symbol default_period now (p :: rest)))
     = (symbol, p)
         :: calls (snd (try_periods ticker symbol default_period now rest)).
Proof.
  intros H. cbn [try_periods]. unfold passed_over in H.
  destruct (try_periods ticker symbol default_period now rest) as [r ev].
  destruct (ticker p) as [[| x df] |]; [split; reflexivity | |
                                        split; reflexivity].
  cbn [empty negb orb] in *.
  destruct (String.eqb p default_period); [discriminate |]. cbn [negb andb] in *.
  destruct (loc (trim_start default_period now) now (x :: df));
    [discriminate |].
  split; reflexivity.
Qed.

Lemma try_periods_no_data (ticker : Ticker) (symbol default_period : string)
                          (now : datetime) (p : string) (rest : list string) :
  no_data (ticker p) = true ->
  fst (try_periods ticker symbol default_period now (p :: rest))
  = fst (try_periods ticker symbol default_period now rest)
  /\ calls (snd (try_periods ticker symbol default_period now (p :: rest)))
     = (symbol, p)
         :: calls (snd (try_periods ticker symbol default_period now rest)).
Proof.
  intros H. now apply try_periods_passed_over, no_data_passed_over.
Qed.

(** The chain ends at a window that returns rows, when that window is the
    default one or the trim of its rows does not raise. *)
Lemma try_periods_hit (ticker : Ticker) (symbol default_period : string)
                      (now : datetime) (p : string) (rest : list string)
                      (df out : Frame) :
  ticker p = Returned df -> df <> [] ->
  (if String.eqb p default_period then Some df
   else loc (trim_start default_period now) now df) = Some out ->
  try_periods ticker symbol default_period now (p :: rest)
  = ((out, Some p),
     [History symbol p; Log INFO (SuccessfullyFetched symbol p)]).
Proof.
  intros E Hne O. cbn [try_periods]. rewrite E.
  destruct df as [| r df]; [congruence |]. cbn [empty negb].
  destruct (String.eqb p default_period); cbn [negb].
  - injection O as <-. reflexivity.
  - rewrite O. reflexivity.
Qed.

(** The chain stops at the first window that returns rows. *)
Lemma try_periods_first_hit (ticker : Ticker) (symbol default_period : string)
                            (now : datetime) (periods : list string)
                            (i : nat) (w : string) (df out : Frame) :
  nth_error periods i = Some w ->
  (forall j p, (j < i)%nat -> nth_error periods j = Some p ->
               passed_over default_period now p (ticker p) = true) ->
  ticker w = Returned df -> df <> [] ->
  (if String.eqb w default_period then Some df
   else loc (trim_start default_period now) now df) = Some out ->
  fst (try_periods ticker symbol default_period now periods)
  = (out, Some w)
  /\ calls (snd (try_periods ticker symbol default_period now periods))
     = map (pair symbol) (firstn (S i) periods).
Proof.
  revert i. induction periods as [| p rest IH]; intros i Hw Hbefore E Hne O.
  - destruct i; discriminate.
  - destruct i as [| i].
    + injection Hw as ->.
      rewrite (try_periods_hit _ _ _ _ _ _ df out E Hne O).
      split; reflexivity.
    + assert (Hp : passed_over default_period now p (ticker p) = true).
      { apply (Hbefore 0%nat p); [lia | reflexivity]. }
      destruct (try_periods_passed_over ticker symbol default_period now p
                  rest Hp) as (-> & ->).
      destruct (IH i Hw) as (-> & ->); try assumption.
      * intros j q Hj Hq. apply (Hbefore (S j) q); [lia | exact Hq].
      * split; reflexivity.
Qed.

(** When every window is passed over, every window has been tried and the
    chain ends without data. *)
Lemma try_periods_exhausted (ticker : Ticker) (symbol default_period : string)
                            (now : datetime) (periods : list string) :
  (forall p, In p periods ->
             passed_over default_period now p (ticker p) = true) ->
  fst (try_periods ticker symbol default_period now periods) = ([], None)
  /\ calls (snd (try_periods ticker symbol default_period now periods))
     = map (pair symbol) periods.
Proof.
  induction periods as [| p rest IH]; intros H; [split; reflexivity |].
  destruct (try_periods_passed_over ticker symbol default_period now p rest)
    as (-> & ->); [apply H; now left |].
  destruct IH as (-> & ->); [intros q Hq; apply H; now right |].
  split; reflexivity.
Qed.

(** The rows of the span are the rows of the frame dated inside it. *)
Lemma between_spec (start_date end_date : datetime) (df : Frame)
                   (r : PriceRow) :
  In r (between start_date end_date df) <->
  In r df /\ dt_leb start_date (index r) = true
  /\ dt_leb (index r) end_date = true.
Proof.
  unfold between. rewrite filter_In, andb_true_iff. reflexivity.
Qed.

(** An attempt that raises counts as one that returns no row, and leaves a
    warning in the log. *)
Lemma raised_counts_as_empty (ticker : Ticker) (symbol default_period : string)
                             (now : datetime) (periods : list string) :
  fst (try_periods ticker symbol default_period now periods)
  = fst (try_periods (silenced ticker) symbol default_period now periods)
  /\ calls (snd (try_periods ticker symbol default_period now periods))
     = calls (snd (try_periods (silenced ticker) symbol default_period now
                               periods)).
Proof.
  induction periods as [| p rest IH]; [split; reflexivity |].
  cbn [try_periods]. destruct IH as (IH1 & IH2).
  destruct (try_periods ticker symbol default_period now rest) as [r ev].
  destruct (try_periods (silenced ticker) symbol default_period now rest)
    as [r' ev'].
  cbn [fst snd] in IH1, IH2. subst r'. unfold silenced.
  destruct (ticker p) as [[| x df] |]; cbn [empty negb];
    [cbn; rewrite ?IH2; split; reflexivity | |
     cbn; rewrite ?IH2; split; reflexivity].
  destruct (negb (String.eqb p default_period)); [| split; reflexivity].
  destruct (loc (trim_start default_period now) now (x :: df));
    [split; reflexivity |].
  cbn. rewrite ?IH2. split; reflexivity.
Qed.

Lemma raised_is_logged (ticker : Ticker) (symbol default_period : string)
                       (now : datetime) (periods : list string) (p : string) :
  ticker p = Raised ->
  In (symbol, p)
     (calls (snd (try_periods ticker symbol default_period now periods))) ->
  In (WARNING, FailedToFetch symbol p)
     (logged (snd (try_periods ticker symbol default_period now periods))).
Proof.
  intros E. induction periods as [| q rest IH]; [intros [] |].
  cbn [try_periods].
  destruct (try_periods ticker symbol default_period now rest) as [r ev].
  cbn [snd] in IH.
  destruct (ticker q) as [[| x df] |] eqn:Eq; cbn [empty negb].
  - cbn. intros [H | H]; [congruence | now apply IH].
  - destruct (negb (String.eqb q default_period));
      [destruct (loc (trim_start default_period now) now (x :: df)) |];
      cbn; intros [H | H]; try congruence; try contradiction.
    right. right. now apply IH.
  - cbn. intros [H | H]; [left; congruence | right; now apply IH].
Qed.

(** ** The listings of one symbol *)

Lemma append_empty (s : string) : s ++ "" = s.
Proof. induction s as [| c s IH]; cbn; [reflexivity | now rewrite IH]. Qed.

Lemma prefix_append (sub t : string) : String.prefix sub (sub ++ t) = true.
Proof.
  induction sub as [| a sub IH]; cbn; [now destruct t |].
  destruct (ascii_dec a a); [exact IH | congruence].
Qed.

Lemma contains_suffix (sub s : string) : contains sub (s ++ sub) = true.
Proof.
  induction s as [| c s IH]; cbn [append].
  - destruct sub as [| a sub]; [reflexivity |]. cbn [contains].
    rewrite <- (append_empty (String a sub)) at 2.
    now rewrite prefix_append.
  - cbn [contains]. rewrite IH. apply orb_true_r.
Qed.

Lemma prefix_other_head (a c : ascii) (old s : string) :
  Ascii.eqb c a = false -> String.prefix (String a old) (String c s) = false.
Proof.
  intros H. cbn. destruct (ascii_dec a c) as [-> |]; [| reflexivity].
  now rewrite Ascii.eqb_refl in H.
Qed.

Lemma replace_from_skips (old new s : string) :
  replace_from (String.length s) old new s = "".
Proof. induction s as [| c s IH]; cbn; [reflexivity | exact IH]. Qed.

(** A suffix whose first character does not occur before it is the only
    occurrence, and is the one replaced. *)
Lemma replace_suffix (a : ascii) (old new base : string) :
  lacks a base = true ->
  replace (String a old) new (base ++ String a old) = base ++ new.
Proof.
  unfold replace. induction base as [| c base IH]; cbn [append lacks].
  - intros _. cbn [replace_from].
    rewrite <- (append_empty (String a old)) at 2.
    rewrite prefix_append. cbn [String.length].
    rewrite Nat.sub_succ, Nat.sub_0_r, replace_from_skips.
    apply append_empty.
  - intros H. apply andb_true_iff in H. destruct H as (Hc & Hb).
    apply negb_true_iff in Hc. cbn [replace_from].
    rewrite (prefix_other_head a c old _ Hc). cbn [append]. f_equal.
    now apply IH.
Qed.

Lemma replace_absent (a : ascii) (old new s : string) :
  lacks a s = true -> replace (String a old) new s = s.
Proof.
  unfold replace. induction s as [| c s IH]; cbn [lacks]; [reflexivity |].
  intros H. apply andb_true_iff in H. destruct H as (Hc & Hb).
  apply negb_true_iff in Hc. cbn [replace_from].
  rewrite (prefix_other_head a c old _ Hc). f_equal. now apply IH.
Qed.

Lemma replace_past (a : ascii) (old new base t : string) :
  lacks a base = true ->
  replace (String a old) new (base ++ t)
  = base ++ replace (String a old) new t.
Proof.
  unfold replace. induction base as [| c base IH]; cbn [append lacks];
    [reflexivity |].
  intros H. apply andb_true_iff in H. destruct H as (Hc & Hb).
  apply negb_true_iff in Hc. cbn [replace_from].
  rewrite (prefix_other_head a c old _ Hc). f_equal. now apply IH.
Qed.

(** On a symbol with an exchange suffix, the replacements of the source
    swap the suffix and strip it. *)
Lemma listing_variants (base : string) :
  lacks "." base = true ->
  replace ".NS" ".BO" (base ++ ".NS") = base ++ ".BO"
  /\ replace ".BO" ".NS" (base ++ ".BO") = base ++ ".NS"
  /\ replace ".BO" "" (replace ".NS" "" (base ++ ".NS")) = base
  /\ replace ".BO" "" (replace ".NS" "" (base ++ ".BO")) = base.
Proof.
  intros H. repeat split.
  - now apply (replace_suffix "." "NS" ".BO").
  - now apply (replace_suffix "." "BO" ".NS").
  - rewrite (replace_suffix "." "NS" "" base H), append_empty.
    now apply (replace_absent "." "BO" "").
  - rewrite (replace_past "." "NS" "" base ".BO" H).
    change (replace ".NS" "" ".BO") with ".BO".
    rewrite (replace_suffix "." "BO" "" base H). apply append_empty.
Qed.

Lemma fetch_stock_data_eta (yf : Provider) (now : datetime)
                           (period listing : string) :
  exists used,
    fetch_stock_data (yf listing) listing period now
    = ((chain_data yf now period listing, used),
       chain_trace yf now period listing).
Proof.
  unfold chain_data, chain_trace.
  destruct (fetch_stock_data (yf listing) listing period now) as [[df u] ev].
  now exists u.
Qed.

(** The listing asked first supplies the data: no other listing is tried. *)
Lemma resolve_symbol_first_listing (yf : Provider) (now : datetime)
                                   (period symbol : string) :
  empty (chain_data yf now period symbol) = false ->
  resolve_symbol yf now period symbol
  = ((symbol, chain_data yf now period symbol),
     chain_trace yf now period symbol).
Proof.
  intros H. unfold resolve_symbol.
  destruct (fetch_stock_data_eta yf now period symbol) as (u & ->).
  now rewrite H.
Qed.

(** The listing asked first supplies nothing: the other exchange is tried,
    and the bare symbol only if that supplies nothing either. *)
Lemma resolve_symbol_escalates (yf : Provider) (now : datetime)
                               (period symbol : string) :
  empty (chain_data yf now period symbol) = true ->
  contains ".NS" symbol = true \/ contains ".BO" symbol = true ->
  let other :=
    if contains ".NS" symbol then replace ".NS" ".BO" symbol
    else replace ".BO" ".NS" symbol in
  let base := replace ".BO" "" (replace ".NS" "" symbol) in
  let warning := Log WARNING (NoDataAvailable symbol) in
  resolve_symbol yf now period symbol
  = if empty (chain_data yf now period other)
    then ((if empty (chain_data yf now period base) then symbol else base,
           chain_data yf now period base),
          (chain_trace yf now period symbol ++ [warning]
           ++ chain_trace yf now period other
           ++ chain_trace yf now period base)%list)
    else ((other, chain_data yf now period other),
          (chain_trace yf now period symbol ++ [warning]
           ++ chain_trace yf now period other ++ [])%list).
Proof.
  intros H Hs. cbv zeta. unfold resolve_symbol.
  destruct (fetch_stock_data_eta yf now period symbol) as (u & ->).
  rewrite H.
  destruct (contains ".NS" symbol) eqn:Ens.
  - destruct (fetch_stock_data_eta yf now period
                (replace ".NS" ".BO" symbol)) as (u1 & ->).
    destruct (empty (chain_data yf now period (replace ".NS" ".BO" symbol)))
      eqn:E1; cbn [negb].
    + destruct (fetch_stock_data_eta yf now period
                  (replace ".BO" "" (replace ".NS" "" symbol))) as (u2 & ->).
      destruct (empty (chain_data yf now period
                         (replace ".BO" "" (replace ".NS" "" symbol))));
        reflexivity.
    + reflexivity.
  - destruct Hs as [Hs | Hs]; [discriminate |]. rewrite Hs.
    destruct (fetch_stock_data_eta yf now period
                (replace ".BO" ".NS" symbol)) as (u1 & ->).
    destruct (empty (chain_data yf now period (replace ".BO" ".NS" symbol)))
      eqn:E1; cbn [negb].
    + destruct (fetch_stock_data_eta yf now period
                  (replace ".BO" "" (replace ".NS" "" symbol))) as (u2 & ->).
      destruct (empty (chain_data yf now period
                         (replace ".BO" "" (replace ".NS" "" symbol))));
        reflexivity.
    + reflexivity.
Qed.

(** Every symbol [get_nifty50_symbols] returns carries an exchange
    suffix. *)
Lemma nifty50_symbols_have_suffix (csv : option (list string)) (s : string) :
  In s (get_nifty50_symbols csv) ->
  contains ".NS" s = true \/ contains ".BO" s = true.
Proof.
  destruct csv as [symbols |]; [| intros []]. cbn [get_nifty50_symbols].
  rewrite in_map_iff. intros (x & <- & _). unfold symbol_mapping.
  cbn [mapping_get].
  repeat match goal with
         | |- context [if String.eqb ?k x then _ else _] =>
             destruct (String.eqb k x); [right; reflexivity |]
         end.
  left. apply contains_suffix.
Qed.

(** ** The scan over the symbols *)

(** A symbol that cannot be resolved is logged and left out; the scan goes
    on with the symbols after it. *)
Lemma scan_skips_unresolved (yf : Provider) (now : datetime) (period : string)
                            (symbol : string) (rest : list string)
                            (data : list (string * Frame)) :
  empty (snd (fst (resolve_symbol yf now period symbol))) = true ->
  fst (scan yf now period (symbol :: rest) data)
  = fst (scan yf now period rest data).
Proof.
  intros H. cbn [scan].
  destruct (resolve_symbol yf now period symbol) as [[s sd] ev].
  cbn [fst snd] in H. rewrite H. cbn [negb].
  destruct (scan yf now period rest data). reflexivity.
Qed.

Lemma scan_keeps_resolved (yf : Provider) (now : datetime) (period : string)
                          (symbol : string) (rest : list string)
                          (data : list (string * Frame)) :
  empty (snd (fst (resolve_symbol yf now period symbol))) = false ->
  fst (scan yf now period (symbol :: rest) data)
  = fst (scan yf now period rest
           (dict_set (fst (fst (resolve_symbol yf now period symbol)))
                     (snd (fst (resolve_symbol yf now period symbol)))
                     data)).
Proof.
  intros H. cbn [scan].
  destruct (resolve_symbol yf now period symbol) as [[s sd] ev].
  cbn [fst snd] in *. rewrite H. cbn [negb].
  destruct (scan yf now period rest (dict_set s sd data)). reflexivity.
Qed.

(** ** The claims on the resolver *)

(** C8, as the claim has it, fails for a default window of one year: the
    widest window supplies a bar 200 days old, inside the year that ends
    now, and the returned series does not have it, because the trim keeps
    90 days for every default window other than three months and one
    month. *)
Lemma one_year_default_is_trimmed_to_90_days :
  let old := Samples.price_on 2023 11 27 3500 in
  Samples.only_max "max" = Returned Samples.long_history
  /\ In old Samples.long_history
  /\ default_window_start "1y" Samples.noon = Some (at_time 2023 6 14 12 0)
  /\ dt_leb (at_time 2023 6 14 12 0) (index old) = true
  /\ dt_leb (index old) Samples.noon = true
  /\ trim_start "1y" Samples.noon = sub_days Samples.noon 90
  /\ fst (fetch_stock_data Samples.only_max "TCS.NS" "1y" Samples.noon)
     = ([Samples.price_on 2024 3 26 3750; Samples.price_on 2024 6 4 3850],
        Some "max").
Proof. repeat split. cbn. tauto. Qed.

(** C8, amended: the windows are tried in the order default, year-to-date,
    one year, maximum; the first one that returns rows ends the chain and
    is the window reported.  Its rows are returned as they are when it is
    the default window; otherwise, when they carry naive timestamps in
    ascending order, the rows returned are those dated from the start of
    the trimming span to now, where the span starts three calendar months
    before now for the default "3mo", one calendar month for "1mo", and 90
    days before now for every other default window.  The cases of a trim
    that leaves no row or that raises are left aside.  In particular, for
    the default "3mo" with rows under "max" only, the rows of the last
    three months are returned and the window reported is "max". *)
Theorem fallback_windows_in_order (ticker : Ticker)
                                  (symbol default_period : string)
                                  (now : datetime) (i : nat) (w : string)
                                  (df : Frame) :
  nth_error (periods_of default_period) i = Some w ->
  (forall j p, (j < i)%nat ->
               nth_error (periods_of default_period) j = Some p ->
               no_data (ticker p) = true) ->
  ticker w = Returned df -> df <> [] ->
  let start :=
    if String.eqb default_period "3mo" then sub_months now 3
    else if String.eqb default_period "1mo" then sub_months now 1
    else sub_days now 90 in
  let trimmed :=
    filter (fun r => dt_leb start (index r) && dt_leb (index r) now) df in
  w = default_period \/ (plain df = true /\ trimmed <> []) ->
  periods_of default_period = [default_period; "ytd"; "1y"; "max"]
  /\ fst (fetch_stock_data ticker symbol default_period now)
     = (if String.eqb w default_period then df else trimmed, Some w)
  /\ calls (snd (fetch_stock_data ticker symbol default_period now))
     = map (pair symbol) (firstn (S i) (periods_of default_period))
  /\ (default_period = "3mo" -> w = "max" ->
      fst (fetch_stock_data ticker symbol "3mo" now)
      = (filter (fun r => dt_leb (sub_months now 3) (index r)
                          && dt_leb (index r) now) df,
         Some "max")).
Proof.
  intros Hw Hbefore E Hne start trimmed G.
  assert (O : (if String.eqb w default_period then Some df
               else loc (trim_start default_period now) now df)
              = Some (if String.eqb w default_period then df else trimmed)).
  { destruct (String.eqb_spec w default_period) as [_ | N]; [reflexivity |].
    destruct G as [G | (G & _)]; [contradiction |].
    now rewrite (loc_plain _ _ df G). }
  destruct (try_periods_first_hit ticker symbol default_period now
              (periods_of default_period) i w df _ Hw
              (fun j p Hj Hp =>
                 no_data_passed_over _ _ _ _ (Hbefore j p Hj Hp))
              E Hne O)
    as (R & C).
  split; [reflexivity |]. split; [exact R |]. split; [exact C |].
  intros -> ->. exact R.
Qed.

(** C8 amended, at a ticker that has rows under "max" only, with the
    default window "3mo". *)
Lemma fallback_windows_in_order_witness :
  periods_of "3mo" = ["3mo"; "ytd"; "1y"; "max"]
  /\ fst (fetch_stock_data Samples.only_max "TCS.NS" "3mo" Samples.noon)
     = ([Samples.price_on 2024 3 26 3750; Samples.price_on 2024 6 4 3850],
        Some "max")
  /\ calls (snd (fetch_stock_data Samples.only_max "TCS.NS" "3mo"
                                  Samples.noon))
     = [("TCS.NS", "3mo"); ("TCS.NS", "ytd"); ("TCS.NS", "1y");
        ("TCS.NS", "max")]
  /\ ("3mo" = "3mo" -> "max" = "max" ->
      fst (fetch_stock_data Samples.only_max "TCS.NS" "3mo" Samples.noon)
      = (filter (fun r => dt_leb (sub_months Samples.noon 3) (index r)
                          && dt_leb (index r) Samples.noon)
                Samples.long_history,
         Some "max")).
Proof.
  apply (fallback_windows_in_order Samples.only_max "TCS.NS" "3mo"
           Samples.noon 3 "max" Samples.long_history).
  - reflexivity.
  - intros j p Hj Hp.
    destruct j as [| [| [| j]]]; [| | | lia]; injection Hp as <-; reflexivity.
  - reflexivity.
  - discriminate.
  - right. split; [vm_compute; reflexivity | vm_compute; discriminate].
Defined.

(** C9 at a failing input: a listing suspended since February, scanned in
    December with the default window "3mo".  For the NSE and the BSE
    listing the year-to-date window returns the February bars, the trim to
    the last three months leaves none of them, and the chain returns that
    empty frame at once: the windows "1y" and "max" of these two listings
    are never asked for, yet the symbol is left out and the log says that
    all formats and periods were tried. *)
Theorem suspended_listing_is_skipped_early :
  let r := fetch_nifty50_data (Some ["SUSP"]) Samples.suspended
                              Samples.december "3mo" in
  Samples.suspended "SUSP.NS" "ytd" = Returned Samples.february_bars
  /\ Samples.suspended "SUSP.NS" "1y" = Returned Samples.february_bars
  /\ fetch_stock_data (Samples.suspended "SUSP.NS") "SUSP.NS" "3mo"
                      Samples.december
     = (([], Some "ytd"),
        [History "SUSP.NS" "3mo"; History "SUSP.NS" "ytd";
         Log INFO (SuccessfullyFetched "SUSP.NS" "ytd")])
  /\ fst r = []
  /\ calls (snd r)
     = [("SUSP.NS", "3mo"); ("SUSP.NS", "ytd");
        ("SUSP.BO", "3mo"); ("SUSP.BO", "ytd");
        ("SUSP", "3mo"); ("SUSP", "ytd"); ("SUSP", "1y"); ("SUSP", "max")]
  /\ logged (snd r)
     = [(INFO, SuccessfullyFetched "SUSP.NS" "ytd");
        (WARNING, NoDataAvailable "SUSP.NS");
        (INFO, SuccessfullyFetched "SUSP.BO" "ytd");
        (ERROR, NoDataAllTried "SUSP.NS")].
Proof. repeat split. Qed.

(** The escalation where it works: the NSE listing has nothing, the BSE
    listing raises on the default window and answers the next one; the
    symbol after it is scanned as well, and the unknown one is left out. *)
Example escalation_to_the_other_exchange :
  let r := fetch_nifty50_data (Some ["TCS"; "INFY"; "ZZZ"])
                              Samples.bombay_only Samples.noon "3mo" in
  map fst (fst r) = ["TCS.BO"; "INFY.NS"]
  /\ calls (snd r)
     = [("TCS.NS", "3mo"); ("TCS.NS", "ytd"); ("TCS.NS", "1y");
        ("TCS.NS", "max"); ("TCS.BO", "3mo"); ("TCS.BO", "ytd");
        ("INFY.NS", "3mo");
        ("ZZZ.NS", "3mo"); ("ZZZ.NS", "ytd"); ("ZZZ.NS", "1y");
        ("ZZZ.NS", "max"); ("ZZZ.BO", "3mo"); ("ZZZ.BO", "ytd");
        ("ZZZ.BO", "1y"); ("ZZZ.BO", "max"); ("ZZZ", "3mo"); ("ZZZ", "ytd");
        ("ZZZ", "1y"); ("ZZZ", "max")]
  /\ In (WARNING, FailedToFetch "TCS.BO" "3mo") (logged (snd r))
  /\ In (ERROR, NoDataAllTried "ZZZ.NS") (logged (snd r)).
Proof.
  cbv zeta. split; [vm_compute; reflexivity |].
  split; [vm_compute; reflexivity |].
  split; vm_compute; repeat (first [left; reflexivity | right]).
Qed.

End FetcherFacts.

(** * Further facts about the scoring engine *)

Section ScoringMore.

Import Scoring Reading.
Open Scope string_scope.

(** ** What a block reads *)

Ltac same_reads H :=
  repeat match goal with
         | |- context [row_get ?r ?c] =>
             lazymatch goal with
             | H' : agree_on _ r _ |- _ =>
                 rewrite (H' c) by (simpl; tauto)
             end
         end;
  reflexivity.

Lemma indicator_total_agree (r1 r2 : Row) :
  agree_on [ "Close"; "SMA_20"; "SMA_50"; "ADX"; "DI_plus"; "DI_minus";
             "RSI"; "MACD"; "MACD_Signal"; "VI_plus"; "VI_minus" ] r1 r2 ->
  indicator_total r1 = indicator_total r2.
Proof.
  intros H. unfold indicator_total, trend_strength, adx_trend_strength,
    rsi_signals, macd_signals, vortex_indicator, and_then, gt, lt, gt_lit,
    lt_lit.
  same_reads H.
Qed.

Lemma volume_money_flow_agree (r1 r2 : Row) (s : float) :
  agree_on [ "Volume_Ratio"; "CMF" ] r1 r2 ->
  volume_money_flow r1 s = volume_money_flow r2 s.
Proof.
  intros H. unfold volume_money_flow, and_then, gt_lit. same_reads H.
Qed.

Lemma support_resistance_agree (r1 r2 : Row) (s : float) :
  agree_on [ "Close"; "S1"; "R1" ] r1 r2 ->
  support_resistance r1 s = support_resistance r2 s.
Proof.
  intros H. unfold support_resistance, gt, lt. same_reads H.
Qed.

Lemma atr_adjustment_agree (r1 r2 : Row) (s : float) :
  agree_on [ "ATR"; "Close" ] r1 r2 ->
  atr_adjustment r1 s = atr_adjustment r2 s.
Proof.
  intros H. unfold atr_adjustment. same_reads H.
Qed.

Lemma agree_on_incl (l l' : list string) (r1 r2 : Row) :
  incl l l' -> agree_on l' r1 r2 -> agree_on l r1 r2.
Proof. intros I H c Hc. apply H, I, Hc. Qed.

(** ** The shape of the last two blocks: the same adjustment whatever the
    running total. *)

Lemma support_resistance_shape (row : Row) :
  all_present row = true ->
  (forall s, support_resistance row s = Ok (s + 0.5)%float)
  \/ (forall s, support_resistance row s = Ok (s - 0.5)%float)
  \/ (forall s, support_resistance row s = Ok s).
Proof.
  intros P. unfold support_resistance, gt, lt.
  rewrite !(all_present_get _ _ P) by (simpl; tauto). cbn [bind].
  destruct (val row "Close" <? val row "S1")%float; [now left |].
  destruct (val row "R1" <? val row "Close")%float;
    [right; now left | right; now right].
Qed.

Lemma atr_adjustment_shape (row : Row) :
  all_present row = true ->
  ((0.02 <? val row "ATR" / val row "Close")%float = true
   /\ forall s, atr_adjustment row s = Ok (s * 0.8)%float)
  \/ ((0.02 <? val row "ATR" / val row "Close")%float = false
      /\ forall s, atr_adjustment row s = Ok s).
Proof.
  intros P. unfold atr_adjustment.
  rewrite !(all_present_get _ _ P) by (simpl; tauto). cbn [bind].
  destruct (0.02 <? val row "ATR" / val row "Close")%float;
    [left | right]; split; reflexivity.
Qed.

(** The values the score can have before the volatility adjustment. *)
Lemma before_volatility_cases (row : Row) :
  all_present row = true ->
  exists S u,
    In S totals
    /\ before_volatility row = Ok u
    /\ (u = ((if (0 <? S) then S * 1.2 else S * 0.8) + 0.5)
        \/ u = ((if (0 <? S) then S * 1.2 else S * 0.8) - 0.5)
        \/ u = (if (0 <? S) then S * 1.2 else S * 0.8)
        \/ u = S + 0.5 \/ u = S - 0.5 \/ u = S)%float.
Proof.
  intros P. unfold before_volatility.
  destruct (indicator_total_cases row P) as (S & E & HS). rewrite E.
  cbn [bind].
  destruct (volume_money_flow_cases row S P) as (s1 & E1 & C1). rewrite E1.
  cbn [bind].
  destruct (support_resistance_cases row s1 P) as (s2 & E2 & C2).
  exists S, s2. split; [exact HS |]. split; [exact E2 |].
  destruct C1 as [-> | ->]; destruct C2 as [-> | [-> | ->]]; tauto.
Qed.

Lemma get_signal_strength_split (row : Row) :
  get_signal_strength row
  = (u <- before_volatility row ;; atr_adjustment row u).
Proof.
  unfold get_signal_strength, before_volatility.
  destruct (indicator_total row) as [S |]; cbn [bind]; [| reflexivity].
  destruct (volume_money_flow row S) as [s1 |]; cbn [bind]; [| reflexivity].
  destruct (support_resistance row s1); reflexivity.
Qed.

(** X1: whatever the indicator values (NaN included), the score of a row
    that has the required columns lies between -5.5 and 6.5. *)
Theorem score_is_bounded (row : Row) :
  all_present row = true ->
  exists s,
    get_signal_strength row = Ok s
    /\ (-5.5 <=? s)%float = true /\ (s <=? 6.5)%float = true.
Proof.
  intros P. rewrite get_signal_strength_split.
  destruct (before_volatility_cases row P) as (S & u & HS & E & C).
  rewrite E. cbn [bind].
  destruct (atr_adjustment_cases row u P) as (s & Es & Cs).
  exists s. split; [exact Es |].
  unfold totals in HS. cbn [In] in HS.
  repeat (destruct HS as [<- | HS];
          [destruct C as [-> | [-> | [-> | [-> | [-> | ->]]]]];
           destruct Cs as [-> | ->]; vm_compute; split; reflexivity |]).
  contradiction.
Qed.

(** X1, at the most bullish row, which reaches the upper bound. *)
Lemma score_is_bounded_witness :
  exists s,
    get_signal_strength MoreSamples.best_row = Ok s
    /\ (-5.5 <=? s)%float = true /\ (s <=? 6.5)%float = true.
Proof.
  apply (score_is_bounded MoreSamples.best_row). reflexivity.
Defined.

Example upper_bound_is_reached :
  get_signal_strength MoreSamples.best_row = Ok 6.5%float.
Proof. reflexivity. Qed.

(** X2: high relative volatility (ATR / close above 0.02) multiplies the
    score reached so far by 0.8 and otherwise leaves it; the category of
    the adjusted score lies between Hold and the category of the unadjusted
    one, so volatility can weaken a signal and never strengthens or
    reverses it. *)
Theorem volatility_only_weakens (row : Row) :
  all_present row = true ->
  exists u,
    before_volatility row = Ok u
    /\ ((0.02 <? val row "ATR" / val row "Close")%float = false ->
        get_signal_strength row = Ok u)
    /\ ((0.02 <? val row "ATR" / val row "Close")%float = true ->
        get_signal_strength row = Ok (u * 0.8)%float
        /\ between_hold_and (assign_signal u) (assign_signal (u * 0.8))
           = true).
Proof.
  intros P. rewrite get_signal_strength_split.
  destruct (before_volatility_cases row P) as (S & u & HS & E & C).
  exists u. rewrite E. cbn [bind]. split; [reflexivity |].
  destruct (atr_adjustment_shape row P) as [(A & Hs) | (A & Hs)];
    rewrite A, Hs; (split; [intros; congruence |]); intros X;
    [clear X | discriminate X].
  split; [reflexivity |].
  unfold totals in HS. cbn [In] in HS.
  repeat (destruct HS as [<- | HS];
          [destruct C as [-> | [-> | [-> | [-> | [-> | ->]]]]];
           vm_compute; reflexivity |]).
  contradiction.
Qed.

(** X2, at a surge in a volatile market: 4.8 becomes 3.84, still
    StrongBuy. *)
Lemma volatility_only_weakens_witness :
  exists u,
    before_volatility MoreSamples.wild_surge_row = Ok u
    /\ ((0.02 <? val MoreSamples.wild_surge_row "ATR"
                 / val MoreSamples.wild_surge_row "Close")%float = false ->
        get_signal_strength MoreSamples.wild_surge_row = Ok u)
    /\ ((0.02 <? val MoreSamples.wild_surge_row "ATR"
                 / val MoreSamples.wild_surge_row "Close")%float = true ->
        get_signal_strength MoreSamples.wild_surge_row = Ok (u * 0.8)%float
        /\ between_hold_and (assign_signal u) (assign_signal (u * 0.8))
           = true).
Proof.
  apply (volatility_only_weakens MoreSamples.wild_surge_row). reflexivity.
Defined.

(** The adjustment can cost a category: 3.0 is StrongBuy, 2.4 is Buy. *)
Example volatility_can_downgrade :
  assign_signal 3 = StrongBuy /\ assign_signal (3 * 0.8) = Buy.
Proof. split; reflexivity. Qed.

(** X3: of two rows that differ at most in volume ratio and money flow,
    the one with volume ratio above 1.5 and positive money flow never
    scores lower than the other, whatever the other blocks and the
    volatility adjustment do afterwards. *)
Theorem volume_confirmation_never_lowers_the_score (r1 r2 : Row) :
  all_present r1 = true -> all_present r2 = true ->
  (forall c, In c required_columns ->
             c <> "Volume_Ratio" -> c <> "CMF" ->
             row_get r1 c = row_get r2 c) ->
  (1.5 <? val r1 "Volume_Ratio")%float = true ->
  (0 <? val r1 "CMF")%float = true ->
  exists s1 s2,
    get_signal_strength r1 = Ok s1 /\ get_signal_strength r2 = Ok s2
    /\ (s2 <=? s1)%float = true.
Proof.
  intros P1 P2 H Hv Hc.
  assert (A : agree_on [ "Close"; "SMA_20"; "SMA_50"; "ADX"; "DI_plus";
                         "DI_minus"; "RSI"; "MACD"; "MACD_Signal";
                         "VI_plus"; "VI_minus"; "S1"; "R1"; "ATR" ] r1 r2).
  { intros c Hin. cbn [In] in Hin.
    repeat (destruct Hin as [<- | Hin];
            [apply H; [simpl; tauto | discriminate | discriminate] |]).
    contradiction. }
  unfold get_signal_strength.
  rewrite <- (indicator_total_agree r1 r2)
    by (eapply agree_on_incl; [| exact A]; intros c Hin; simpl in *; tauto).
  destruct (indicator_total_cases r1 P1) as (S & E & HS). rewrite E.
  cbn [bind]. rewrite (volume_money_flow_on r1 S P1 Hv Hc). cbn [bind].
  destruct (volume_money_flow_cases r2 S P2) as (v2 & E2 & C2). rewrite E2.
  cbn [bind].
  assert (SR : forall s, support_resistance r2 s = support_resistance r1 s).
  { intros s. symmetry. apply support_resistance_agree.
    eapply agree_on_incl; [| exact A]. intros c Hin. simpl in *. tauto. }
  assert (AT : forall s, atr_adjustment r2 s = atr_adjustment r1 s).
  { intros s. symmetry. apply atr_adjustment_agree.
    eapply agree_on_incl; [| exact A]. intros c Hin. simpl in *. tauto. }
  rewrite SR.
  destruct (support_resistance_shape r1 P1) as [Hs | [Hs | Hs]];
    rewrite !Hs; cbn [bind]; rewrite AT;
    destruct (atr_adjustment_shape r1 P1) as [(_ & Ha) | (_ & Ha)];
    rewrite !Ha; do 2 eexists; (split; [reflexivity |]);
    (split; [reflexivity |]);
    unfold totals in HS; cbn [In] in HS;
    repeat (destruct HS as [<- | HS];
            [destruct C2 as [-> | ->]; vm_compute; reflexivity |]);
    contradiction.
Qed.

(** X3, at the surge row and the same row on normal volume. *)
Lemma volume_confirmation_never_lowers_the_score_witness :
  exists s1 s2,
    get_signal_strength Samples.surge_row = Ok s1
    /\ get_signal_strength MoreSamples.calm_surge_row = Ok s2
    /\ (s2 <=? s1)%float = true.
Proof.
  apply (volume_confirmation_never_lowers_the_score
           Samples.surge_row MoreSamples.calm_surge_row);
    try reflexivity.
  intros c Hin N1 N2. cbn [In required_columns] in Hin.
  repeat (destruct Hin as [<- | Hin];
          [first [reflexivity | contradiction] |]).
  contradiction.
Defined.

(** X4: the score and the category of a row depend on the sixteen
    indicator columns only; any other column of the frame is ignored. *)
Theorem only_the_indicator_columns_matter (r1 r2 : Row) :
  (forall c, In c required_columns -> row_get r1 c = row_get r2 c) ->
  score_row r1 = score_row r2.
Proof.
  intros H. fold (agree_on required_columns r1 r2) in H.
  unfold score_row, get_signal_strength.
  rewrite (indicator_total_agree r1 r2)
    by (eapply agree_on_incl; [| exact H]; intros c Hin; simpl in *; tauto).
  destruct (indicator_total r2) as [S |]; cbn [bind]; [| reflexivity].
  rewrite (volume_money_flow_agree r1 r2)
    by (eapply agree_on_incl; [| exact H]; intros c Hin; simpl in *; tauto).
  destruct (volume_money_flow r2 S) as [s1 |]; cbn [bind]; [| reflexivity].
  rewrite (support_resistance_agree r1 r2)
    by (eapply agree_on_incl; [| exact H]; intros c Hin; simpl in *; tauto).
  destruct (support_resistance r2 s1) as [s2 |]; cbn [bind]; [| reflexivity].
  rewrite (atr_adjustment_agree r1 r2)
    by (eapply agree_on_incl; [| exact H]; intros c Hin; simpl in *; tauto).
  reflexivity.
Qed.

(** X4, at the quiet row with a Returns and a VWAP column added. *)
Lemma only_the_indicator_columns_matter_witness :
  score_row MoreSamples.quiet_row_with_extras = score_row Samples.quiet_row.
Proof.
  apply (only_the_indicator_columns_matter
           MoreSamples.quiet_row_with_extras Samples.quiet_row).
  intros c Hin. cbn [In required_columns] in Hin.
  repeat (destruct Hin as [<- | Hin]; [reflexivity |]). contradiction.
Defined.

(** ** The frames [generate_signals] returns *)

Lemma apply_rows_inv (f : Row -> result float) (rs : list Row)
                     (ss : list float) :
  apply_rows f rs = Ok ss ->
  List.length ss = List.length rs
  /\ forall r s, In (r, s) (combine rs ss) -> f r = Ok s.
Proof.
  revert ss. induction rs as [| x rest IH]; intros ss H; cbn in H.
  - injection H as <-. split; [reflexivity | intros r s []].
  - destruct (f x) as [s0 |] eqn:Ex; cbn in H; [| discriminate].
    destruct (apply_rows f rest) as [ss0 |]; cbn in H; [| discriminate].
    injection H as <-. destruct (IH ss0 eq_refl) as (L & C).
    split; [cbn; now rewrite L |].
    intros r s [Heq | Hin]; [congruence | now apply C].
Qed.

Lemma score_frame_inv (df : DataFrame) (scored : list ScoredRow) :
  score_frame df = Ok scored ->
  map indicators scored = map (row_of df) (rows df)
  /\ Forall (fun r => get_signal_strength (indicators r)
                      = Ok (Signal_Strength r)
                      /\ Signal_ r = assign_signal (Signal_Strength r))
            scored.
Proof.
  unfold score_frame. intros H.
  destruct (apply_rows get_signal_strength (map (row_of df) (rows df)))
    as [ss |] eqn:E; cbn [bind] in H; [| discriminate].
  destruct (apply_rows_inv _ _ _ E) as (L & C).
  destruct (column df "RSI"); cbn [bind] in H; [| discriminate].
  destruct (column df "MACD"); cbn [bind] in H; [| discriminate].
  destruct (column df "BB_Width"); cbn [bind] in H; [| discriminate].
  injection H as <-. split.
  - rewrite map_map. cbn [indicators]. apply map_fst_combine, L.
  - apply Forall_forall. intros r Hr. apply in_map_iff in Hr.
    destruct Hr as ((x, s) & <- & Hx). cbn. split; [now apply C | reflexivity].
Qed.

(** X5: [generate_signals] returns the symbols it keeps in the order it
    was given them and invents none; a kept frame has all the rows of the
    input frame, in order, each with the score [get_signal_strength] gives
    it and the category of that score. *)
Theorem generate_signals_keeps_order_and_rows
        (data : list (string * DataFrame)) :
  subseq (map fst (generate_signals data)) (map fst data)
  /\ forall symbol scored,
       In (symbol, scored) (generate_signals data) ->
       exists df,
         In (symbol, df) data
         /\ map indicators scored = map (row_of df) (rows df)
         /\ Forall (fun r => get_signal_strength (indicators r)
                             = Ok (Signal_Strength r)
                             /\ Signal_ r = assign_signal (Signal_Strength r))
                   scored.
Proof.
  induction data as [| (sym, df) rest (IH1 & IH2)]; cbn [generate_signals].
  - split; [constructor | intros ? ? []].
  - destruct (score_frame df) as [scored0 |] eqn:E; cbn [map fst]; split.
    + now apply subseq_keep.
    + intros symbol scored [Heq | Hin].
      * injection Heq as <- <-. exists df. split; [now left |].
        now apply score_frame_inv.
      * destruct (IH2 symbol scored Hin) as (df' & Hd & R).
        exists df'. split; [now right | exact R].
    + now apply subseq_skip.
    + intros symbol scored Hin.
      destruct (IH2 symbol scored Hin) as (df' & Hd & R).
      exists df'. split; [now right | exact R].
Qed.

End ScoringMore.

(** * Facts about the processing pipeline *)

Section PipelineFacts.

Import Scoring Pipeline.
Open Scope string_scope.

Lemma position_none (label : string) (labels : list string) :
  position label labels = None <-> ~ In label labels.
Proof.
  induction labels as [| l rest IH]; cbn; [tauto |].
  destruct (String.eqb_spec l label) as [-> | N].
  - split; [discriminate | intros H; exfalso; apply H; now left].
  - destruct (position label rest) as [i |].
    + split; [discriminate |]. intros H. exfalso.
      assert (~ In label rest) by tauto.
      apply (proj2 IH) in H0. discriminate.
    + split; [| reflexivity]. intros _ [E | Hin]; [congruence |].
      now apply (proj1 IH eq_refl).
Qed.

Lemma series_raises (df : DataFrame) (label : string) :
  series df label = Raise (KeyError label) <-> ~ In label (columns df).
Proof.
  unfold series. rewrite <- position_none.
  destruct (position label (columns df)); split; congruence.
Qed.

Lemma series_length (df : DataFrame) (label : string) (values : list float) :
  series df label = Ok values -> List.length values = len df.
Proof.
  unfold series, len. destruct (position label (columns df)); [| discriminate].
  intros H. injection H as <-. apply length_map.
Qed.

Lemma pct_change_from_length (previous : float) (values : list float) :
  List.length (pct_change_from previous values) = List.length values.
Proof.
  revert previous. induction values as [| v rest IH]; intros previous; cbn;
    [reflexivity | now rewrite IH].
Qed.

Lemma pct_change_length (values : list float) :
  List.length (pct_change values) = List.length values.
Proof.
  destruct values; cbn; [reflexivity | now rewrite pct_change_from_length].
Qed.

Lemma assign_len (df : DataFrame) (label : string) (values : list float) :
  List.length values = len df -> len (assign df label values) = len df.
Proof.
  unfold assign, len. intros H.
  destruct (position label (columns df)); cbn [rows];
    rewrite length_map, length_combine, H; apply Nat.min_id.
Qed.

(** X7 (first half): a frame without a Close column makes the whole call
    fail. *)
Lemma process_stock_data_raises (data : list (string * DataFrame)) :
  (exists e, process_stock_data data = Raise e) <->
  exists symbol df, In (symbol, df) data /\ ~ In "Close" (columns df).
Proof.
  induction data as [| (sym, df) rest IH]; cbn [process_stock_data].
  - split; [intros (e & H); discriminate | intros (? & ? & [] & _)].
  - change (columns (dropna df)) with (columns df) in *.
    destruct (series (dropna df) "Close") as [close |] eqn:E; cbn [bind].
    + assert (C : In "Close" (columns df)).
      { destruct (in_dec string_dec "Close" (columns df)) as [Y | N];
          [exact Y |].
        apply (series_raises (dropna df) "Close") in N. congruence. }
      destruct (process_stock_data rest) as [out |] eqn:R; cbn [bind]; split.
      * intros (e & H). discriminate.
      * intros (s & d & [Heq | Hin] & N).
        -- injection Heq as <- <-. contradiction.
        -- destruct (proj2 IH) as (e & He); [eauto | discriminate].
      * intros _. destruct (proj1 IH) as (s & d & Hin & N); [eauto |].
        exists s, d. split; [now right | exact N].
      * intros _. eauto.
    + split; [| eauto]. intros _. exists sym, df. split; [now left |].
      apply (series_raises (dropna df) "Close").
      unfold series in *.
      destruct (position "Close" (columns (dropna df))); congruence.
Qed.

Lemma process_stock_data_error (data : list (string * DataFrame)) (e : exn) :
  process_stock_data data = Raise e -> e = KeyError "Close".
Proof.
  induction data as [| (sym, df) rest IH]; cbn [process_stock_data];
    [discriminate |].
  destruct (series (dropna df) "Close") as [close |] eqn:E; cbn [bind].
  - destruct (process_stock_data rest); cbn [bind]; [discriminate |].
    intros H. injection H as <-. now apply IH.
  - unfold series in E.
    destruct (position "Close" (columns (dropna df))); [discriminate |].
    injection E as <-. intros H. now injection H.
Qed.

Lemma process_stock_data_ok (data out : list (string * DataFrame)) :
  process_stock_data data = Ok out ->
  map fst out = map fst data
  /\ Forall2 (fun i o => len (snd o)
                         = List.length (filter complete (rows (snd i))))
             data out.
Proof.
  revert out. induction data as [| (sym, df) rest IH]; intros out;
    cbn [process_stock_data].
  - intros H. injection H as <-. split; [reflexivity | constructor].
  - destruct (series (dropna df) "Close") as [close |] eqn:E; cbn [bind];
      [| discriminate].
    destruct (process_stock_data rest) as [out0 |]; cbn [bind];
      [| discriminate].
    intros H. injection H as <-. destruct (IH out0 eq_refl) as (K & F).
    split; [cbn; now rewrite K |].
    constructor; [| exact F]. cbn [snd].
    rewrite assign_len.
    + reflexivity.
    + rewrite pct_change_length. exact (series_length _ "Close" _ E).
Qed.

(** X7: [process_stock_data] fails exactly when one of the frames has no
    Close column, and then with the [KeyError] of that lookup and for the
    whole batch; otherwise it keeps every symbol, in order, each with as
    many rows as the input frame has rows without a missing value. *)
Theorem process_stock_data_fails_without_close
        (data : list (string * DataFrame)) :
  (process_stock_data data = Raise (KeyError "Close") <->
   exists symbol df, In (symbol, df) data /\ ~ In "Close" (columns df))
  /\ (forall e, process_stock_data data = Raise e -> e = KeyError "Close")
  /\ (forall out,
        process_stock_data data = Ok out ->
        map fst out = map fst data
        /\ Forall2 (fun i o => len (snd o)
                               = List.length (filter complete (rows (snd i))))
                   data out).
Proof.
  split; [| split].
  - rewrite <- process_stock_data_raises. split; [eauto |].
    intros (e & H). now rewrite (process_stock_data_error data e H) in H.
  - apply process_stock_data_error.
  - apply process_stock_data_ok.
Qed.

Example process_drops_the_incomplete_row :
  exists out,
    process_stock_data [("TCS.NS", MoreSamples.three_bars)] = Ok out
    /\ map (fun o => (fst o, columns (snd o), len (snd o))) out
       = [("TCS.NS", ["Open"; "High"; "Low"; "Close"; "Volume"; "Returns"],
           2%nat)].
Proof. eexists. split; reflexivity. Qed.

Example process_fails_on_a_frame_without_close :
  process_stock_data [("TCS.NS", MoreSamples.three_bars);
                      ("INFY.NS", MoreSamples.no_close)]
  = Raise (KeyError "Close").
Proof. reflexivity. Qed.

(** ** The minimum-history rule *)

Lemma calculate_technical_indicators_in
      (cci : DataFrame -> DataFrame) (data : list (string * DataFrame))
      (symbol : string) (df' : DataFrame) :
  In (symbol, df') (calculate_technical_indicators cci data) ->
  exists df, In (symbol, df) data /\ df' = cci df /\ (50 <= len df)%nat.
Proof.
  induction data as [| (sym, df) rest IH];
    cbn [calculate_technical_indicators]; [intros [] |].
  destruct (len df <? 50)%nat eqn:E.
  - intros H. destruct (IH H) as (d & Hd & R). exists d. split; [now right | exact R].
  - apply Nat.ltb_ge in E. intros [Heq | H].
    + injection Heq as <- <-. exists df. split; [now left | tauto].
    + destruct (IH H) as (d & Hd & R). exists d.
      split; [now right | exact R].
Qed.

Lemma generate_signals_in (data : list (string * DataFrame))
                          (symbol : string) (scored : list ScoredRow) :
  In (symbol, scored) (generate_signals data) ->
  exists df, In (symbol, df) data /\ score_frame df = Ok scored.
Proof.
  induction data as [| (sym, df) rest IH]; cbn [generate_signals];
    [intros [] |].
  destruct (score_frame df) as [scored0 |] eqn:E.
  - intros [Heq | H].
    + injection Heq as <- <-. exists df. split; [now left | exact E].
    + destruct (IH H) as (d & Hd & R). exists d. split; [now right | exact R].
  - intros H. destruct (IH H) as (d & Hd & R). exists d.
    split; [now right | exact R].
Qed.

Lemma score_frame_length (df : DataFrame) (scored : list ScoredRow) :
  score_frame df = Ok scored -> List.length scored = len df.
Proof.
  intros H. destruct (score_frame_inv df scored H) as (M & _).
  apply (f_equal (@List.length Row)) in M. rewrite !length_map in M.
  exact M.
Qed.

(** X6: when the indicator computation keeps the rows of a frame, every
    frame in the signals built from the analysed data has at least 50 rows
    and comes from an input frame of at least 50 rows: a symbol with a
    shorter history is never scored. *)
Theorem signals_have_fifty_rows (cci : DataFrame -> DataFrame)
                                (data : list (string * DataFrame)) :
  (forall df, len (cci df) = len df) ->
  Forall (fun s => (50 <= List.length (snd s))%nat
                   /\ exists df, In (fst s, df) data
                                 /\ len df = List.length (snd s))
         (generate_signals (calculate_technical_indicators cci data)).
Proof.
  intros K. apply Forall_forall. intros (symbol, scored) Hin. cbn [fst snd].
  destruct (generate_signals_in _ _ _ Hin) as (df' & Hd' & Hs).
  destruct (calculate_technical_indicators_in _ _ _ _ Hd')
    as (df & Hd & -> & L).
  pose proof (score_frame_length _ _ Hs) as E. rewrite K in E.
  split; [lia |]. exists df. split; [exact Hd | now symmetry].
Qed.

(** X6, with an indicator computation that adds nothing, on a frame of 60
    rows and one of 10. *)
Lemma signals_have_fifty_rows_witness :
  Forall (fun s => (50 <= List.length (snd s))%nat
                   /\ exists df,
                        In (fst s, df) [("TCS.NS", MoreSamples.sixty_days);
                                        ("INFY.NS", MoreSamples.ten_days)]
                        /\ len df = List.length (snd s))
         (generate_signals
            (calculate_technical_indicators (fun df => df)
               [("TCS.NS", MoreSamples.sixty_days);
                ("INFY.NS", MoreSamples.ten_days)])).
Proof.
  exact (signals_have_fifty_rows (fun df => df)
           [("TCS.NS", MoreSamples.sixty_days);
            ("INFY.NS", MoreSamples.ten_days)]
           (fun df => eq_refl)).
Defined.

Example short_history_is_not_scored :
  map fst (generate_signals
             (calculate_technical_indicators (fun df => df)
                [("TCS.NS", MoreSamples.sixty_days);
                 ("INFY.NS", MoreSamples.ten_days)]))
  = ["TCS.NS"].
Proof. vm_compute. reflexivity. Qed.

End PipelineFacts.

(** * Facts about what is shown *)

Section DisplayFacts.

Import Scoring Display.
Open Scope string_scope.

(** ** Absolute values *)

Lemma SFabs_at_least (m1 : positive) (e1 : Z) (x : spec_float) :
  SFltb (S754_finite false m1 e1) x = true
  \/ SFltb x (S754_finite true m1 e1) = true ->
  SFleb (S754_finite false m1 e1) (SFabs x) = true.
Proof.
  unfold SFleb, SFltb.
  destruct x as [sg | sg | | sg m e]; cbn [SFcompare SFabs].
  - intros [H | H]; [discriminate H | destruct sg; discriminate H].
  - intros _. reflexivity.
  - intros [H | H]; discriminate H.
  - change (Pos.compare_cont Eq m1 m) with (Pos.compare m1 m).
    change (Pos.compare_cont Eq m m1) with (Pos.compare m m1).
    destruct sg.
    + intros [H | H]; [discriminate H |]. revert H.
      rewrite (Z.compare_antisym e1 e), (Pos.compare_antisym m1 m).
      destruct (e1 ?= e)%Z; cbn [CompOpp];
        try (intros H; discriminate H); try reflexivity.
      destruct (m1 ?= m)%positive; cbn [CompOpp];
        try (intros H; discriminate H); reflexivity.
    + intros [H | H]; [| discriminate H]. revert H.
      destruct (e1 ?= e)%Z; try (intros H; discriminate H); try reflexivity.
      destruct (m1 ?= m)%positive; try (intros H; discriminate H); reflexivity.
Qed.

Lemma Prim2SF_one : Prim2SF 1 = S754_finite false 4503599627370496 (-52).
Proof. reflexivity. Qed.

Lemma Prim2SF_minus_one :
  Prim2SF (-1) = S754_finite true 4503599627370496 (-52).
Proof. reflexivity. Qed.

Lemma abs_at_least_one (s : float) :
  (1 <? s)%float = true \/ (s <? -1)%float = true ->
  (1 <=? abs s)%float = true.
Proof.
  rewrite leb_spec, abs_spec, !ltb_spec, Prim2SF_one, Prim2SF_minus_one.
  apply SFabs_at_least.
Qed.

(** A score that is not a number is categorised Hold. *)
Lemma assign_signal_nan (s : float) : is_nan s = true -> assign_signal s = Hold.
Proof.
  intros N. unfold assign_signal, conditions. cbn [fold_left fst snd].
  assert (L : forall x, (x <? s)%float = false /\ (s <? x)%float = false
                        /\ (x <=? s)%float = false /\ (s <=? x)%float = false).
  { intros x. repeat split.
    - destruct (x <? s)%float eqn:E; [| reflexivity].
      apply ltb_is_num in E. destruct E. congruence.
    - destruct (s <? x)%float eqn:E; [| reflexivity].
      apply ltb_is_num in E. destruct E. congruence.
    - destruct (x <=? s)%float eqn:E; [| reflexivity].
      apply leb_is_num in E. destruct E. congruence.
    - destruct (s <=? x)%float eqn:E; [| reflexivity].
      apply leb_is_num in E. destruct E. congruence. }
  rewrite (proj1 (L 2.5%float)), (proj1 (L 1%float)).
  rewrite (proj1 (proj2 (proj2 (L (-1)%float)))).
  rewrite (proj1 (proj2 (L (-1)%float))), (proj1 (proj2 (L (-2.5)%float))).
  reflexivity.
Qed.

(** Every score outside Hold has an absolute value of at least 1. *)
Lemma non_hold_is_at_least_one (s : float) :
  assign_signal s <> Hold -> (1 <=? abs s)%float = true.
Proof.
  intros H. destruct (is_nan s) eqn:N.
  - exfalso. now apply H, assign_signal_nan.
  - apply abs_at_least_one.
    destruct (assign_signal_intervals s N) as (_ & _ & I & _).
    destruct (threshold_facts s N) as (_ & E2 & E3 & _).
    destruct (1 <? s)%float eqn:A; [now left |].
    destruct (s <? -1)%float eqn:B; [now right |].
    exfalso. apply H, I. rewrite E2, E3. split; reflexivity.
Qed.

Lemma last_row_in (scored : list ScoredRow) (r : ScoredRow) :
  last_row scored = Some r -> In r scored.
Proof.
  unfold last_row. induction scored as [| x rest IH]; cbn [map last];
    [discriminate |].
  destruct rest as [| y rest'].
  - cbn. intros H. injection H as <-. now left.
  - intros H. right. apply IH. exact H.
Qed.

(** X8: at the default threshold of 1.0 the strength test of [run_cli]
    excludes nothing: every scored symbol whose last signal is not Hold is
    put in the group of that signal, and a Hold is put in none. *)
Theorem default_threshold_lists_every_signal
        (data : list (string * DataFrame)) :
  Forall (fun s =>
            group_of default_min_strength (snd s)
            = match last_row (snd s) with
              | None => None
              | Some r =>
                  if same_signal (Signal_ r) Hold then None
                  else Some (Signal_ r)
              end)
         (generate_signals data).
Proof.
  apply Forall_forall. intros (symbol, scored) Hin. cbn [snd].
  destruct (generate_signals_in _ _ _ Hin) as (df & _ & Hs).
  destruct (score_frame_inv _ _ Hs) as (_ & F). rewrite Forall_forall in F.
  unfold group_of. destruct (last_row scored) as [r |] eqn:L; [| reflexivity].
  destruct (F r (last_row_in _ _ L)) as (_ & E).
  destruct (same_signal (Signal_ r) Hold) eqn:Hh; [reflexivity |].
  cbn [negb andb]. unfold default_min_strength.
  rewrite non_hold_is_at_least_one; [reflexivity |].
  rewrite <- E. intros C. rewrite C in Hh. discriminate.
Qed.

(** A higher threshold does exclude: a Buy of strength 1.5 is dropped at
    2.0. *)
Example higher_threshold_excludes :
  let r := {| indicators := []; Signal_Strength := 1.5%float;
              Signal_ := Buy |} in
  group_of 1 [r] = Some Buy /\ group_of 2 [r] = None.
Proof. split; reflexivity. Qed.

(** ** The report *)

Lemma listed_under_step (types : list Signal) (symbol : string)
                        (scored : list ScoredRow)
                        (rest : list (string * list ScoredRow)) :
  List.length (listed_under types ((symbol, scored) :: rest))
  = ((match reported symbol scored with
      | Some g => if existsb (same_signal g) types then 1 else 0
      | None => 0
      end) + List.length (listed_under types rest))%nat.
Proof.
  cbn [listed_under]. destruct (reported symbol scored) as [g |];
    [| reflexivity].
  destruct (existsb (same_signal g) types); reflexivity.
Qed.

Lemma listed_under_reported (types : list Signal)
                            (signals : list (string * list ScoredRow))
                            (symbol : string) :
  In symbol (listed_under types signals) ->
  exists scored g,
    In (symbol, scored) signals /\ reported symbol scored = Some g
    /\ existsb (same_signal g) types = true.
Proof.
  induction signals as [| (sym, scored) rest IH]; cbn [listed_under];
    [intros [] |].
  destruct (reported sym scored) as [g |] eqn:R.
  - destruct (existsb (same_signal g) types) eqn:E.
    + intros [<- | H].
      * exists scored, g. split; [now left | tauto].
      * destruct (IH H) as (sc & g' & Hin & X). exists sc, g'.
        split; [now right | exact X].
    + intros H. destruct (IH H) as (sc & g' & Hin & X). exists sc, g'.
      split; [now right | exact X].
  - intros H. destruct (IH H) as (sc & g' & Hin & X). exists sc, g'.
    split; [now right | exact X].
Qed.

(** X9: the three counters of the report's summary are the numbers of
    symbols its detailed table selects under the three headings; the index,
    a frame without rows and a symbol whose last signal is Hold are counted
    nowhere and selected nowhere. *)
Theorem summary_matches_the_table
        (signals : list (string * list ScoredRow)) :
  count_signals signals
  = (List.length (listed_under [StrongBuy; Buy] signals),
     List.length (listed_under [Sell] signals),
     List.length (listed_under [StrongSell] signals))
  /\ forall types symbol,
       In types (map snd categories) ->
       In symbol (listed_under types signals) ->
       symbol <> "^NSEI"
       /\ exists scored r,
            In (symbol, scored) signals /\ last_row scored = Some r
            /\ Signal_ r <> Hold.
Proof.
  split.
  - induction signals as [| (symbol, scored) rest IH]; [reflexivity |].
    cbn [count_signals]. rewrite IH, !listed_under_step.
    destruct (reported symbol scored) as [[] |]; reflexivity.
  - intros types symbol Ht Hin.
    destruct (listed_under_reported _ _ _ Hin) as (scored & g & Hs & R & E).
    unfold reported in R.
    destruct (String.eqb_spec symbol "^NSEI") as [-> | N]; [discriminate |].
    split; [exact N |].
    destruct (last_row scored) as [r |] eqn:L; [| discriminate].
    injection R as <-. exists scored, r. split; [exact Hs |].
    split; [exact L |]. intros C. rewrite C in E.
    cbn in Ht. destruct Ht as [<- | [<- | [<- | []]]]; discriminate.
Qed.

End DisplayFacts.

(** * Further facts about the retrieval cache *)

Section CacheMore.

Import Calendar Cache.
Open Scope string_scope.
Open Scope Z_scope.

(** ** Freshness over time *)

(** The Indian date and time of day, from the microseconds since the
    midnight of the clock's date. *)
Lemma ist_carry (now : datetime) :
  well_formed now ->
  let ist := add_hours_minutes now 5 30 in
  (usec now < 66600000000
   /\ day ist = day now /\ usec ist = usec now + 19800000000)
  \/ (66600000000 <= usec now
      /\ day ist = day now + 1 /\ usec ist = usec now - 66600000000).
Proof.
  unfold well_formed, add_hours_minutes, time_of_day, usec_per_day.
  cbn [day usec]. intros W.
  change ((5 * 3600 + 30 * 60) * 1000000) with 19800000000.
  destruct (Z_lt_le_dec (usec now) 66600000000) as [A | A]; [left | right].
  - rewrite (Z.div_small (usec now + 19800000000)),
            (Z.mod_small (usec now + 19800000000)) by lia. lia.
  - assert (E : usec now + 19800000000
                = (usec now - 66600000000) + 1 * 86400000000) by lia.
    rewrite E, Z.div_add, Z.mod_add by lia.
    rewrite Z.div_small, Z.mod_small by lia. lia.
Qed.

(** The date the rule asks for never moves back as time passes. *)
Lemma required_date_monotone (now later : datetime) :
  well_formed now -> well_formed later -> dt_leb now later = true ->
  required_date (add_hours_minutes now 5 30)
  <= required_date (add_hours_minutes later 5 30).
Proof.
  intros W1 W2 L.
  destruct (ist_carry now W1) as [(A1 & D1 & U1) | (A1 & D1 & U1)];
    destruct (ist_carry later W2) as [(A2 & D2 & U2) | (A2 & D2 & U2)];
    unfold required_date; rewrite D1, U1, D2, U2;
    unfold time_of_day; change ((17 * 3600 + 30 * 60) * 1000000)
      with 63000000000;
    unfold dt_leb in L; unfold well_formed, usec_per_day in *;
    apply orb_true_iff in L;
    destruct L as [L | L];
    [apply Z.ltb_lt in L | apply andb_true_iff in L; destruct L as (L1 & L2);
                           apply Z.eqb_eq in L1; apply Z.leb_le in L2
    | apply Z.ltb_lt in L | apply andb_true_iff in L; destruct L as (L1 & L2);
                           apply Z.eqb_eq in L1; apply Z.leb_le in L2
    | apply Z.ltb_lt in L | apply andb_true_iff in L; destruct L as (L1 & L2);
                           apply Z.eqb_eq in L1; apply Z.leb_le in L2
    | apply Z.ltb_lt in L | apply andb_true_iff in L; destruct L as (L1 & L2);
                           apply Z.eqb_eq in L1; apply Z.leb_le in L2];
    repeat match goal with
           | |- context [if ?a <? ?b then _ else _] =>
               destruct (Z.ltb_spec a b)
           end; lia.
Qed.

(** X10: stale data stays stale: if [is_data_fresh] is false for a symbol
    at one moment it is false at every later moment, as long as the table
    is the same. *)
Theorem staleness_persists (now later : datetime) (sym : string) (t : Table) :
  well_formed now -> well_formed later -> dt_leb now later = true ->
  is_data_fresh now sym t = false ->
  is_data_fresh later sym t = false.
Proof.
  intros W1 W2 L. rewrite !is_data_fresh_unfold.
  destruct (latest_date sym t) as [d |]; [| reflexivity].
  destruct (latest_update sym t); [| reflexivity].
  rewrite !Z.leb_gt.
  pose proof (required_date_monotone now later W1 W2 L). lia.
Qed.

(** X10, on the sample table between 18:00 and 23:30 Indian time. *)
Lemma staleness_persists_witness :
  is_data_fresh (at_time 2024 6 14 18 0) "TCS.NS" Samples.tcs_table = false.
Proof.
  apply (staleness_persists Samples.clock_1230 (at_time 2024 6 14 18 0)
           "TCS.NS" Samples.tcs_table).
  - unfold well_formed. vm_compute. split; [discriminate | reflexivity].
  - unfold well_formed. vm_compute. split; [discriminate | reflexivity].
  - reflexivity.
  - reflexivity.
Defined.

(** ** After a save *)

(** X12: a save of a non-empty series leaves in the table the rows of that
    series and no other: every other symbol then has no row, reads as not
    found over any range and is not fresh at any time. *)
Theorem save_leaves_one_symbol (now : datetime) (sym : string)
                               (series : list Bar) (t : Table) :
  series <> [] ->
  map bar (save_stock_data now sym (Some series) t) = series
  /\ Forall (fun r => symbol r = sym /\ last_updated r = Some now)
            (save_stock_data now sym (Some series) t)
  /\ forall other,
       other <> sym ->
       rows_of other (save_stock_data now sym (Some series) t) = []
       /\ (forall a b,
             get_stock_data other a b
               (save_stock_data now sym (Some series) t) = None)
       /\ (forall check,
             is_data_fresh check other
               (save_stock_data now sym (Some series) t) = false).
Proof.
  intros Hne. rewrite save_nonempty by exact Hne. split; [| split].
  - rewrite map_map. cbn [bar stamp]. apply map_id.
  - apply Forall_forall. intros r Hr. apply in_map_iff in Hr.
    destruct Hr as (b & <- & _). split; reflexivity.
  - intros other N.
    pose proof (rows_of_other now sym other series N) as R.
    split; [exact R |]. split.
    + intros a b. unfold get_stock_data. rewrite R. reflexivity.
    + intros check. unfold is_data_fresh, latest_date. rewrite R.
      reflexivity.
Qed.

(** X12, with the sample series saved over the sample table. *)
Lemma save_leaves_one_symbol_witness :
  map bar (save_stock_data Samples.clock_1030 "INFY.NS"
                           (Some Samples.infy_series) Samples.tcs_table)
  = Samples.infy_series
  /\ Forall (fun r => symbol r = "INFY.NS"
                      /\ last_updated r = Some Samples.clock_1030)
            (save_stock_data Samples.clock_1030 "INFY.NS"
                             (Some Samples.infy_series) Samples.tcs_table)
  /\ forall other,
       other <> "INFY.NS" ->
       rows_of other (save_stock_data Samples.clock_1030 "INFY.NS"
                        (Some Samples.infy_series) Samples.tcs_table) = []
       /\ (forall a b,
             get_stock_data other a b
               (save_stock_data Samples.clock_1030 "INFY.NS"
                  (Some Samples.infy_series) Samples.tcs_table) = None)
       /\ (forall check,
             is_data_fresh check other
               (save_stock_data Samples.clock_1030 "INFY.NS"
                  (Some Samples.infy_series) Samples.tcs_table) = false).
Proof.
  apply (save_leaves_one_symbol Samples.clock_1030 "INFY.NS"
           Samples.infy_series Samples.tcs_table).
  discriminate.
Defined.

End CacheMore.

(** * Facts about the collector *)

Section CollectorFacts.

Import Calendar Scoring Collector.
Open Scope string_scope.


(** The table after a call is the table before it, or holds rows of the
    symbol asked for and nothing else. *)
Lemma collector_table_step (store : Store) (yf : Yahoo) (clock : Clock)
                           (symbol period : string) (t : Cache.Table) :
  snd (fst (get_stock_data store yf clock symbol period t)) = t
  \/ Forall (fun r => Cache.symbol r = symbol)
            (snd (fst (get_stock_data store yf clock symbol period t))).
Proof.
  unfold get_stock_data.
  destruct (Cache.is_data_fresh (at_check clock) symbol t);
    [destruct (Cache.get_stock_data symbol _ _ t) as [bars |];
     [destruct (is_empty (of_bars store bars)) |] |];
    cbn [negb]; try (now left);
    (destruct (yf symbol period) as [frame |]; cbn [fst snd];
     [| now left]; destruct (is_empty frame); cbn [negb]; [now left |];
     destruct (to_bars store frame) as [| b l]; [now left |]; right;
     apply Forall_forall; intros r Hr; cbn [Cache.save_stock_data] in Hr;
     apply in_map_iff in Hr; destruct Hr as (b0 & <- & _); reflexivity).
Qed.

(** ** A scan over symbols the table does not know *)

Lemma unknown_is_not_fresh (now : datetime) (s : string) (t : Cache.Table) :
  Cache.rows_of s t = [] -> Cache.is_data_fresh now s t = false.
Proof.
  intros R. unfold Cache.is_data_fresh, Cache.latest_date. now rewrite R.
Qed.

Lemma get_stock_data_unknown (store : Store) (yf : Yahoo) (clock : Clock)
                             (symbol period : string) (t : Cache.Table) :
  Cache.rows_of symbol t = [] ->
  get_stock_data store yf clock symbol period t
  = (frame_of (yf symbol period),
     match yf symbol period with
     | Delivers df =>
         if is_empty df then t
         else Cache.save_stock_data (at_save clock) symbol
                (Some (to_bars store df)) t
     | Fails => t
     end,
     [(symbol, period)]).
Proof.
  intros R. unfold get_stock_data.
  rewrite (unknown_is_not_fresh _ _ _ R).
  destruct (yf symbol period) as [df |]; cbn [frame_of]; [| reflexivity].
  destruct (is_empty df); reflexivity.
Qed.

Lemma rows_of_after_save (now : datetime) (sym other : string)
                         (data : option (list Cache.Bar)) (t : Cache.Table) :
  other <> sym -> Cache.rows_of other t = [] ->
  Cache.rows_of other (Cache.save_stock_data now sym data t) = [].
Proof.
  intros N R. destruct data as [[| b l] |]; cbn [Cache.save_stock_data];
    try exact R.
  change (map _ (b :: l)) with (map (Cache.stamp now sym) (b :: l)).
  now apply rows_of_other.
Qed.

Lemma dict_set_fresh_key (key : string) (v : DataFrame)
                         (d : list (string * DataFrame)) :
  ~ In key (map fst d) -> dict_set key v d = (d ++ [(key, v)])%list.
Proof.
  induction d as [| (k, x) rest IH]; cbn; intros N; [reflexivity |].
  destruct (String.eqb_spec k key) as [-> | _]; [tauto |].
  f_equal. apply IH. tauto.
Qed.

Lemma collect_unknown (store : Store) (yf : Yahoo) (clock : nat -> Clock)
                      (period : string) (symbols : list string) :
  forall (i : nat) (data : list (string * DataFrame)) (t : Cache.Table),
    NoDup (map fst data ++ symbols) ->
    unknown_to t symbols ->
    fst (fst (collect store yf clock period i symbols data t))
    = (data ++ map (fun s => (s, frame_of (yf s period))) symbols)%list
    /\ snd (collect store yf clock period i symbols data t)
       = map (fun s => (s, period)) symbols.
Proof.
  induction symbols as [| x rest IH]; intros i data t N U.
  - cbn. now rewrite app_nil_r.
  - cbn [collect].
    rewrite (get_stock_data_unknown store yf (clock i) x period t)
      by (apply U; now left).
    set (t' := match yf x period with
               | Delivers df =>
                   if is_empty df then t
                   else Cache.save_stock_data (at_save (clock i)) x
                          (Some (to_bars store df)) t
               | Fails => t
               end).
    assert (Nx : ~ In x (map fst data) /\ ~ In x rest
                 /\ NoDup (map fst data ++ rest)).
    { apply NoDup_remove in N. destruct N as (N1 & N2).
      rewrite in_app_iff in N2. tauto. }
    destruct Nx as (Nd & Nr & N').
    rewrite (dict_set_fresh_key x _ data Nd).
    specialize (IH (S i) (data ++ [(x, frame_of (yf x period))])%list t').
    destruct (collect store yf clock period (S i) rest
                (data ++ [(x, frame_of (yf x period))])%list t')
      as [[result t''] made'] eqn:E.
    cbn [fst snd] in *.
    destruct IH as (IH1 & IH2).
    + rewrite map_app, <- app_assoc. cbn [map fst app]. exact N.
    + intros s Hs. assert (s <> x) by (intros ->; contradiction).
      assert (Cache.rows_of s t = []) by (apply U; now right).
      unfold t'. destruct (yf x period) as [df |]; [| assumption].
      destruct (is_empty df); [assumption |].
      now apply rows_of_after_save.
    + split.
      * rewrite IH1, <- app_assoc. reflexivity.
      * rewrite IH2. reflexivity.
Qed.

Lemma scan_of_unknown_rows (store : Store) (yf : Yahoo) (clock : nat -> Clock)
                            (symbols : list string) (period : string)
                            (t : Cache.Table) :
  NoDup symbols -> unknown_to t symbols ->
  fst (fst (get_multiple_stock_data store yf clock symbols period t))
  = map (fun s => (s, frame_of (yf s period))) symbols
  /\ snd (get_multiple_stock_data store yf clock symbols period t)
     = map (fun s => (s, period)) symbols.
Proof.
  intros N U. unfold get_multiple_stock_data.
  apply (collect_unknown store yf clock period symbols 0 [] t); assumption.
Qed.

Lemma collect_table (store : Store) (yf : Yahoo) (clock : nat -> Clock)
                    (period : string) (symbols : list string) :
  forall (i : nat) (data : list (string * DataFrame)) (t : Cache.Table),
    snd (fst (collect store yf clock period i symbols data t)) = t
    \/ exists s, In s symbols
                 /\ Forall (fun r => Cache.symbol r = s)
                           (snd (fst (collect store yf clock period i symbols
                                              data t))).
Proof.
  induction symbols as [| x rest IH]; intros i data t; [now left |].
  cbn [collect].
  destruct (collector_table_step store yf (clock i) x period t) as [E | F];
    destruct (get_stock_data store yf (clock i) x period t)
      as [[df t'] made] eqn:G; cbn [fst snd] in *;
    specialize (IH (S i) (dict_set x df data) t');
    destruct (collect store yf clock period (S i) rest (dict_set x df data) t')
      as [[result t''] made'] eqn:C; cbn [fst snd] in *.
  - subst t'. destruct IH as [-> | (s & Hs & F)]; [now left |].
    right. exists s. split; [now right | exact F].
  - destruct IH as [-> | (s & Hs & F')].
    + right. exists x. split; [now left | exact F].
    + right. exists s. split; [now right | exact F'].
Qed.

Lemma dict_set_keys (key : string) (v : DataFrame)
                     (d : list (string * DataFrame)) (k : string) :
  In k (map fst (dict_set key v d)) <-> k = key \/ In k (map fst d).
Proof.
  induction d as [| (k0, x) rest IH]; cbn.
  - intuition congruence.
  - destruct (String.eqb_spec k0 key) as [-> | N]; cbn;
      [| rewrite IH]; intuition congruence.
Qed.

Lemma collect_keys (store : Store) (yf : Yahoo) (clock : nat -> Clock)
                   (period : string) (symbols : list string) :
  forall (i : nat) (data : list (string * DataFrame)) (t : Cache.Table)
         (k : string),
    In k (map fst (fst (fst (collect store yf clock period i symbols
                                     data t))))
    <-> In k (map fst data) \/ In k symbols.
Proof.
  induction symbols as [| x rest IH]; intros i data t k; cbn [collect].
  - cbn. tauto.
  - destruct (get_stock_data store yf (clock i) x period t)
      as [[df t'] made].
    specialize (IH (S i) (dict_set x df data) t' k).
    destruct (collect store yf clock period (S i) rest (dict_set x df data) t')
      as [[result t''] made'].
    cbn [fst snd] in *. rewrite IH, dict_set_keys. cbn [In].
    intuition congruence.
Qed.

(** X15: [get_multiple_stock_data] returns an entry for every symbol it
    was given and for no other, also for the symbols whose download
    failed; and the table it leaves is the table it found or holds rows of
    one single symbol among those given. *)
Theorem every_symbol_gets_an_entry (store : Store) (yf : Yahoo)
                                   (clock : nat -> Clock)
                                   (symbols : list string) (period : string)
                                   (t : Cache.Table) :
  let result := get_multiple_stock_data store yf clock symbols period t in
  (forall k, In k (map fst (fst (fst result))) <-> In k symbols)
  /\ (snd (fst result) = t
      \/ exists s, In s symbols
                   /\ Forall (fun r => Cache.symbol r = s) (snd (fst result))).
Proof.
  cbv zeta. unfold get_multiple_stock_data. split.
  - intros k. rewrite collect_keys. cbn. tauto.
  - apply collect_table.
Qed.



(** X17: one download that raises ends the whole run.  For distinct
    symbols of which the table has no row, if the provider raises for one
    of them, the data [get_multiple_stock_data] returns makes
    [process_stock_data], the next step of [run_cli], fail with
    [KeyError: 'Close']: the frame without columns that stands for the
    failed download has no Close column, and nothing catches the error. *)
Theorem one_failed_download_ends_the_run (store : Store) (yf : Yahoo)
                                         (clock : nat -> Clock)
                                         (symbols : list string)
                                         (period : string) (t : Cache.Table)
                                         (s : string) :
  NoDup symbols -> unknown_to t symbols ->
  In s symbols -> yf s period = Fails ->
  Pipeline.process_stock_data
    (fst (fst (get_multiple_stock_data store yf clock symbols period t)))
  = Raise (KeyError "Close").
Proof.
  intros N U Hs F.
  destruct (scan_of_unknown_rows store yf clock symbols period t N U) as (D & _).
  rewrite D.
  destruct (proj2 (process_stock_data_raises
                     (map (fun x => (x, frame_of (yf x period))) symbols)))
    as (e & He).
  { exists s, empty_frame. split; [| intros []].
    apply in_map_iff. exists s. rewrite F. split; [reflexivity | exact Hs]. }
  now rewrite (process_stock_data_error _ e He) in He.
Qed.

(** X17, on an empty table with a provider that raises for INFY. *)
Lemma one_failed_download_ends_the_run_witness :
  Pipeline.process_stock_data
    (fst (fst (get_multiple_stock_data MoreSamples.plain_store
                 MoreSamples.patchy MoreSamples.steady_clock
                 ["TCS.NS"; "INFY.NS"; "ZZZ.NS"] "1y" [])))
  = Raise (KeyError "Close").
Proof.
  apply (one_failed_download_ends_the_run MoreSamples.plain_store
           MoreSamples.patchy MoreSamples.steady_clock
           ["TCS.NS"; "INFY.NS"; "ZZZ.NS"] "1y" [] "INFY.NS").
  - repeat constructor; cbn; intuition discriminate.
  - intros s _. reflexivity.
  - right. now left.
  - reflexivity.
Defined.

(** A symbol served from the table is not downloaded, and a download
    that delivers no rows leaves the table alone. *)
Example scan_with_a_cached_symbol :
  let result :=
    get_multiple_stock_data MoreSamples.plain_store MoreSamples.patchy
      MoreSamples.steady_clock ["TCS.NS"; "ZZZ.NS"] "1y" Samples.tcs_table in
  snd result = [("ZZZ.NS", "1y")]
  /\ snd (fst result) = Samples.tcs_table.
Proof. repeat split. Qed.

End CollectorFacts.

(** * Further facts about the fallback resolver *)

Section FetcherMore.

Import Calendar Fetcher.
Open Scope string_scope.

(** ** What a chain returns *)

Lemma not_passed_over (default_period : string) (now : datetime)
                      (p : string) (r : response) :
  passed_over default_period now p r = false ->
  exists fetched out,
    r = Returned fetched /\ fetched <> []
    /\ (if String.eqb p default_period then Some fetched
        else loc (trim_start default_period now) now fetched) = Some out.
Proof.
  unfold passed_over. destruct r as [[| x df] |]; try discriminate.
  cbn [empty orb]. intros H.
  destruct (String.eqb p default_period); cbn [negb andb] in H.
  - exists (x :: df), (x :: df).
    split; [reflexivity | split; [discriminate | reflexivity]].
  - destruct (loc (trim_start default_period now) now (x :: df)) as [out |]
      eqn:L; [| discriminate].
    exists (x :: df), out.
    split; [reflexivity | split; [discriminate | exact L]].
Qed.

Lemma try_periods_result (ticker : Ticker) (symbol default_period : string)
                         (now : datetime) (periods : list string) :
  let result := try_periods ticker symbol default_period now periods in
  match snd (fst result) with
  | None =>
      fst (fst result) = []
      /\ (forall p, In p periods ->
                    passed_over default_period now p (ticker p) = true)
      /\ calls (snd result) = map (pair symbol) periods
  | Some p =>
      exists i fetched,
        nth_error periods i = Some p
        /\ (forall j q, (j < i)%nat -> nth_error periods j = Some q ->
                        passed_over default_period now q (ticker q) = true)
        /\ ticker p = Returned fetched /\ fetched <> []
        /\ (if String.eqb p default_period then Some fetched
            else loc (trim_start default_period now) now fetched)
           = Some (fst (fst result))
        /\ calls (snd result) = map (pair symbol) (firstn (S i) periods)
  end
  /\ (List.length (calls (snd result)) <= List.length periods)%nat
  /\ (forall c, In c (calls (snd result)) ->
                fst c = symbol /\ In (snd c) periods).
Proof.
  cbv zeta. induction periods as [| p rest IH].
  - cbn. repeat split; try tauto. lia.
  - destruct (passed_over default_period now p (ticker p)) eqn:E.
    + destruct (try_periods_passed_over ticker symbol default_period now p
                  rest E) as (F & C).
      rewrite F, C. destruct IH as (IH1 & IH2 & IH3).
      split; [| split].
      * destruct (snd (fst (try_periods ticker symbol default_period now
                                        rest))) as [q |].
        -- destruct IH1 as (i & fetched & Hi & Hb & T & Ne & O & K).
           exists (S i), fetched. split; [exact Hi |]. split.
           ++ intros [| j] q' Hj Hq; cbn in Hq.
              ** injection Hq as <-. exact E.
              ** apply (Hb j q'); [lia | exact Hq].
           ++ split; [exact T |]. split; [exact Ne |]. split; [exact O |].
              cbn [firstn map]. now rewrite K.
        -- destruct IH1 as (D & A & K). split; [exact D |].
           split; [| cbn; now rewrite K].
           intros q [<- | Hq]; [exact E | now apply A].
      * cbn. lia.
      * intros c [<- | Hc]; [cbn; tauto |].
        destruct (IH3 c Hc). split; [assumption | now right].
    + destruct (not_passed_over _ _ _ _ E) as (fetched & out & T & Ne & O).
      rewrite (try_periods_hit ticker symbol default_period now p rest
                 fetched out T Ne O).
      cbn [fst snd calls]. split; [| split].
      * exists 0%nat, fetched. split; [reflexivity |].
        split; [intros j q Hj; lia |]. split; [exact T |].
        split; [exact Ne |]. split; [exact O | reflexivity].
      * cbn. lia.
      * intros c [<- | []]. cbn. tauto.
Qed.


(** On the frames the provider really delivers, whose labels are
    zone-aware, the wider windows are asked for and thrown away. *)
Example zoned_history_is_thrown_away :
  fetch_stock_data MoreSamples.zoned_only_max "TCS.NS" "3mo" Samples.noon
  = (([], None),
     [History "TCS.NS" "3mo"; History "TCS.NS" "ytd"; History "TCS.NS" "1y";
      History "TCS.NS" "max";
      Log INFO (SuccessfullyFetched "TCS.NS" "max");
      Log WARNING (FailedToFetch "TCS.NS" "max")]).
Proof. reflexivity. Qed.

(** Latest-first rows are sliced to nothing, shuffled rows make the slice
    raise. *)
Example slices_of_frames_out_of_order :
  loc (sub_months Samples.noon 3) Samples.noon (rev Samples.long_history)
  = Some []
  /\ loc (sub_months Samples.noon 3) Samples.noon
         [Samples.price_on 2024 3 26 3750; Samples.price_on 2024 6 4 3850;
          Samples.price_on 2024 3 6 3700]
     = None.
Proof. split; reflexivity. Qed.

(** ** The listings of one symbol *)

Lemma chain_calls (yf : Provider) (now : datetime) (period listing : string) :
  (List.length (calls (chain_trace yf now period listing)) <= 4)%nat
  /\ forall c, In c (calls (chain_trace yf now period listing)) ->
               fst c = listing /\ In (snd c) (periods_of period).
Proof.
  unfold chain_trace, fetch_stock_data.
  pose proof (try_periods_result (yf listing) listing period now
                (periods_of period)) as H.
  cbv zeta in H. destruct H as (_ & H2 & H3). split; [exact H2 | exact H3].
Qed.

Lemma calls_app (e1 e2 : list event) :
  calls (e1 ++ e2) = (calls e1 ++ calls e2)%list.
Proof.
  induction e1 as [| [s p | l m] e1 IH]; cbn; [reflexivity | |];
    now rewrite IH.
Qed.

(** X19: for a symbol with an exchange suffix, [resolve_symbol] asks the
    provider at most twelve times, and at most four times when the listing
    given supplies data; every call is for the listing given, the one on
    the other exchange or the bare symbol, and for one of the four
    windows. *)
Theorem resolver_asks_at_most_twelve_times (yf : Provider) (now : datetime)
                                           (period symbol : string) :
  contains ".NS" symbol = true \/ contains ".BO" symbol = true ->
  let made := calls (snd (resolve_symbol yf now period symbol)) in
  let other :=
    if contains ".NS" symbol then replace ".NS" ".BO" symbol
    else replace ".BO" ".NS" symbol in
  let base := replace ".BO" "" (replace ".NS" "" symbol) in
  (List.length made <= 12)%nat
  /\ (empty (chain_data yf now period symbol) = false ->
      (List.length made <= 4)%nat)
  /\ forall c, In c made ->
               (fst c = symbol \/ fst c = other \/ fst c = base)
               /\ In (snd c) (periods_of period).
Proof.
  intros Hs. cbv zeta.
  destruct (chain_calls yf now period symbol) as (L0 & C0).
  destruct (empty (chain_data yf now period symbol)) eqn:E.
  - rewrite (resolve_symbol_escalates yf now period symbol E Hs).
    set (other := if contains ".NS" symbol then replace ".NS" ".BO" symbol
                  else replace ".BO" ".NS" symbol).
    set (base := replace ".BO" "" (replace ".NS" "" symbol)).
    destruct (chain_calls yf now period other) as (L1 & C1).
    destruct (chain_calls yf now period base) as (L2 & C2).
    destruct (empty (chain_data yf now period other)); cbn [snd];
      rewrite !calls_app; cbn [calls app]; rewrite ?calls_app, ?app_nil_r;
      rewrite ?length_app; (split; [lia |]); (split; [discriminate |]);
      intros c Hc; rewrite ?in_app_iff in Hc;
      repeat (destruct Hc as [Hc | Hc]);
      try (destruct (C0 c Hc); tauto); try (destruct (C1 c Hc); tauto);
      try (destruct (C2 c Hc); tauto).
  - rewrite (resolve_symbol_first_listing yf now period symbol E). cbn [snd].
    split; [lia |]. split; [intros _; exact L0 |].
    intros c Hc. destruct (C0 c Hc). tauto.
Qed.

(** X19, for a listing nobody knows: twelve calls. *)
Lemma resolver_asks_at_most_twelve_times_witness :
  let made :=
    calls (snd (resolve_symbol Samples.bombay_only Samples.noon "3mo"
                               "ZZZ.NS")) in
  let other :=
    if contains ".NS" "ZZZ.NS" then replace ".NS" ".BO" "ZZZ.NS"
    else replace ".BO" ".NS" "ZZZ.NS" in
  let base := replace ".BO" "" (replace ".NS" "" "ZZZ.NS") in
  (List.length made <= 12)%nat
  /\ (empty (chain_data Samples.bombay_only Samples.noon "3mo" "ZZZ.NS")
      = false ->
      (List.length made <= 4)%nat)
  /\ forall c, In c made ->
               (fst c = "ZZZ.NS" \/ fst c = other \/ fst c = base)
               /\ In (snd c) (periods_of "3mo").
Proof.
  apply (resolver_asks_at_most_twelve_times Samples.bombay_only Samples.noon
           "3mo" "ZZZ.NS").
  left. reflexivity.
Defined.

Example unknown_listing_costs_twelve_calls :
  List.length (calls (snd (resolve_symbol Samples.bombay_only Samples.noon
                                          "3mo" "ZZZ.NS"))) = 12%nat.
Proof. reflexivity. Qed.

(** ** The scan *)

Lemma dict_set_nonempty (key : string) (v : Frame)
                        (d : list (string * Frame)) :
  v <> [] -> Forall (fun e => snd e <> []) d ->
  Forall (fun e => snd e <> []) (dict_set key v d).
Proof.
  intros Hv. induction 1 as [| (k, x) rest Hx Hrest IH]; cbn.
  - repeat constructor. exact Hv.
  - destruct (String.eqb k key); constructor; assumption.
Qed.

Lemma scan_nonempty (yf : Provider) (now : datetime) (period : string)
                    (symbols : list string) :
  forall data,
    Forall (fun e => snd e <> []) data ->
    Forall (fun e => snd e <> []) (fst (scan yf now period symbols data)).
Proof.
  induction symbols as [| x rest IH]; intros data F; [exact F |].
  cbn [scan].
  destruct (resolve_symbol yf now period x) as [[s sd] ev].
  destruct sd as [| r sd]; cbn [empty negb].
  - specialize (IH data F). destruct (scan yf now period rest data).
    exact IH.
  - specialize (IH (dict_set s (r :: sd) data)
                   (dict_set_nonempty s (r :: sd) data ltac:(discriminate) F)).
    destruct (scan yf now period rest (dict_set s (r :: sd) data)).
    exact IH.
Qed.

Lemma resolve_symbol_data (yf yf' : Provider) (now : datetime)
                          (period symbol : string) :
  (forall listing,
      chain_data yf now period listing = chain_data yf' now period listing) ->
  fst (resolve_symbol yf now period symbol)
  = fst (resolve_symbol yf' now period symbol).
Proof.
  intros H. unfold resolve_symbol.
  destruct (fetch_stock_data_eta yf now period symbol) as (u & ->).
  destruct (fetch_stock_data_eta yf' now period symbol) as (u' & ->).
  rewrite <- (H symbol).
  destruct (empty (chain_data yf now period symbol)); [| reflexivity].
  destruct (contains ".NS" symbol).
  - destruct (fetch_stock_data_eta yf now period
                (replace ".NS" ".BO" symbol)) as (u1 & ->).
    destruct (fetch_stock_data_eta yf' now period
                (replace ".NS" ".BO" symbol)) as (u1' & ->).
    rewrite <- (H (replace ".NS" ".BO" symbol)).
    destruct (empty (chain_data yf now period (replace ".NS" ".BO" symbol)));
      cbn [negb]; [| reflexivity].
    destruct (fetch_stock_data_eta yf now period
                (replace ".BO" "" (replace ".NS" "" symbol))) as (u2 & ->).
    destruct (fetch_stock_data_eta yf' now period
                (replace ".BO" "" (replace ".NS" "" symbol))) as (u2' & ->).
    rewrite <- (H (replace ".BO" "" (replace ".NS" "" symbol))).
    reflexivity.
  - destruct (contains ".BO" symbol).
    + destruct (fetch_stock_data_eta yf now period
                  (replace ".BO" ".NS" symbol)) as (u1 & ->).
      destruct (fetch_stock_data_eta yf' now period
                  (replace ".BO" ".NS" symbol)) as (u1' & ->).
      rewrite <- (H (replace ".BO" ".NS" symbol)).
      destruct (empty (chain_data yf now period
                         (replace ".BO" ".NS" symbol)));
        cbn [negb]; [| reflexivity].
      destruct (fetch_stock_data_eta yf now period
                  (replace ".BO" "" (replace ".NS" "" symbol))) as (u2 & ->).
      destruct (fetch_stock_data_eta yf' now period
                  (replace ".BO" "" (replace ".NS" "" symbol))) as (u2' & ->).
      rewrite <- (H (replace ".BO" "" (replace ".NS" "" symbol))).
      reflexivity.
    + rewrite (H symbol) at 1. rewrite <- (H symbol).
      destruct (empty (chain_data yf now period symbol)) eqn:E;
        [| reflexivity].
      destruct (fetch_stock_data_eta yf now period
                  (replace ".BO" "" (replace ".NS" "" symbol))) as (u2 & ->).
      destruct (fetch_stock_data_eta yf' now period
                  (replace ".BO" "" (replace ".NS" "" symbol))) as (u2' & ->).
      rewrite <- (H (replace ".BO" "" (replace ".NS" "" symbol))).
      reflexivity.
Qed.

Lemma scan_data (yf yf' : Provider) (now : datetime) (period : string)
                (symbols : list string) :
  (forall listing,
      chain_data yf now period listing = chain_data yf' now period listing) ->
  forall data,
    fst (scan yf now period symbols data)
    = fst (scan yf' now period symbols data).
Proof.
  intros H. induction symbols as [| x rest IH]; intros data; [reflexivity |].
  cbn [scan]. pose proof (resolve_symbol_data yf yf' now period x H) as R.
  destruct (resolve_symbol yf now period x) as [[s sd] ev].
  destruct (resolve_symbol yf' now period x) as [[s' sd'] ev'].
  cbn [fst] in R. injection R as <- <-.
  destruct (negb (empty sd)).
  - specialize (IH (dict_set s sd data)).
    destruct (scan yf now period rest (dict_set s sd data)),
             (scan yf' now period rest (dict_set s sd data)). exact IH.
  - specialize (IH data).
    destruct (scan yf now period rest data), (scan yf' now period rest data).
    exact IH.
Qed.

(** X20: [fetch_nifty50_data] never stores an empty frame: every symbol in
    the dictionary it returns comes with at least one row; and when the
    symbol list cannot be read or is empty it returns the empty dictionary
    without asking the provider. *)
Theorem no_empty_frame_is_stored (csv : option (list string)) (yf : Provider)
                                 (now : datetime) (period : string) :
  Forall (fun e => snd e <> []) (fst (fetch_nifty50_data csv yf now period))
  /\ (csv = None \/ csv = Some [] ->
      fst (fetch_nifty50_data csv yf now period) = []
      /\ calls (snd (fetch_nifty50_data csv yf now period)) = []).
Proof.
  split.
  - unfold fetch_nifty50_data.
    destruct (get_nifty50_symbols csv) as [| x l]; [constructor |].
    apply scan_nonempty. constructor.
  - intros [-> | ->]; split; reflexivity.
Qed.

(** X21: as far as the data returned goes, a provider that raises is a
    provider that returns no rows: replacing every raising call by an empty
    answer changes nothing in the dictionary [fetch_nifty50_data]
    returns. *)
Theorem raising_provider_is_an_empty_one (csv : option (list string))
                                         (yf : Provider) (now : datetime)
                                         (period : string) :
  fst (fetch_nifty50_data csv yf now period)
  = fst (fetch_nifty50_data csv (fun listing => silenced (yf listing))
                            now period).
Proof.
  unfold fetch_nifty50_data.
  destruct (get_nifty50_symbols csv) as [| x l]; [reflexivity |].
  apply scan_data. intros listing. unfold chain_data, fetch_stock_data.
  now destruct (raised_counts_as_empty (yf listing) listing period now
                  (periods_of period)) as (-> & _).
Qed.

(** ** The symbol list *)

Lemma append_same_length_suffix (x y s1 s2 : string) :
  String.length s1 = String.length s2 -> x ++ s1 = y ++ s2 -> x = y.
Proof.
  revert y. induction x as [| c x IH]; intros [| d y] L E; cbn in E.
  - reflexivity.
  - exfalso. apply (f_equal String.length) in E. cbn in E.
    rewrite length_append in E. lia.
  - exfalso. apply (f_equal String.length) in E. cbn in E.
    rewrite length_append in E. lia.
  - injection E as -> E. f_equal. now apply IH.
Qed.

Lemma listing_of_symbol (x : string) :
  mapping_get symbol_mapping x (x ++ ".NS") = x ++ ".BO"
  \/ mapping_get symbol_mapping x (x ++ ".NS") = x ++ ".NS".
Proof.
  unfold symbol_mapping. cbn [mapping_get].
  repeat match goal with
         | |- context [if String.eqb ?k x then _ else _] =>
             destruct (String.eqb_spec k x) as [<- | _]; [now left |]
         end.
  now right.
Qed.

Lemma listing_of_symbol_injective (x y : string) :
  mapping_get symbol_mapping x (x ++ ".NS")
  = mapping_get symbol_mapping y (y ++ ".NS") -> x = y.
Proof.
  destruct (listing_of_symbol x) as [-> | ->],
           (listing_of_symbol y) as [-> | ->];
    apply append_same_length_suffix; reflexivity.
Qed.

(** X22: [get_nifty50_symbols] turns the symbols of the list file into as
    many tickers, in the same order, each being the symbol followed by
    [.NS] or [.BO]; distinct symbols give distinct tickers; and a list file
    that cannot be read gives no ticker. *)
Theorem symbols_become_distinct_tickers (symbols : list string) :
  List.length (get_nifty50_symbols (Some symbols)) = List.length symbols
  /\ Forall2 (fun s ticker => ticker = s ++ ".NS" \/ ticker = s ++ ".BO")
             symbols (get_nifty50_symbols (Some symbols))
  /\ (NoDup symbols -> NoDup (get_nifty50_symbols (Some symbols)))
  /\ get_nifty50_symbols None = [].
Proof.
  cbn [get_nifty50_symbols]. split; [apply length_map |].
  split; [| split; [| reflexivity]].
  - induction symbols as [| x l IH]; cbn [map]; constructor; [| exact IH].
    destruct (listing_of_symbol x) as [-> | ->]; tauto.
  - induction 1 as [| x l Hx Hl IH]; cbn [map]; constructor; [| exact IH].
    intros Hin. apply in_map_iff in Hin. destruct Hin as (y & E & Hy).
    apply listing_of_symbol_injective in E. now subst.
Qed.

Example tickers_of_three_symbols :
  get_nifty50_symbols (Some ["TCS"; "RELIANCE"; "M&M"])
  = ["TCS.NS"; "RELIANCE.BO"; "M&M.BO"].
Proof. reflexivity. Qed.

End FetcherMore.
